(** * wagtail_wordpress_import.importers.wordpress

    A shallow embedding of [WordpressImporter] (importers/wordpress.py) and
    the properties of its import pipeline: mapping inversion, the date, slug
    and stream-field normalisers, record transformation, the create/update
    reconciliation and the import session.

    Conventions.  A Python function that can raise returns a [result]; the
    importer object and the page store are passed in and handed back.  A
    [dict] is an insertion-ordered association list.  The document is the
    sequence of records that the XML stream yields, each a [dict] from tag
    name to text or [None].  The content filters, the block builder,
    Django's text and time helpers and the mapping are parameters.  The
    page store stands for Django and Wagtail: what a call does is a model,
    stated as such where it is defined, and which calls raise is a
    parameter. *)

From Stdlib Require Import String Ascii List Bool Arith NArith Lia.
Import ListNotations.
Open Scope string_scope.
Open Scope list_scope.
Open Scope nat_scope.

(** ** Python values, exceptions and results *)

(** The exceptions the importer can let escape. [ValueError] is what
    [datetime.strptime] raises on text that does not match the format (the
    date-format error), [KeyError] comes from a subscript [d[k]] on a dict,
    [AttributeError] from [None.split], [SystemExit] from [exit()].
    [DjangoError name] is an exception that Django or Wagtail raises inside
    a call the importer makes on a model or a page ([ValidationError] from
    [save], [TypeError] from the constructor of a model, ...), under the
    name of its class; the importer catches none of them. *)
Inductive exn : Type :=
| KeyError (key : string)
| AttributeError
| ValueError
| SystemExit
| DjangoError (name : string).

Inductive result (A : Type) : Type :=
| Ok (a : A)
| Raise (e : exn).
Arguments Ok {A} a.
Arguments Raise {A} e.

Definition bind {A B : Type} (m : result A) (k : A -> result B) : result B :=
  match m with
  | Ok a => k a
  | Raise e => Raise e
  end.

Notation "x <- m ;; k" := (bind m (fun x => k))
  (at level 61, m at next level, right associativity).
Notation "' pat <- m ;; k" := (bind m (fun x => match x with pat => k end))
  (at level 61, pat pattern, m at next level, right associativity).

(** ** Python [dict] with [str] keys

    Insertion ordered: assigning to a key that is present replaces the value
    in place, a new key goes to the end.  [items] is the list itself. *)
Module PyDict.

Definition t (V : Type) : Type := list (string * V).

Definition empty {V : Type} : t V := [].

Fixpoint get {V : Type} (d : t V) (k : string) : option V :=
  match d with
  | [] => None
  | (k', v) :: d' => if String.eqb k' k then Some v else get d' k
  end.

Fixpoint set {V : Type} (d : t V) (k : string) (v : V) : t V :=
  match d with
  | [] => [(k, v)]
  | (k', v') :: d' =>
      if String.eqb k' k then (k', v) :: d' else (k', v') :: set d' k v
  end.

Definition keys {V : Type} (d : t V) : list string := map fst d.

Definition mem {V : Type} (d : t V) (k : string) : bool :=
  match get d k with Some _ => true | None => false end.

(** [d[k]]: raises [KeyError] when the key is missing. *)
Definition subscript {V : Type} (d : t V) (k : string) : result V :=
  match get d k with
  | Some v => Ok v
  | None => Raise (KeyError k)
  end.

End PyDict.

(** ** [str.split(sep)] and [sep.join(parts)] for a one-character separator *)

Fixpoint split (sep : ascii) (s : string) : list string :=
  match s with
  | EmptyString => [EmptyString]
  | String c s' =>
      if Ascii.eqb c sep then EmptyString :: split sep s'
      else match split sep s' with
           | [] => [String c EmptyString]
           | piece :: pieces => String c piece :: pieces
           end
  end.

Fixpoint join (sep : string) (parts : list string) : string :=
  match parts with
  | [] => EmptyString
  | [p] => p
  | p :: ps => p ++ sep ++ join sep ps
  end.

Definition comma : ascii := ","%char.
Definition space : ascii := " "%char.

(** ** The mapping configuration (wordpress_mapping.mapping)

    The module that holds the mapping is not part of the importer; the
    importer reads four entries of it in [__init__]. *)
Module WordpressMapping.

Record mapping : Type := {
  item : PyDict.t string;
  validate_date : string;
  validate_slug : string;
  stream_fields : string
}.

End WordpressMapping.

(** [map_item_inverse]: the two branches of the source ([len(value) == 1]
    and the indexed loop) are kept apart. *)
Definition invert_entry (inverse : PyDict.t string) (entry : string * string)
  : PyDict.t string :=
  let '(key, value) := entry in
  let value := split comma value in
  match value with
  | [single] => PyDict.set inverse single key
  | _ => fold_left (fun inv alias => PyDict.set inv alias key) value inverse
  end.

Definition map_item_inverse (item_mapping : PyDict.t string)
  : PyDict.t string :=
  fold_left invert_entry item_mapping PyDict.empty.

(** ** [datetime] and [datetime.strptime(_, "%Y-%m-%dT%H:%M:%S")]

    Strings are byte strings here, so the digits are the ASCII digits. *)
Module PyDatetime.

Record datetime : Type := {
  year : N; month : N; day : N;
  hour : N; minute : N; second : N
}.

Definition is_leap (y : N) : bool :=
  ((y mod 4 =? 0) && (negb (y mod 100 =? 0) || (y mod 400 =? 0)))%N.

Definition days_in_month (y m : N) : N :=
  (match m with
   | 2 => if is_leap y then 29 else 28
   | 4 | 6 | 9 | 11 => 30
   | _ => 31
   end)%N.

(** The constructor [datetime(y, m, d, H, M, S)]: [None] stands for the
    [ValueError] of an out-of-range component. *)
Definition make (y m d H M S : N) : option datetime :=
  if ((1 <=? y) && (y <=? 9999) && (1 <=? m) && (m <=? 12)
      && (1 <=? d) && (d <=? days_in_month y m)
      && (H <=? 23) && (M <=? 59) && (S <=? 59))%N
  then Some {| year := y; month := m; day := d;
               hour := H; minute := M; second := S |}
  else None.

(** Character classes of the format's regular expression. *)
Definition cls : Type := ascii -> bool.

Definition between (lo hi : ascii) : cls :=
  fun c => ((N_of_ascii lo <=? N_of_ascii c)
            && (N_of_ascii c <=? N_of_ascii hi))%N.

Definition digit : cls := between "0" "9".
Definition lit (a : ascii) : cls := Ascii.eqb a.
(** The expression is compiled with [re.IGNORECASE]. *)
Definition lit_T : cls := fun c => Ascii.eqb c "T" || Ascii.eqb c "t".

(** A sequence of classes matched at the head of the text: the matched
    prefix and the rest. *)
Fixpoint match_seq (p : list cls) (s : string) : option (string * string) :=
  match p with
  | [] => Some (EmptyString, s)
  | c :: p' =>
      match s with
      | EmptyString => None
      | String a s' =>
          if c a then
            match match_seq p' s' with
            | Some (m, rest) => Some (String a m, rest)
            | None => None
            end
          else None
      end
  end.

(** A group of ordered alternatives; when the continuation fails on one
    alternative the next one is tried. *)
Fixpoint match_alt {A : Type} (alts : list (list cls)) (s : string)
  (k : string -> string -> option A) : option A :=
  match alts with
  | [] => None
  | a :: alts' =>
      match match_seq a s with
      | Some (m, rest) =>
          match k m rest with
          | Some r => Some r
          | None => match_alt alts' s k
          end
      | None => match_alt alts' s k
      end
  end.

Definition match_one {A : Type} (c : cls) (s : string)
  (k : string -> option A) : option A :=
  match_alt [[c]] s (fun _ rest => k rest).

(** The groups of [%Y], [%m], [%d], [%H], [%M] and [%S]. *)
Definition re_Y : list (list cls) := [[digit; digit; digit; digit]].
Definition re_m : list (list cls) :=
  [[lit "1"; between "0" "2"]; [lit "0"; between "1" "9"]; [between "1" "9"]].
Definition re_d : list (list cls) :=
  [[lit "3"; between "0" "1"]; [between "1" "2"; digit];
   [lit "0"; between "1" "9"]; [between "1" "9"]; [lit " "; between "1" "9"]].
Definition re_H : list (list cls) :=
  [[lit "2"; between "0" "3"]; [between "0" "1"; digit]; [digit]].
Definition re_M : list (list cls) := [[between "0" "5"; digit]; [digit]].
Definition re_S : list (list cls) :=
  [[lit "6"; between "0" "1"]; [between "0" "5"; digit]; [digit]].

Record groups : Type := {
  g_Y : string; g_m : string; g_d : string;
  g_H : string; g_M : string; g_S : string;
  g_rest : string
}.

Definition match_format (s : string) : option groups :=
  match_alt re_Y s (fun Y s =>
  match_one (lit "-") s (fun s =>
  match_alt re_m s (fun m s =>
  match_one (lit "-") s (fun s =>
  match_alt re_d s (fun d s =>
  match_one lit_T s (fun s =>
  match_alt re_H s (fun H s =>
  match_one (lit ":") s (fun s =>
  match_alt re_M s (fun M s =>
  match_one (lit ":") s (fun s =>
  match_alt re_S s (fun S rest =>
    Some {| g_Y := Y; g_m := m; g_d := d; g_H := H; g_M := M; g_S := S;
            g_rest := rest |}))))))))))).

(** [int(text)] on a matched group: decimal digits, a leading blank (the
    last alternative of [%d]) is skipped. *)
Fixpoint int_acc (acc : N) (s : string) : N :=
  match s with
  | EmptyString => acc
  | String c s' =>
      if Ascii.eqb c " " then int_acc acc s'
      else int_acc (10 * acc + (N_of_ascii c - 48))%N s'
  end.

Definition int_of (s : string) : N := int_acc 0%N s.

(** [None] is the [ValueError]: no match, unconverted data after the
    match, or a component the constructor refuses. *)
Definition strptime (s : string) : option datetime :=
  match match_format s with
  | None => None
  | Some g =>
      if String.eqb (g_rest g) EmptyString then
        make (int_of (g_Y g)) (int_of (g_m g)) (int_of (g_d g))
             (int_of (g_H g)) (int_of (g_M g)) (int_of (g_S g))
      else None
  end.

(** A [datetime] with a [tzinfo] attached. *)
Record aware : Type := { naive : datetime; tzinfo : string }.

End PyDatetime.

(** ** Values of page attributes and of log entries *)
Inductive pyval : Type :=
| PyNone
| PyBool (b : bool)
| PyInt (n : nat)
| PyStr (s : string)
| PyDateTime (d : PyDatetime.aware).

(** A field of a record as [node_to_dict] delivers it: a text or [None]. *)
Definition raw : Type := option string.
Definition raw_item : Type := PyDict.t raw.

Definition of_raw (v : raw) : pyval :=
  match v with
  | Some s => PyStr s
  | None => PyNone
  end.

(** [str(value)] *)
Definition py_str (v : raw) : string :=
  match v with
  | Some s => s
  | None => "None"
  end.

(** Truth value of a text or [None]. *)
Definition truthy (v : raw) : bool :=
  match v with
  | Some s => negb (String.eqb s EmptyString)
  | None => false
  end.

(** [item.get(key)], where the key itself may be [None] (the result of
    [mapping_item_inverse.get]). *)
Definition item_get (item : raw_item) (key : option string) : raw :=
  match key with
  | None => None
  | Some k =>
      match PyDict.get item k with
      | Some v => v
      | None => None
      end
  end.

(** A logged item: the record's fields plus the ["log"] entry that [run]
    stores into it. *)
Inductive item_value : Type :=
| Field (v : raw)
| LogEntry (entry : PyDict.t pyval).

Definition logged_item : Type := PyDict.t item_value.

(** ** The collaborators of the importer

    [slugify] and [make_aware] come from Django; [linebreaks_wp],
    [fix_styles], [bleach_clean] and [BlockBuilder] are the content filters
    and the block builder; [json.dumps] serialises the blocks. *)
Class Collaborators : Type := {
  blocks : Type;
  slugify : string -> string;
  make_aware : PyDatetime.datetime -> PyDatetime.aware;
  linebreaks_wp : string -> string;
  fix_styles : string -> string;
  bleach_clean : string -> string;
  block_builder_build : string -> blocks;
  json_dumps : blocks -> string;
  json_dumps_indent4 : blocks -> string
}.

(** ** The page store: a model of Django and Wagtail

    Django and Wagtail are not part of the importer.  What follows is a
    model of the side the importer talks to, and it is an assumption of
    every statement about reconciliation and about [run]: the registry of
    page models, a table of pages, and the calls the importer makes.

    - What a call does when Django accepts it is fixed by the model: a model
      instance is its class, its primary key, its place in the page tree
      and its other attributes; [save] rewrites the row of the primary key
      or inserts one.
    - Which calls Django refuses, and with which exception, is not fixed: it
      is the parameter [refuses] of the class [Orm] (validation by
      [full_clean], constraints of the tables, arguments the constructor of
      the model does not know, assignments a field or a property rejects).
      A statement that holds for every [Orm] holds however strict Django
      is. *)
Module Store.

(** A page model is named by its app label and model name. *)
Definition model_id : Type := (string * string)%type.

(** A model instance.  [pk] is [None] until the instance is saved;
    [parent] is the primary key of the page it hangs below. *)
Record page : Type := {
  pk : pyval;
  content_type : model_id;
  parent : pyval;
  attrs : PyDict.t pyval
}.

Record t : Type := {
  installed_models : list model_id;
  pages : list page
}.

Definition model_eqb (a b : model_id) : bool :=
  String.eqb (fst a) (fst b) && String.eqb (snd a) (snd b).

Definition datetime_eqb (a b : PyDatetime.datetime) : bool :=
  (N.eqb (PyDatetime.year a) (PyDatetime.year b)
   && N.eqb (PyDatetime.month a) (PyDatetime.month b)
   && N.eqb (PyDatetime.day a) (PyDatetime.day b)
   && N.eqb (PyDatetime.hour a) (PyDatetime.hour b)
   && N.eqb (PyDatetime.minute a) (PyDatetime.minute b)
   && N.eqb (PyDatetime.second a) (PyDatetime.second b)).

Definition pyval_eqb (a b : pyval) : bool :=
  match a, b with
  | PyNone, PyNone => true
  | PyBool x, PyBool y => Bool.eqb x y
  | PyInt x, PyInt y => Nat.eqb x y
  | PyStr x, PyStr y => String.eqb x y
  | PyDateTime x, PyDateTime y =>
      datetime_eqb (PyDatetime.naive x) (PyDatetime.naive y)
      && String.eqb (PyDatetime.tzinfo x) (PyDatetime.tzinfo y)
  | _, _ => false
  end.

(** [apps.get_model(app, model)]; [None] is the [LookupError]. *)
Definition get_model (st : t) (app model : string) : option model_id :=
  if existsb (model_eqb (app, model)) (installed_models st)
  then Some (app, model) else None.

(** [Page.objects.get(pk=id)]; [None] is [Page.DoesNotExist]. *)
Definition get_page (st : t) (id : nat) : option page :=
  find (fun p => pyval_eqb (pk p) (PyInt id)) (pages st).

Definition has_attr (field : string) (v : pyval) (p : page) : bool :=
  match PyDict.get (attrs p) field with
  | Some w => pyval_eqb w v
  | None => false
  end.

(** [model.objects.filter(field=v).first()] *)
Definition filter_first (st : t) (model : model_id) (field : string)
  (v : pyval) : option page :=
  find (fun p => model_eqb (content_type p) model && has_attr field v p)
       (pages st).

(** The names under which [setattr] and the constructor reach the primary
    key of an instance. *)
Definition names_pk (key : string) : bool :=
  String.eqb key "pk" || String.eqb key "id".

(** What [setattr(obj, key, v)] does to the instance. *)
Definition assign (obj : page) (key : string) (v : pyval) : page :=
  if names_pk key
  then {| pk := v; content_type := content_type obj; parent := parent obj;
          attrs := attrs obj |}
  else {| pk := pk obj; content_type := content_type obj;
          parent := parent obj; attrs := PyDict.set (attrs obj) key v |}.

(** The instance with every [key] of [keys] assigned [values[key]]. *)
Definition assign_all (values : PyDict.t pyval) (keys : list string)
  (obj : page) : page :=
  fold_left
    (fun o key =>
       match PyDict.get values key with
       | Some v => assign o key v
       | None => o
       end)
    keys obj.

Definition int_of_pk (v : pyval) : nat :=
  match v with
  | PyInt n => n
  | _ => 0
  end.

Definition fresh_pk (st : t) : nat :=
  S (list_max (map (fun p => int_of_pk (pk p)) (pages st))).

(** Writing an instance to the table, as Django's [Model.save] does: an
    instance without primary key is inserted under a new one; an instance
    with a primary key replaces the row of that key, and is inserted when
    there is no such row. *)
Definition write (st : t) (obj : page) : t * page :=
  match pk obj with
  | PyNone =>
      let obj := {| pk := PyInt (fresh_pk st);
                    content_type := content_type obj;
                    parent := parent obj; attrs := attrs obj |} in
      ({| installed_models := installed_models st;
          pages := pages st ++ [obj] |}, obj)
  | key =>
      if existsb (fun p => pyval_eqb (pk p) key) (pages st)
      then ({| installed_models := installed_models st;
               pages := map (fun p => if pyval_eqb (pk p) key
                                      then obj else p) (pages st) |}, obj)
      else ({| installed_models := installed_models st;
               pages := pages st ++ [obj] |}, obj)
  end.

(** The calls of the importer that run code of Django or Wagtail which can
    raise, with their arguments. *)
Inductive call : Type :=
| New (model : model_id) (values : PyDict.t pyval)
| SetAttr (obj : page) (key : string) (v : pyval)
| AddChild (st : t) (parent_obj obj : page)
| Save (st : t) (obj : page)
| Unpublish (st : t) (obj : page).

(** [refuses c] is the name of the exception with which Django answers the
    call [c], or [None] when it carries the call out. *)
Class Orm : Type := {
  refuses : call -> option string
}.

Section Calls.

Context {O : Orm}.

Definition guard (c : call) : result unit :=
  match refuses c with
  | Some name => Raise (DjangoError name)
  | None => Ok tt
  end.

(** The constructor of the model called with [values] as keyword
    arguments: a new instance, not yet saved. *)
Definition new (model : model_id) (values : PyDict.t pyval) : result page :=
  _ <- guard (New model values) ;;
  Ok (assign_all values (PyDict.keys values)
        {| pk := PyNone; content_type := model; parent := PyNone;
           attrs := PyDict.empty |}).

(** [setattr(obj, key, v)] *)
Definition setattr (obj : page) (key : string) (v : pyval) : result page :=
  _ <- guard (SetAttr obj key v) ;;
  Ok (assign obj key v).

(** [parent.add_child(instance=obj)]: the instance is placed below the
    parent and saved. *)
Definition add_child (st : t) (parent_obj obj : page) : result (t * page) :=
  _ <- guard (AddChild st parent_obj obj) ;;
  Ok (write st {| pk := pk obj; content_type := content_type obj;
                  parent := pk parent_obj; attrs := attrs obj |}).

(** [obj.save()] *)
Definition save (st : t) (obj : page) : result (t * page) :=
  _ <- guard (Save st obj) ;;
  Ok (write st obj).

(** [obj.unpublish()]: the page is taken off line and saved.  For a page
    that is off line already this writes the row it has. *)
Definition unpublish (st : t) (obj : page) : result (t * page) :=
  _ <- guard (Unpublish st obj) ;;
  Ok (write st {| pk := pk obj; content_type := content_type obj;
                  parent := parent obj;
                  attrs := PyDict.set (attrs obj) "live" (PyBool false) |}).

End Calls.

(** Two pages below one parent with the same slug, which Wagtail's
    validation does not allow. *)
Definition slug_taken (st : t) (obj : page) : bool :=
  existsb
    (fun p =>
       negb (pyval_eqb (pk p) (pk obj))
       && pyval_eqb (parent p) (parent obj)
       && match PyDict.get (attrs p) "slug", PyDict.get (attrs obj) "slug"
          with
          | Some a, Some b => pyval_eqb a b
          | _, _ => false
          end)
    (pages st).

(** A reference for the refusals: a write that would leave two pages
    with one slug below one parent raises [ValidationError]; nothing else
    is refused. *)
Definition wagtail : Orm :=
  {| refuses :=
       fun c =>
         match c with
         | AddChild st parent_obj obj =>
             if slug_taken st {| pk := pk obj;
                                 content_type := content_type obj;
                                 parent := pk parent_obj;
                                 attrs := attrs obj |}
             then Some "ValidationError" else None
         | Save st obj =>
             if slug_taken st obj then Some "ValidationError" else None
         | _ => None
         end |}.

End Store.

(** ** [WordpressImporter] *)

Fixpoint foldM {A S : Type} (f : S -> A -> result S) (l : list A) (s : S)
  : result S :=
  match l with
  | [] => Ok s
  | x :: l' => s' <- f s x ;; foldM f l' s'
  end.

Definition raw_eqb (a b : raw) : bool :=
  match a, b with
  | Some x, Some y => String.eqb x y
  | None, None => true
  | _, _ => false
  end.

(** [value in items] for a list of texts. *)
Definition py_in (v : raw) (l : list string) : bool :=
  match v with
  | Some s => existsb (String.eqb s) l
  | None => false
  end.

Record importer : Type := {
  xml_file : list raw_item;
  mapping : WordpressMapping.mapping;
  mapping_item : PyDict.t string;
  mapping_valid_date : string;
  mapping_valid_slug : string;
  mapping_stream_fields : string;
  mapping_item_inverse : PyDict.t string;
  log_processed : nat;
  log_imported : nat;
  log_skipped : nat;
  logged_items : list logged_item;
  page_model_instance : option Store.model_id;
  parent_page_obj : option Store.page
}.

(** The keyword arguments of [run]. *)
Record kwargs : Type := {
  app_for_pages : string;
  model_for_pages : string;
  parent_id : nat;
  page_types : list string;
  page_statuses : list string
}.

(** [__init__]: the document stands for the file at [xml_file_path], as
    the sequence of records [node_to_dict] yields for its [item] elements. *)
Definition init (xml_file_path : list raw_item)
  (m : WordpressMapping.mapping) : importer :=
  {| xml_file := xml_file_path;
     mapping := m;
     mapping_item := WordpressMapping.item m;
     mapping_valid_date := WordpressMapping.validate_date m;
     mapping_valid_slug := WordpressMapping.validate_slug m;
     mapping_stream_fields := WordpressMapping.stream_fields m;
     mapping_item_inverse := map_item_inverse (WordpressMapping.item m);
     log_processed := 0;
     log_imported := 0;
     log_skipped := 0;
     logged_items := [];
     page_model_instance := None;
     parent_page_obj := None |}.

Definition sentinel_date : string := "0000-00-00 00:00:00".
Definition fallback_date : string := "1900-01-01 00:00:00".

Definition log_entry (result reason : string) (datecheck slugcheck : pyval)
  : PyDict.t pyval :=
  [("result", PyStr result); ("reason", PyStr reason);
   ("datecheck", datecheck); ("slugcheck", slugcheck)].

(** [item["log"] = entry] *)
Definition set_log (item : raw_item) (entry : PyDict.t pyval) : logged_item :=
  PyDict.set (map (fun kv => (fst kv, Field (snd kv))) item) "log"
             (LogEntry entry).

Section Importer.

Context {C : Collaborators} {O : Store.Orm}.

Definition parse_date (value : raw) : result (PyDatetime.aware * bool) :=
  let valid := true in
  let '(value, valid) :=
    if raw_eqb value (Some sentinel_date)
    then (Some fallback_date, false)
    else (value, valid) in
  match value with
  | None => Raise AttributeError
  | Some text =>
      let date_utc := join "T" (split space text) in
      match PyDatetime.strptime date_utc with
      | Some d => Ok (make_aware d, valid)
      | None => Raise ValueError
      end
  end.

(** [changed] starts as [None] in the source and is assigned in both
    branches before it is read. *)
Definition parse_slug (value title : raw) : string * string :=
  let '(slug, changed) :=
    if negb (truthy value)
    then (slugify (py_str title), "blank slug")
    else (slugify (py_str value), "OK") in
  let changed :=
    if truthy value && negb (String.eqb slug (py_str value))
    then "illegal chars found"
    else changed in
  (slug, changed).

Definition parse_stream_fields (value : raw) : string * string * blocks :=
  let value := linebreaks_wp (py_str value) in
  let value := fix_styles value in
  let value := bleach_clean value in
  let blocks := block_builder_build value in
  (json_dumps blocks, value, blocks).

(** The four loops of [get_values]. *)
Definition copy_field (item : raw_item) (page_values : PyDict.t pyval)
  (entry : string * string) : result (PyDict.t pyval) :=
  let '(field, mapped) := entry in
  v <- PyDict.subscript item mapped ;;
  Ok (PyDict.set page_values field (of_raw v)).

Definition stream_field (self : importer) (item : raw_item)
  (page_values : PyDict.t pyval) (html : string) : PyDict.t pyval :=
  let '(sfv, value, blocks) :=
    parse_stream_fields
      (item_get item (PyDict.get (mapping_item_inverse self) html)) in
  let page_values := PyDict.set page_values html (PyStr sfv) in
  let page_values :=
    PyDict.set page_values "wp_processed_content" (PyStr value) in
  PyDict.set page_values "wp_block_json" (PyStr (json_dumps_indent4 blocks)).

Definition date_field (self : importer) (item : raw_item)
  (acc : PyDict.t pyval * list bool) (df : string)
  : result (PyDict.t pyval * list bool) :=
  let '(page_values, date_valid) := acc in
  date <- parse_date
            (item_get item (PyDict.get (mapping_item_inverse self) df)) ;;
  Ok (PyDict.set page_values df (PyDateTime (fst date)),
      date_valid ++ [snd date]).

Definition slug_field (self : importer) (item : raw_item)
  (acc : PyDict.t pyval * pyval) (sf : string) : PyDict.t pyval * pyval :=
  let '(page_values, _) := acc in
  let slug :=
    parse_slug (item_get item (PyDict.get (mapping_item_inverse self) sf))
               (item_get item (Some "title")) in
  (PyDict.set page_values sf (PyStr (fst slug)), PyStr (snd slug)).

Definition get_values (self : importer) (item : raw_item)
  : result (PyDict.t pyval * bool * pyval) :=
  let page_values := PyDict.empty in
  let date_valid := [] in
  let date_fields := split comma (mapping_valid_date self) in
  let slug_changed := PyBool false in
  let slug_fields := split comma (mapping_valid_slug self) in
  let stream_fields := split comma (mapping_stream_fields self) in
  page_values <-
    foldM (copy_field item) (mapping_item_inverse self) page_values ;;
  let page_values :=
    fold_left (stream_field self item) stream_fields page_values in
  '(page_values, date_valid) <-
    foldM (date_field self item) date_fields (page_values, date_valid) ;;
  let '(page_values, slug_changed) :=
    fold_left (slug_field self item) slug_fields
              (page_values, slug_changed) in
  let date_valid := forallb (fun b => b) date_valid in
  Ok (page_values, date_valid, slug_changed).

Definition is_draft (status : raw) : bool := raw_eqb status (Some "draft").

(** [create_page] and [update_page]: [self.page_model_instance] and
    [self.parent_page_obj], which [run] sets before its loop, are the
    arguments [model] and [parent_obj]; the store comes in and goes out.
    An exception of Django in any of the calls leaves the function. *)
Definition create_page (st : Store.t) (model : Store.model_id)
  (parent_obj : Store.page) (values : PyDict.t pyval) (status : raw)
  : result (Store.t * Store.page * string) :=
  obj <- Store.new model values ;;
  obj <-
    (if is_draft status
     then Store.setattr obj "live" (PyBool false)
     else Store.setattr obj "live" (PyBool true)) ;;
  '(st, obj) <- Store.add_child st parent_obj obj ;;
  Ok (st, obj, "created").

(** [for key in values.keys(): setattr(obj, key, values[key])] *)
Definition set_attrs (obj : Store.page) (values : PyDict.t pyval)
  : result Store.page :=
  foldM
    (fun obj key =>
       v <- PyDict.subscript values key ;;
       Store.setattr obj key v)
    (PyDict.keys values) obj.

Definition update_page (st : Store.t) (page_exists : Store.page)
  (values : PyDict.t pyval) (status : raw)
  : result (Store.t * Store.page * string) :=
  let obj := page_exists in
  obj <- set_attrs obj values ;;
  '(st, obj) <- Store.save st obj ;;
  '(st, obj) <-
    (if is_draft status then Store.unpublish st obj else Ok (st, obj)) ;;
  Ok (st, obj, "updated").

Definition eligible (kw : kwargs) (item : raw_item) : bool :=
  py_in (item_get item (Some "wp:post_type")) (page_types kw)
  && py_in (item_get item (Some "wp:status")) (page_statuses kw).

(** [self.log_processed += _], [self.log_imported += _],
    [self.log_skipped += _] and [self.logged_items.append(_)]. *)
Definition bump (self : importer) (processed imported skipped : nat)
  (logged : list logged_item) : importer :=
  {| xml_file := xml_file self;
     mapping := mapping self;
     mapping_item := mapping_item self;
     mapping_valid_date := mapping_valid_date self;
     mapping_valid_slug := mapping_valid_slug self;
     mapping_stream_fields := mapping_stream_fields self;
     mapping_item_inverse := mapping_item_inverse self;
     log_processed := log_processed self + processed;
     log_imported := log_imported self + imported;
     log_skipped := log_skipped self + skipped;
     logged_items := logged_items self ++ logged;
     page_model_instance := page_model_instance self;
     parent_page_obj := parent_page_obj self |}.

(** The body of the loop of [run] for one [item] element.  The [print] of
    the title and the outcome is console output and is left out. *)
Definition process_item (model : Store.model_id) (parent_obj : Store.page)
  (kw : kwargs) (state : importer * Store.t) (item : raw_item)
  : result (importer * Store.t) :=
  let '(self, st) := state in
  let self := bump self 1 0 0 [] in
  if eligible kw item then
    '(item_dict, dates_valid, slugs_valid) <- get_values self item ;;
    let status := item_get item (Some "wp:status") in
    let page_exists :=
      Store.filter_first st model "wp_post_id"
                         (of_raw (item_get item (Some "wp:post_id"))) in
    match page_exists with
    | Some existing =>
        '(st, _, _) <- update_page st existing item_dict status ;;
        let logged :=
          set_log item (log_entry "updated" "existed"
                                  (PyBool dates_valid) slugs_valid) in
        Ok (bump self 0 1 0 [logged], st)
    | None =>
        '(st, _, _) <- create_page st model parent_obj item_dict status ;;
        let logged :=
          set_log item (log_entry "created" "new"
                                  (PyBool dates_valid) slugs_valid) in
        Ok (bump self 0 1 0 [logged], st)
    end
  else
    let logged :=
      set_log item (log_entry "skipped" "no title or status match"
                              (PyStr "") (PyStr "")) in
    Ok (bump self 0 0 1 [logged], st).

(** [self.page_model_instance = _] and [self.parent_page_obj = _]. *)
Definition with_target (self : importer) (model : Store.model_id)
  (parent_obj : Store.page) : importer :=
  {| xml_file := xml_file self;
     mapping := mapping self;
     mapping_item := mapping_item self;
     mapping_valid_date := mapping_valid_date self;
     mapping_valid_slug := mapping_valid_slug self;
     mapping_stream_fields := mapping_stream_fields self;
     mapping_item_inverse := mapping_item_inverse self;
     log_processed := log_processed self;
     log_imported := log_imported self;
     log_skipped := log_skipped self;
     logged_items := logged_items self;
     page_model_instance := Some model;
     parent_page_obj := Some parent_obj |}.

(** The tuple [run] returns. *)
Definition run_result (self : importer)
  : nat * nat * nat * list logged_item :=
  (log_imported self, log_skipped self, log_processed self,
   logged_items self).

(** [run]: the returned tuple, with the importer and the store as the run
    leaves them.  A model or a parent that cannot be found ends the run
    with [exit()] before any record is read; an exception in the loop ends
    the run with that exception. *)
Definition run (self : importer) (kw : kwargs) (st : Store.t)
  : result (nat * nat * nat * list logged_item * importer * Store.t) :=
  let xml_doc := xml_file self in
  match Store.get_model st (app_for_pages kw) (model_for_pages kw) with
  | None => Raise SystemExit
  | Some model =>
      match Store.get_page st (parent_id kw) with
      | None => Raise SystemExit
      | Some parent_obj =>
          let self := with_target self model parent_obj in
          '(self, st) <-
            foldM (process_item model parent_obj kw) xml_doc (self, st) ;;
          Ok (run_result self, self, st)
      end
  end.

End Importer.

(** ** A reference configuration

    Concrete collaborators on which the importer can be run: Django's
    [slugify] on ASCII text, a fixed time zone, and content filters that
    each mark the text they have seen, so that the order of the stages
    shows in the result. *)
Module DjangoText.

Definition in_range (lo hi : N) (c : ascii) : bool :=
  ((lo <=? N_of_ascii c) && (N_of_ascii c <=? hi))%N.

Definition is_lower : ascii -> bool := in_range 97 122.
Definition is_upper : ascii -> bool := in_range 65 90.
Definition is_digit : ascii -> bool := in_range 48 57.
Definition is_ascii : ascii -> bool := in_range 0 127.

(** [\s] on ASCII text *)
Definition is_space (c : ascii) : bool :=
  in_range 9 13 c || in_range 28 32 c.

Definition is_hyphen (c : ascii) : bool := Ascii.eqb c "-".
Definition is_underscore (c : ascii) : bool := Ascii.eqb c "_".

(** [\w] on ASCII text *)
Definition is_word (c : ascii) : bool :=
  is_lower c || is_upper c || is_digit c || is_underscore c.

Definition lower (c : ascii) : ascii :=
  if is_upper c then ascii_of_N (N_of_ascii c + 32) else c.

Fixpoint smap (f : ascii -> ascii) (s : string) : string :=
  match s with
  | EmptyString => EmptyString
  | String c s' => String (f c) (smap f s')
  end.

Fixpoint sfilter (f : ascii -> bool) (s : string) : string :=
  match s with
  | EmptyString => EmptyString
  | String c s' => if f c then String c (sfilter f s') else sfilter f s'
  end.

Fixpoint sforall (f : ascii -> bool) (s : string) : bool :=
  match s with
  | EmptyString => true
  | String c s' => f c && sforall f s'
  end.

(** [re.sub(r"[-\s]+", "-", value)] *)
Fixpoint collapse (in_run : bool) (s : string) : string :=
  match s with
  | EmptyString => EmptyString
  | String c s' =>
      if is_hyphen c || is_space c then
        if in_run then collapse true s' else String "-" (collapse true s')
      else String c (collapse false s')
  end.

Definition strip_char (c : ascii) : bool := is_hyphen c || is_underscore c.

Fixpoint lstrip (s : string) : string :=
  match s with
  | EmptyString => EmptyString
  | String c s' => if strip_char c then lstrip s' else s
  end.

Fixpoint rstrip (s : string) : string :=
  match s with
  | EmptyString => EmptyString
  | String c s' =>
      match rstrip s' with
      | EmptyString =>
          if strip_char c then EmptyString else String c EmptyString
      | r => String c r
      end
  end.

(** [django.utils.text.slugify(value)], [allow_unicode=False]: bytes
    outside ASCII are dropped, the text is lower-cased, everything but
    word characters, blanks and hyphens is removed, runs of blanks and
    hyphens become one hyphen, and hyphens and underscores are stripped
    from both ends. *)
Definition slugify (value : string) : string :=
  let value := sfilter is_ascii value in
  let value :=
    sfilter (fun c => is_word c || is_space c || is_hyphen c)
            (smap lower value) in
  rstrip (lstrip (collapse false value)).

(** The alphabet of a slug: letters, digits, hyphen, underscore. *)
Definition slug_char (c : ascii) : bool :=
  is_lower c || is_upper c || is_digit c || is_hyphen c || is_underscore c.

End DjangoText.

(** A text is identifier-safe when every character of it is a letter, a
    digit, a hyphen or an underscore. *)
Definition identifier_safe (s : string) : Prop :=
  DjangoText.sforall DjangoText.slug_char s = true.

Definition reference : Collaborators :=
  {| blocks := list string;
     slugify := DjangoText.slugify;
     make_aware := fun d => {| PyDatetime.naive := d;
                               PyDatetime.tzinfo := "UTC" |};
     linebreaks_wp := fun s => (s ++ "|linebreaks_wp")%string;
     fix_styles := fun s => (s ++ "|fix_styles")%string;
     bleach_clean := fun s => (s ++ "|bleach_clean")%string;
     block_builder_build := fun s => [s];
     json_dumps := fun b => ("[" ++ join ", " b ++ "]")%string;
     json_dumps_indent4 :=
       fun b => ("[    " ++ join ",    " b ++ "]")%string |}.

(** The date the spec calls well-formed: nineteen characters
    [YYYY-MM-DD HH:MM:SS], every field made of digits, naming a date and a
    time of day that exist.  The result is the moment the text names. *)
Definition all_digits (s : string) : bool :=
  DjangoText.sforall PyDatetime.digit s.

Definition well_formed_date (s : string) : option PyDatetime.datetime :=
  match s with
  | String y1 (String y2 (String y3 (String y4 (String c1
    (String m1 (String m2 (String c2
    (String d1 (String d2 (String c3
    (String H1 (String H2 (String c4
    (String M1 (String M2 (String c5
    (String S1 (String S2 EmptyString)))))))))))))))))) =>
      let Y := String y1 (String y2 (String y3 (String y4 EmptyString))) in
      let m := String m1 (String m2 EmptyString) in
      let d := String d1 (String d2 EmptyString) in
      let H := String H1 (String H2 EmptyString) in
      let M := String M1 (String M2 EmptyString) in
      let S := String S1 (String S2 EmptyString) in
      if Ascii.eqb c1 "-" && Ascii.eqb c2 "-" && Ascii.eqb c3 " "
         && Ascii.eqb c4 ":" && Ascii.eqb c5 ":"
         && all_digits Y && all_digits m && all_digits d
         && all_digits H && all_digits M && all_digits S
      then PyDatetime.make (PyDatetime.int_of Y) (PyDatetime.int_of m)
                           (PyDatetime.int_of d) (PyDatetime.int_of H)
                           (PyDatetime.int_of M) (PyDatetime.int_of S)
      else None
  | _ => None
  end.

(** The text with every blank replaced by [T]. *)
Definition blanks_to_T (s : string) : string :=
  DjangoText.smap (fun c => if Ascii.eqb c space then "T"%char else c) s.

(** The ["result"] of the log entry of a logged item. *)
Definition log_field (name : string) (logged : logged_item) : option pyval :=
  match PyDict.get logged "log" with
  | Some (LogEntry entry) => PyDict.get entry name
  | _ => None
  end.

(** The raw value that feeds a target field of a record. *)
Definition source_of (self : importer) (item : raw_item) (field : string)
  : raw :=
  item_get item (PyDict.get (mapping_item_inverse self) field).

(** The validity that [parse_date] reports when it returns: false exactly
    for the sentinel. *)
Definition date_flag (self : importer) (item : raw_item) (field : string)
  : bool :=
  negb (raw_eqb (source_of self item field) (Some sentinel_date)).

(** ** A sample site

    A mapping in the shape of the one the importer ships with, three
    records and a store with a root page and a home page. *)
Module Sample.

Definition mapping : WordpressMapping.mapping :=
  {| WordpressMapping.item :=
       [("title", "title");
        ("wp:post_name", "slug");
        ("wp:post_date_gmt", "first_published_at");
        ("wp:post_modified_gmt",
         "last_published_at,latest_revision_created_at");
        ("content:encoded", "body");
        ("wp:post_id", "wp_post_id");
        ("wp:post_type", "wp_post_type");
        ("link", "wp_link")];
     WordpressMapping.validate_date :=
       "first_published_at,last_published_at,latest_revision_created_at";
     WordpressMapping.validate_slug := "slug";
     WordpressMapping.stream_fields := "body" |}.

(** The same mapping with a second slug field. *)
Definition two_slug_mapping : WordpressMapping.mapping :=
  {| WordpressMapping.item :=
       WordpressMapping.item mapping ++ [("wp:old_slug", "wp_old_slug")];
     WordpressMapping.validate_date := WordpressMapping.validate_date mapping;
     WordpressMapping.validate_slug := "slug,wp_old_slug";
     WordpressMapping.stream_fields := "body" |}.

Definition post : raw_item :=
  [("title", Some "Hello World!");
   ("link", Some "https://example.com/hello-world");
   ("wp:post_id", Some "11");
   ("wp:post_name", Some "Bad Slug!");
   ("wp:old_slug", Some "fine-slug");
   ("wp:post_date_gmt", Some "2021-03-04 05:06:07");
   ("wp:post_modified_gmt", Some "0000-00-00 00:00:00");
   ("content:encoded", Some "<p>Hi</p>");
   ("wp:post_type", Some "post");
   ("wp:status", Some "publish")].

Definition draft : raw_item :=
  [("title", Some "Work in progress");
   ("link", Some "https://example.com/?p=12");
   ("wp:post_id", Some "12");
   ("wp:post_name", None);
   ("wp:old_slug", None);
   ("wp:post_date_gmt", Some "2021-03-05 10:00:00");
   ("wp:post_modified_gmt", Some "2021-03-06 11:30:00");
   ("content:encoded", Some "draft text");
   ("wp:post_type", Some "post");
   ("wp:status", Some "draft")].

(** An attachment: not an eligible type, and without most fields. *)
Definition attachment : raw_item :=
  [("title", Some "photo.jpg");
   ("wp:post_id", Some "13");
   ("wp:post_type", Some "attachment");
   ("wp:status", Some "inherit")].

(** A post without its [link] element. *)
Definition post_without_link : raw_item :=
  [("title", Some "No link");
   ("wp:post_id", Some "14");
   ("wp:post_name", Some "no-link");
   ("wp:post_date_gmt", Some "2021-03-04 05:06:07");
   ("wp:post_modified_gmt", Some "2021-03-04 05:06:07");
   ("content:encoded", Some "text");
   ("wp:post_type", Some "post");
   ("wp:status", Some "publish")].

Definition document : list raw_item := [post; attachment; draft; post].

Definition page_model : Store.model_id := ("pages", "PostPage").

Definition store : Store.t :=
  {| Store.installed_models := [("wagtailcore", "Page"); page_model];
     Store.pages :=
       [{| Store.pk := PyInt 1;
           Store.content_type := ("wagtailcore", "Page");
           Store.parent := PyNone;
           Store.attrs := [("title", PyStr "Root")] |};
        {| Store.pk := PyInt 2;
           Store.content_type := ("wagtailcore", "Page");
           Store.parent := PyInt 1;
           Store.attrs := [("title", PyStr "Home");
                           ("live", PyBool true)] |}] |}.

Definition home : Store.page :=
  {| Store.pk := PyInt 2; Store.content_type := ("wagtailcore", "Page");
     Store.parent := PyInt 1;
     Store.attrs := [("title", PyStr "Home"); ("live", PyBool true)] |}.

(** A page imported earlier for the post 11, and the store with it. *)
Definition imported_page : Store.page :=
  {| Store.pk := PyInt 3; Store.content_type := page_model;
     Store.parent := PyInt 2;
     Store.attrs := [("title", PyStr "Old title");
                     ("wp_post_id", PyStr "11");
                     ("owner", PyStr "editor");
                     ("live", PyBool true)] |}.

Definition imported_store : Store.t :=
  {| Store.installed_models := Store.installed_models store;
     Store.pages := Store.pages store ++ [imported_page] |}.

Definition new_values : PyDict.t pyval :=
  [("title", PyStr "New title"); ("wp_post_id", PyStr "11")].

Definition options : kwargs :=
  {| app_for_pages := "pages";
     model_for_pages := "PostPage";
     parent_id := 2;
     page_types := ["post"; "page"];
     page_statuses := ["publish"; "draft"] |}.

End Sample.

(** The part of the importer that [get_values] reads. *)
Definition config_of (self : importer)
  : PyDict.t string * string * string * string :=
  (mapping_item_inverse self, mapping_valid_date self,
   mapping_valid_slug self, mapping_stream_fields self).

(** The log entry of a record that is skipped. *)
Definition skipped_entry : PyDict.t pyval :=
  log_entry "skipped" "no title or status match" (PyStr "") (PyStr "").

(** A mapping that carries the identity: the target field [wp_post_id] is
    fed by the source field [wp:post_id] and by no normaliser. *)
Definition identity_mapped (m : WordpressMapping.mapping) : Prop :=
  PyDict.get (map_item_inverse (WordpressMapping.item m)) "wp_post_id"
  = Some "wp:post_id"
  /\ ~ In "wp_post_id" (split comma (WordpressMapping.stream_fields m))
  /\ ~ In "wp_post_id" (split comma (WordpressMapping.validate_date m))
  /\ ~ In "wp_post_id" (split comma (WordpressMapping.validate_slug m)).

(** Every page of a store has a primary key, and primary keys are
    unique. *)
Definition store_wf (st : Store.t) : Prop :=
  NoDup (map Store.pk (Store.pages st))
  /\ ~ In PyNone (map Store.pk (Store.pages st)).

(** No target field of the mapping is called [key]: the transformed record
    has no such key. *)
Definition untargeted (m : WordpressMapping.mapping) (key : string) : Prop :=
  PyDict.get (map_item_inverse (WordpressMapping.item m)) key = None
  /\ ~ In key (split comma (WordpressMapping.stream_fields m))
  /\ ~ In key (split comma (WordpressMapping.validate_date m))
  /\ ~ In key (split comma (WordpressMapping.validate_slug m)).

(** A mapping that leaves the primary key of a page alone: no target field
    is called [pk] or [id]. *)
Definition keeps_primary_key (m : WordpressMapping.mapping) : Prop :=
  untargeted m "pk" /\ untargeted m "id".

(** The store holds a page of the model with the given identity. *)
Definition known (model : Store.model_id) (st : Store.t) (v : pyval) : Prop :=
  exists p, In p (Store.pages st)
            /\ Store.model_eqb (Store.content_type p) model = true
            /\ Store.has_attr "wp_post_id" v p = true.

(** The identity of a record. *)
Definition identity_of (item : raw_item) : pyval :=
  of_raw (item_get item (Some "wp:post_id")).

Section Audit.

Context {C : Collaborators}.

(** The logged item that belongs to a record: the record with a log
    entry, which is the skipped entry when the record is not eligible and
    reports a creation or an update with the record's validity signals
    when it is. *)
Definition audit_of (self : importer) (kw : kwargs) (item : raw_item)
  (logged : logged_item) : Prop :=
  exists entry,
    logged = set_log item entry
    /\ if eligible kw item then
         exists outcome reason vals dv sc,
           get_values self item = Ok (vals, dv, sc)
           /\ entry = log_entry outcome reason (PyBool dv) sc
           /\ (outcome = "created" \/ outcome = "updated")
       else entry = skipped_entry.

(** What the log entry of a logged item says, read field by field. *)
Definition log_says (logged : logged_item) (result reason : string)
  (datecheck slugcheck : pyval) : Prop :=
  log_field "result" logged = Some (PyStr result)
  /\ log_field "reason" logged = Some (PyStr reason)
  /\ log_field "datecheck" logged = Some datecheck
  /\ log_field "slugcheck" logged = Some slugcheck.

(** The logged item still has every field of the record. *)
Definition keeps_fields (item : raw_item) (logged : logged_item) : Prop :=
  forall key, key <> "log" ->
    PyDict.get logged key = option_map Field (PyDict.get item key).

(** The logged item of a record, by what can be read from it: the fields
    of the record, and a log entry that for a record which is not eligible
    reports the skip, with its reason and empty checks, and for an
    eligible record reports a creation or an update with the validity
    signals that [get_values] gave for the record. *)
Definition audited (self : importer) (kw : kwargs) (item : raw_item)
  (logged : logged_item) : Prop :=
  keeps_fields item logged
  /\ if eligible kw item then
       exists vals dv sc,
         get_values self item = Ok (vals, dv, sc)
         /\ (log_says logged "created" "new" (PyBool dv) sc
             \/ log_says logged "updated" "existed" (PyBool dv) sc)
     else
       log_says logged "skipped" "no title or status match"
                (PyStr "") (PyStr "").

End Audit.

(** ** [analyze_html]

    The analyzer is the caller's object: its state and its [analyze]
    method are arguments.  Here [linebreaks_wp] receives the value of
    [item.get] as it is, without [str]; what it does with [None] is not
    the importer's and is an argument too. *)
Section Analyzer.

Context {C : Collaborators}.
Variable analyzer : Type.
Variable analyze : analyzer -> string -> result analyzer.
Variable linebreaks_wp_none : result string.

Definition linebreaks_wp_value (value : raw) : result string :=
  match value with
  | Some text => Ok (linebreaks_wp text)
  | None => linebreaks_wp_none
  end.

Definition analyze_field (self : importer) (item : raw_item)
  (html_analyzer : analyzer) (html : string) : result analyzer :=
  value <- linebreaks_wp_value
             (item_get item (PyDict.get (mapping_item_inverse self) html)) ;;
  analyze html_analyzer value.

Definition analyze_item (self : importer)
  (page_types page_statuses : list string) (html_analyzer : analyzer)
  (item : raw_item) : result analyzer :=
  if py_in (item_get item (Some "wp:post_type")) page_types
     && py_in (item_get item (Some "wp:status")) page_statuses
  then
    let stream_fields := split comma (mapping_stream_fields self) in
    foldM (analyze_field self item) stream_fields html_analyzer
  else Ok html_analyzer.

Definition analyze_html (self : importer) (html_analyzer : analyzer)
  (page_types page_statuses : list string) : result analyzer :=
  let xml_doc := xml_file self in
  foldM (analyze_item self page_types page_statuses) xml_doc html_analyzer.

End Analyzer.

(** The logged item reports a creation. *)
Definition is_created (logged : logged_item) : bool :=
  match log_field "result" logged with
  | Some (PyStr outcome) => String.eqb outcome "created"
  | _ => false
  end.

(** The text has no blank. *)
Definition no_blank (s : string) : bool :=
  DjangoText.sforall (fun c => negb (Ascii.eqb c space)) s.

(** Further sample data: an analyzer that keeps the texts it is handed, a
    document in which one post occurs twice, and a mapping with two stream
    fields of which the second is not mapped. *)
Module Cases.

Definition collect (seen : list string) (text : string)
  : result (list string) :=
  Ok (seen ++ [text]).

Definition repeated_document : list raw_item :=
  [Sample.attachment; Sample.post; Sample.draft; Sample.attachment;
   Sample.post].

Definition broken_document : list raw_item :=
  [Sample.post; Sample.attachment; Sample.post_without_link; Sample.draft].

Definition attachments : list raw_item :=
  [Sample.attachment; Sample.attachment].




(** A second post with the slug of the first. *)
Definition same_slug_post : raw_item :=
  [("title", Some "Hello again");
   ("link", Some "https://example.com/hello-again");
   ("wp:post_id", Some "15");
   ("wp:post_name", Some "bad-slug");
   ("wp:old_slug", None);
   ("wp:post_date_gmt", Some "2021-03-07 08:00:00");
   ("wp:post_modified_gmt", Some "2021-03-07 08:00:00");
   ("content:encoded", Some "<p>Again</p>");
   ("wp:post_type", Some "post");
   ("wp:status", Some "publish")].

Definition clashing_document : list raw_item :=
  [Sample.post; same_slug_post].

(** Transformed values that name the primary key. *)
Definition moving_values : PyDict.t pyval :=
  [("title", PyStr "Moved"); ("pk", PyStr "999")].

Definition two_stream_mapping : WordpressMapping.mapping :=
  {| WordpressMapping.item := WordpressMapping.item Sample.mapping;
     WordpressMapping.validate_date :=
       WordpressMapping.validate_date Sample.mapping;
     WordpressMapping.validate_slug := "slug";
     WordpressMapping.stream_fields := "body,excerpt" |}.

(** A mapping whose date setting names a field that is not mapped. *)
Definition unmapped_date_mapping : WordpressMapping.mapping :=
  {| WordpressMapping.item := WordpressMapping.item Sample.mapping;
     WordpressMapping.validate_date := "first_published_at,go_live_at";
     WordpressMapping.validate_slug := "slug";
     WordpressMapping.stream_fields := "body" |}.

Definition unknown_model_options : kwargs :=
  {| app_for_pages := "pages";
     model_for_pages := "NewsPage";
     parent_id := 2;
     page_types := ["post"; "page"];
     page_statuses := ["publish"; "draft"] |}.

End Cases.

(** * Properties *)

(** ** Dictionaries *)

Lemma get_set_eq {V : Type} (d : PyDict.t V) (k : string) (v : V) :
  PyDict.get (PyDict.set d k v) k = Some v.
Proof.
  induction d as [|[k' v'] d IH]; simpl.
  - now rewrite String.eqb_refl.
  - destruct (String.eqb k' k) eqn:E; simpl; rewrite E; auto.
Qed.

Lemma get_set_ne {V : Type} (d : PyDict.t V) (k k' : string) (v : V) :
  k <> k' -> PyDict.get (PyDict.set d k v) k' = PyDict.get d k'.
Proof.
  intros Hne.
  induction d as [|[k0 v0] d IH]; simpl.
  - destruct (String.eqb k k') eqn:E; auto.
    apply String.eqb_eq in E. contradiction.
  - destruct (String.eqb k0 k) eqn:E; simpl.
    + apply String.eqb_eq in E. subst k0.
      destruct (String.eqb k k') eqn:E'; auto.
      apply String.eqb_eq in E'. contradiction.
    + now rewrite IH.
Qed.

Lemma keys_set {V : Type} (d : PyDict.t V) (k : string) (v : V) :
  PyDict.keys (PyDict.set d k v)
  = if PyDict.mem d k then PyDict.keys d else PyDict.keys d ++ [k].
Proof.
  unfold PyDict.mem, PyDict.keys.
  induction d as [|[k' v'] d IH]; simpl; auto.
  destruct (String.eqb k' k) eqn:E; simpl; auto.
  rewrite IH. now destruct (PyDict.get d k).
Qed.

Lemma get_none_keys {V : Type} (d : PyDict.t V) (k : string) :
  PyDict.get d k = None <-> ~ In k (PyDict.keys d).
Proof.
  unfold PyDict.keys.
  induction d as [|[k' v'] d IH]; simpl.
  - tauto.
  - destruct (String.eqb k' k) eqn:E.
    + apply String.eqb_eq in E. split; [discriminate | tauto].
    + apply String.eqb_neq in E. rewrite IH. tauto.
Qed.

Lemma get_in {V : Type} (d : PyDict.t V) (k : string) (v : V) :
  PyDict.get d k = Some v -> In (k, v) d.
Proof.
  induction d as [|[k' v'] d IH]; simpl; [discriminate|].
  destruct (String.eqb k' k) eqn:E.
  - apply String.eqb_eq in E. intros [= ->]. subst. now left.
  - auto.
Qed.

Lemma set_keys_nodup {V : Type} (d : PyDict.t V) (k : string) (v : V) :
  NoDup (PyDict.keys d) -> NoDup (PyDict.keys (PyDict.set d k v)).
Proof.
  intros Hd. rewrite keys_set. unfold PyDict.mem.
  destruct (PyDict.get d k) eqn:E; auto.
  apply get_none_keys in E.
  apply NoDup_app; auto.
  - constructor; [tauto | constructor].
  - intros x Hx [<-|[]]. contradiction.
Qed.

Lemma nodup_in_get {V : Type} (d : PyDict.t V) (k : string) (v : V) :
  NoDup (PyDict.keys d) -> In (k, v) d -> PyDict.get d k = Some v.
Proof.
  unfold PyDict.keys.
  induction d as [|[k' v'] d IH]; simpl; [tauto|].
  intros Hd [Heq|Hin].
  - injection Heq as -> ->. now rewrite String.eqb_refl.
  - inversion Hd as [|? ? Hnot Hd']; subst.
    destruct (String.eqb k' k) eqn:E; auto.
    apply String.eqb_eq in E. subst k'.
    exfalso. apply Hnot. apply in_map_iff. now exists (k, v).
Qed.

(** ** [split] *)

Lemma split_nonempty (sep : ascii) (s : string) : split sep s <> [].
Proof.
  destruct s as [|c s]; simpl; [discriminate|].
  destruct (Ascii.eqb c sep); [discriminate|].
  destruct (split sep s); discriminate.
Qed.

(** ** Mapping inversion *)

Lemma fold_set_get (key : string) (aliases : list string)
  (inverse : PyDict.t string) (alias : string) :
  PyDict.get
    (fold_left (fun inv a => PyDict.set inv a key) aliases inverse) alias
  = if existsb (String.eqb alias) aliases then Some key
    else PyDict.get inverse alias.
Proof.
  revert inverse.
  induction aliases as [|a aliases IH]; intros inverse; simpl; auto.
  rewrite IH.
  destruct (existsb (String.eqb alias) aliases) eqn:E.
  - now rewrite orb_true_r.
  - rewrite orb_false_r.
    destruct (String.eqb alias a) eqn:Ea.
    + apply String.eqb_eq in Ea. subst. apply get_set_eq.
    + apply String.eqb_neq in Ea. apply get_set_ne. congruence.
Qed.

Lemma invert_entry_fold (inverse : PyDict.t string) (key value : string) :
  invert_entry inverse (key, value)
  = fold_left (fun inv a => PyDict.set inv a key) (split comma value) inverse.
Proof.
  unfold invert_entry.
  destruct (split comma value) as [|a [|b l]]; reflexivity.
Qed.

Lemma invert_entry_get (inverse : PyDict.t string) (key value alias : string) :
  PyDict.get (invert_entry inverse (key, value)) alias
  = if existsb (String.eqb alias) (split comma value) then Some key
    else PyDict.get inverse alias.
Proof. rewrite invert_entry_fold. apply fold_set_get. Qed.

Lemma existsb_eqb_in (a : string) (l : list string) :
  existsb (String.eqb a) l = true <-> In a l.
Proof.
  rewrite existsb_exists. split.
  - intros [x [Hx E]]. apply String.eqb_eq in E. now subst.
  - intros H. exists a. split; auto. apply String.eqb_refl.
Qed.

Lemma invert_unlisted (entries : PyDict.t string) (inverse : PyDict.t string)
  (alias : string) :
  (forall k v, In (k, v) entries -> ~ In alias (split comma v)) ->
  PyDict.get (fold_left invert_entry entries inverse) alias
  = PyDict.get inverse alias.
Proof.
  revert inverse.
  induction entries as [|[k v] entries IH]; intros inverse Hno;
    cbn [fold_left]; auto.
  rewrite IH by (intros k' v' Hin; apply (Hno k' v'); now right).
  rewrite invert_entry_get.
  destruct (existsb (String.eqb alias) (split comma v)) eqn:E; auto.
  apply existsb_eqb_in in E. exfalso. apply (Hno k v); auto. now left.
Qed.

(** C5.  Every alias in the comma-separated list of an entry of the field
    map is mapped by the inverted lookup to the key of that entry, as long
    as no later entry lists the same alias; in particular, when an alias is
    listed under two keys, the later one is the one registered. *)
Theorem map_item_inverse_last_wins :
  forall (before after : PyDict.t string) (key value alias : string),
    In alias (split comma value) ->
    (forall k v, In (k, v) after -> ~ In alias (split comma v)) ->
    PyDict.get (map_item_inverse (before ++ (key, value) :: after)) alias
    = Some key.
Proof.
  intros before after key value alias Hin Hlater.
  unfold map_item_inverse.
  rewrite fold_left_app. cbn [fold_left].
  rewrite invert_unlisted by exact Hlater.
  rewrite invert_entry_get.
  apply existsb_eqb_in in Hin. now rewrite Hin.
Qed.

Lemma map_item_inverse_last_wins_witness :
  PyDict.get
    (map_item_inverse
       [("wp:post_date", "first_published_at,last_published_at");
        ("wp:post_modified", "last_published_at");
        ("title", "title")])
    "last_published_at" = Some "wp:post_modified"
  /\ PyDict.get
    (map_item_inverse
       [("wp:post_date", "first_published_at,last_published_at");
        ("wp:post_modified", "last_published_at");
        ("title", "title")])
    "first_published_at" = Some "wp:post_date".
Proof.
  split.
  - apply (map_item_inverse_last_wins
             [("wp:post_date", "first_published_at,last_published_at")]
             [("title", "title")] "wp:post_modified" "last_published_at").
    + simpl. auto.
    + intros k v [E|[]]. injection E as <- <-. simpl.
      intros [E|[]]. discriminate.
    - apply (map_item_inverse_last_wins
             []
             [("wp:post_modified", "last_published_at"); ("title", "title")]
             "wp:post_date" "first_published_at,last_published_at").
    + simpl. auto.
    + intros k v [E|[E|[]]]; injection E as <- <-; simpl;
        intros [E|[]]; discriminate.
Defined.

(** ** The slug normaliser *)

Lemma sforall_sfilter (f : ascii -> bool) (s : string) :
  DjangoText.sforall f (DjangoText.sfilter f s) = true.
Proof.
  induction s as [|c s IH]; simpl; auto.
  destruct (f c) eqn:E; simpl; auto. now rewrite E.
Qed.

Lemma collapse_safe (s : string) :
  forall in_run,
    DjangoText.sforall
      (fun c => DjangoText.is_word c || DjangoText.is_space c
                || DjangoText.is_hyphen c) s = true ->
    DjangoText.sforall DjangoText.slug_char (DjangoText.collapse in_run s)
    = true.
Proof.
  induction s as [|c s IH]; intros in_run H; simpl in *; auto.
  apply andb_prop in H. destruct H as [Hc Hs].
  destruct (DjangoText.is_hyphen c || DjangoText.is_space c) eqn:E.
  - destruct in_run; simpl; auto.
  - simpl. rewrite IH by assumption. rewrite andb_true_r.
    apply orb_false_elim in E. destruct E as [E1 E2].
    rewrite E1, E2 in Hc. rewrite !orb_false_r in Hc.
    unfold DjangoText.slug_char, DjangoText.is_word in *.
    rewrite E1. rewrite orb_false_r.
    destruct (DjangoText.is_lower c), (DjangoText.is_upper c),
      (DjangoText.is_digit c); simpl in *; auto.
Qed.

Lemma lstrip_safe (f : ascii -> bool) (s : string) :
  DjangoText.sforall f s = true ->
  DjangoText.sforall f (DjangoText.lstrip s) = true.
Proof.
  induction s as [|c s IH]; simpl; auto.
  intros H. destruct (DjangoText.strip_char c); auto.
  apply andb_prop in H. tauto.
Qed.

Lemma rstrip_safe (f : ascii -> bool) (s : string) :
  DjangoText.sforall f s = true ->
  DjangoText.sforall f (DjangoText.rstrip s) = true.
Proof.
  induction s as [|c s IH]; simpl; auto.
  intros H. apply andb_prop in H. destruct H as [Hc Hs].
  specialize (IH Hs).
  destruct (DjangoText.rstrip s) as [|c' r].
  - destruct (DjangoText.strip_char c); simpl; auto. now rewrite Hc.
  - change (f c && DjangoText.sforall f (String c' r) = true).
    now rewrite Hc, IH.
Qed.

Lemma django_slugify_safe (s : string) :
  identifier_safe (DjangoText.slugify s).
Proof.
  unfold identifier_safe, DjangoText.slugify.
  apply rstrip_safe, lstrip_safe, collapse_safe, sforall_sfilter.
Qed.

Lemma truthy_some (v : string) : v <> EmptyString -> truthy (Some v) = true.
Proof.
  intros H. simpl. apply negb_true_iff. now apply String.eqb_neq.
Qed.

(** C3.  With a slugifier whose results are identifier-safe: an empty or
    absent raw slug gives the slugified title and the outcome
    ["blank slug"] (derived from the title); a non-empty raw slug that
    slugifying leaves unchanged is returned as it is with outcome ["OK"]; a
    non-empty raw slug that slugifying changes gives the slugified text and
    the outcome ["illegal chars found"]; the normaliser is a total function
    and its slug is identifier-safe in every case. *)
Theorem parse_slug_outcomes :
  forall (C : Collaborators) (value title : raw),
    (forall s, identifier_safe (slugify s)) ->
    ((value = None \/ value = Some EmptyString) ->
     parse_slug value title = (slugify (py_str title), "blank slug"))
    /\ (forall v, value = Some v -> v <> EmptyString -> slugify v = v ->
        parse_slug value title = (v, "OK"))
    /\ (forall v, value = Some v -> v <> EmptyString -> slugify v <> v ->
        parse_slug value title = (slugify v, "illegal chars found"))
    /\ identifier_safe (fst (parse_slug value title)).
Proof.
  intros C value title Hsafe. repeat split.
  - intros [-> | ->]; reflexivity.
  - intros v -> Hne Hfix. unfold parse_slug.
    rewrite (truthy_some v Hne). cbn [negb py_str andb].
    rewrite Hfix, String.eqb_refl. reflexivity.
  - intros v -> Hne Hchg. unfold parse_slug.
    rewrite (truthy_some v Hne). cbn [negb py_str andb].
    apply String.eqb_neq in Hchg. now rewrite Hchg.
  - unfold parse_slug. destruct (truthy value); cbn [negb fst]; apply Hsafe.
Qed.

Lemma parse_slug_outcomes_witness :
  parse_slug (C := reference) None (Some "Hello World!")
  = ("hello-world", "blank slug")
  /\ parse_slug (C := reference) (Some "already-valid-slug") (Some "A title")
     = ("already-valid-slug", "OK")
  /\ parse_slug (C := reference) (Some "Bad Slug!") (Some "A title")
     = ("bad-slug", "illegal chars found").
Proof.
  split; [|split].
  - apply (proj1 (parse_slug_outcomes reference None (Some "Hello World!")
                    django_slugify_safe)).
    left. reflexivity.
  - apply (proj1 (proj2 (parse_slug_outcomes reference
                           (Some "already-valid-slug") (Some "A title")
                           django_slugify_safe))).
    + reflexivity.
    + discriminate.
    + reflexivity.
  - apply (proj1 (proj2 (proj2 (parse_slug_outcomes reference
                                  (Some "Bad Slug!") (Some "A title")
                                  django_slugify_safe)))
             "Bad Slug!").
    + reflexivity.
    + discriminate.
    + vm_compute. discriminate.
Defined.

(** ** The content normaliser *)

(** C9.  The content pipeline feeds [str(value)] to the line-break
    conversion, its result to the style fixer, the style fixer's result to
    the sanitiser and the sanitised text to the block builder, and returns
    the serialised blocks, the sanitised text and the blocks. *)
Theorem parse_stream_fields_order :
  forall (C : Collaborators) (value : raw),
    let converted := linebreaks_wp (py_str value) in
    let styled := fix_styles converted in
    let cleaned := bleach_clean styled in
    let built := block_builder_build cleaned in
    parse_stream_fields value = (json_dumps built, cleaned, built).
Proof. intros C value. reflexivity. Qed.

(** On the reference filters the marks show the order of the stages. *)
Example parse_stream_fields_reference :
  parse_stream_fields (C := reference) (Some "<b>text</b>")
  = ("[<b>text</b>|linebreaks_wp|fix_styles|bleach_clean]",
     "<b>text</b>|linebreaks_wp|fix_styles|bleach_clean",
     ["<b>text</b>|linebreaks_wp|fix_styles|bleach_clean"]).
Proof. reflexivity. Qed.

(** ** Record transformation *)

Section GetValues.

Context {C : Collaborators}.
Variable self : importer.
Variable item : raw_item.

Lemma get_values_ok (pv : PyDict.t pyval) (dv : bool) (sc : pyval) :
  get_values self item = Ok (pv, dv, sc) ->
  exists pv1 pv3 dvl,
    foldM (copy_field item) (mapping_item_inverse self) PyDict.empty = Ok pv1
    /\ foldM (date_field self item) (split comma (mapping_valid_date self))
             (fold_left (stream_field self item)
                        (split comma (mapping_stream_fields self)) pv1, [])
       = Ok (pv3, dvl)
    /\ dv = forallb (fun b => b) dvl
    /\ fold_left (slug_field self item)
                 (split comma (mapping_valid_slug self)) (pv3, PyBool false)
       = (pv, sc).
Proof.
  unfold get_values.
  destruct (foldM (copy_field item) (mapping_item_inverse self) PyDict.empty)
    as [pv1|e] eqn:Ec; cbn [bind]; [|discriminate].
  destruct (foldM (date_field self item) _ _) as [[pv3 dvl]|e] eqn:Ed;
    cbn [bind]; [|discriminate].
  destruct (fold_left (slug_field self item) _ _) as [pv' sc'] eqn:E.
  intros [= <- <- <-].
  exists pv1, pv3, dvl. repeat split; auto.
Qed.

Lemma parse_date_flag (v : raw) (d : PyDatetime.aware) (b : bool) :
  parse_date v = Ok (d, b) -> b = negb (raw_eqb v (Some sentinel_date)).
Proof.
  unfold parse_date.
  destruct (raw_eqb v (Some sentinel_date)).
  - destruct (PyDatetime.strptime _); [|discriminate]. now intros [= _ <-].
  - destruct v as [text|]; [|discriminate].
    destruct (PyDatetime.strptime _); [|discriminate]. now intros [= _ <-].
Qed.

Lemma date_loop (fields : list string) :
  forall pv dvl pv' dvl',
    foldM (date_field self item) fields (pv, dvl) = Ok (pv', dvl') ->
    dvl' = dvl ++ map (date_flag self item) fields
    /\ Forall (fun df => exists d,
                   parse_date (source_of self item df)
                   = Ok (d, date_flag self item df)) fields.
Proof.
  induction fields as [|df fields IH]; intros pv dvl pv' dvl'; cbn [foldM].
  - intros [= <- <-]. rewrite app_nil_r. auto.
  - unfold date_field at 1. fold (source_of self item df).
    destruct (parse_date (source_of self item df)) as [[d b]|e] eqn:E;
      cbn [bind]; [|discriminate].
    intros H. apply IH in H. destruct H as [-> HF].
    cbn [fst snd]. rewrite <- app_assoc. cbn [app map].
    pose proof (parse_date_flag _ _ _ E) as Hb.
    fold (date_flag self item df) in Hb. subst b.
    split; auto. constructor; auto. now exists d.
Qed.

Lemma slug_loop_last (earlier : list string) (last_field : string)
  (acc : PyDict.t pyval * pyval) :
  snd (fold_left (slug_field self item) (earlier ++ [last_field]) acc)
  = PyStr (snd (parse_slug (source_of self item last_field)
                           (item_get item (Some "title")))).
Proof.
  rewrite fold_left_app. cbn [fold_left].
  destruct (fold_left (slug_field self item) earlier acc) as [pv sc].
  reflexivity.
Qed.

Lemma copy_loop_missing (entries : PyDict.t string) :
  forall pv,
    (exists field mapped,
        In (field, mapped) entries /\ PyDict.get item mapped = None) ->
    exists key,
      foldM (copy_field item) entries pv = Raise (KeyError key)
      /\ PyDict.get item key = None.
Proof.
  induction entries as [|[f m] entries IH]; intros pv [field [mapped [Hin Hm]]].
  - destruct Hin.
  - cbn [foldM]. unfold copy_field at 1. unfold PyDict.subscript.
    destruct (PyDict.get item m) as [v|] eqn:E; cbn [bind].
    + apply IH. destruct Hin as [Heq|Hin].
      * injection Heq as -> ->. congruence.
      * now exists field, mapped.
    + now exists m.
Qed.

Lemma mem_set_mono {V : Type} (d : PyDict.t V) (k k' : string) (v : V) :
  PyDict.mem d k = true -> PyDict.mem (PyDict.set d k' v) k = true.
Proof.
  unfold PyDict.mem.
  destruct (String.eqb k' k) eqn:E.
  - apply String.eqb_eq in E. subst. now rewrite get_set_eq.
  - apply String.eqb_neq in E. now rewrite get_set_ne.
Qed.

Lemma mem_set_same {V : Type} (d : PyDict.t V) (k : string) (v : V) :
  PyDict.mem (PyDict.set d k v) k = true.
Proof. unfold PyDict.mem. now rewrite get_set_eq. Qed.

Lemma copy_loop_keys (entries : PyDict.t string) :
  forall pv pv',
    foldM (copy_field item) entries pv = Ok pv' ->
    (forall k, PyDict.mem pv k = true -> PyDict.mem pv' k = true)
    /\ (forall field mapped, In (field, mapped) entries ->
        PyDict.get item mapped <> None /\ PyDict.mem pv' field = true).
Proof.
  induction entries as [|[f m] entries IH]; intros pv pv'; cbn [foldM].
  - intros [= <-]. split; [auto | intros ? ? []].
  - unfold copy_field at 1. unfold PyDict.subscript.
    destruct (PyDict.get item m) as [v|] eqn:E; cbn [bind]; [|discriminate].
    intros H. apply IH in H. destruct H as [Hmono Hall]. split.
    + intros k Hk. apply Hmono. now apply mem_set_mono.
    + intros field mapped [Heq|Hin]; auto.
      injection Heq as <- <-. split; [congruence|].
      apply Hmono, mem_set_same.
Qed.

Lemma stream_loop_keys (fields : list string) :
  forall pv k,
    PyDict.mem pv k = true ->
    PyDict.mem (fold_left (stream_field self item) fields pv) k = true.
Proof.
  induction fields as [|html fields IH]; intros pv k Hk; cbn [fold_left]; auto.
  apply IH. unfold stream_field.
  destruct (parse_stream_fields _) as [[sfv value] built].
  now repeat apply mem_set_mono.
Qed.

Lemma date_loop_keys (fields : list string) :
  forall pv dvl pv' dvl' k,
    foldM (date_field self item) fields (pv, dvl) = Ok (pv', dvl') ->
    PyDict.mem pv k = true -> PyDict.mem pv' k = true.
Proof.
  induction fields as [|df fields IH]; intros pv dvl pv' dvl' k; cbn [foldM].
  - now intros [= <- <-].
  - unfold date_field at 1.
    destruct (parse_date _) as [[d b]|e]; cbn [bind]; [|discriminate].
    intros H Hk. eapply IH; [exact H|]. now apply mem_set_mono.
Qed.

Lemma slug_loop_keys (fields : list string) :
  forall acc k,
    PyDict.mem (fst acc) k = true ->
    PyDict.mem (fst (fold_left (slug_field self item) fields acc)) k = true.
Proof.
  induction fields as [|sf fields IH]; intros [pv sc] k Hk;
    cbn [fold_left]; auto.
  apply IH. cbn [slug_field fst]. now apply mem_set_mono.
Qed.

End GetValues.

Lemma forallb_map_id {A : Type} (f : A -> bool) (l : list A) :
  forallb (fun b => b) (map f l) = forallb f l.
Proof.
  induction l as [|x l IH]; cbn [map forallb]; [reflexivity | now rewrite IH].
Qed.

(** C8.  When a record is transformed, its date validity flag is the
    conjunction of the flags of the configured date fields: it is true
    exactly when [parse_date] reported every date field valid, that is, when
    no date field held the sentinel that the fallback date replaces. *)
Theorem dates_valid_conjunction :
  forall (C : Collaborators) (self : importer) (item : raw_item)
         (pv : PyDict.t pyval) (dv : bool) (sc : pyval),
    get_values self item = Ok (pv, dv, sc) ->
    dv = forallb (date_flag self item) (split comma (mapping_valid_date self))
    /\ (dv = true <->
        forall df, In df (split comma (mapping_valid_date self)) ->
          source_of self item df <> Some sentinel_date
          /\ exists d, parse_date (source_of self item df) = Ok (d, true)).
Proof.
  intros C self item pv dv sc H.
  apply get_values_ok in H.
  destruct H as [pv1 [pv3 [dvl [_ [Hd [-> _]]]]]].
  apply date_loop in Hd. destruct Hd as [-> HF]. cbn [app].
  rewrite forallb_map_id. split; auto.
  rewrite forallb_forall. rewrite Forall_forall in HF.
  split.
  - intros Hall df Hin. specialize (Hall df Hin).
    destruct (HF df Hin) as [d Hd]. rewrite Hall in Hd. split; [|now exists d].
    unfold date_flag in Hall. apply negb_true_iff in Hall.
    intros Heq. rewrite Heq in Hall. simpl in Hall. discriminate.
  - intros Hall df Hin. destruct (Hall df Hin) as [_ [d Hd]].
    destruct (HF df Hin) as [d' Hd']. congruence.
Qed.

(** C10.  The slug outcome that [get_values] reports is the outcome of the
    last configured slug field alone: whatever the earlier slug fields
    yielded is overwritten. *)
Theorem slug_outcome_is_last_field :
  forall (C : Collaborators) (self : importer) (item : raw_item)
         (pv : PyDict.t pyval) (dv : bool) (sc : pyval)
         (earlier : list string) (last_field : string),
    get_values self item = Ok (pv, dv, sc) ->
    split comma (mapping_valid_slug self) = earlier ++ [last_field] ->
    sc = PyStr (snd (parse_slug (source_of self item last_field)
                                (item_get item (Some "title")))).
Proof.
  intros C self item pv dv sc earlier last_field H Hsplit.
  apply get_values_ok in H.
  destruct H as [pv1 [pv3 [dvl [_ [_ [_ Hs]]]]]].
  rewrite Hsplit in Hs.
  pose proof (slug_loop_last self item earlier last_field (pv3, PyBool false))
    as Hlast.
  rewrite Hs in Hlast. exact Hlast.
Qed.

Lemma slug_outcome_is_last_field_witness :
  PyStr "OK"
  = PyStr (snd (parse_slug (C := reference)
                  (source_of (init [] Sample.two_slug_mapping) Sample.post
                             "wp_old_slug")
                  (item_get Sample.post (Some "title"))))
  /\ snd (parse_slug (C := reference)
            (source_of (init [] Sample.two_slug_mapping) Sample.post "slug")
            (item_get Sample.post (Some "title")))
     = "illegal chars found".
Proof.
  split; [|reflexivity].
  eapply (slug_outcome_is_last_field reference
            (init [] Sample.two_slug_mapping) Sample.post _ _ _ ["slug"]).
  - reflexivity.
  - reflexivity.
Defined.

Lemma dates_valid_conjunction_witness :
  false
  = forallb (date_flag (init [] Sample.mapping) Sample.post)
      (split comma (mapping_valid_date (init [] Sample.mapping)))
  /\ true
     = forallb (date_flag (init [] Sample.mapping) Sample.draft)
         (split comma (mapping_valid_date (init [] Sample.mapping))).
Proof.
  split.
  - edestruct (dates_valid_conjunction reference
                 (init [] Sample.mapping) Sample.post) as [H _];
      [reflexivity | exact H].
  - edestruct (dates_valid_conjunction reference
                 (init [] Sample.mapping) Sample.draft) as [H _];
      [reflexivity | exact H].
Defined.

(** C6, as the code has it.  A target field whose source field is missing
    from the record makes [get_values] fail with the [KeyError] of a
    missing field; when [get_values] succeeds, every source field that the
    inverted mapping names is present in the record and every target field
    of the inverted mapping is a key of the result. *)
Theorem get_values_requires_mapped_fields :
  forall (C : Collaborators) (self : importer) (item : raw_item),
    ((exists field mapped,
         In (field, mapped) (mapping_item_inverse self)
         /\ PyDict.get item mapped = None) ->
     exists key,
       get_values self item = Raise (KeyError key)
       /\ PyDict.get item key = None)
    /\ (forall pv dv sc,
          get_values self item = Ok (pv, dv, sc) ->
          forall field mapped,
            In (field, mapped) (mapping_item_inverse self) ->
            PyDict.get item mapped <> None /\ PyDict.mem pv field = true).
Proof.
  intros C self item. split.
  - intros Hmissing.
    destruct (copy_loop_missing item (mapping_item_inverse self)
                PyDict.empty Hmissing) as [key [Hraise Hkey]].
    exists key. split; auto.
    unfold get_values. rewrite Hraise. reflexivity.
  - intros pv dv sc H field mapped Hin.
    apply get_values_ok in H.
    destruct H as [pv1 [pv3 [dvl [Hc [Hd [_ Hs]]]]]].
    apply copy_loop_keys in Hc. destruct Hc as [_ Hall].
    destruct (Hall field mapped Hin) as [Hpresent Hmem].
    split; auto.
    pose proof (slug_loop_keys self item
                  (split comma (mapping_valid_slug self))
                  (pv3, PyBool false) field) as Hk.
    rewrite Hs in Hk. apply Hk. cbn [fst].
    eapply date_loop_keys; [exact Hd|].
    now apply stream_loop_keys.
Qed.

Lemma get_values_requires_mapped_fields_witness :
  exists key,
    get_values (C := reference) (init [] Sample.mapping)
               Sample.post_without_link = Raise (KeyError key)
    /\ PyDict.get Sample.post_without_link key = None.
Proof.
  apply (proj1 (get_values_requires_mapped_fields reference
                  (init [] Sample.mapping) Sample.post_without_link)).
  exists "wp_link", "link". split.
  - vm_compute. tauto.
  - reflexivity.
Defined.

(** C6, as the spec states it, fails: the sample post without its [link]
    element has no field for the alias that the target field [wp_link]
    resolves to, and its transformation is a [KeyError], not a result with
    an absent value. *)
Lemma get_values_missing_field_raises :
  PyDict.get (mapping_item_inverse (init [] Sample.mapping)) "wp_link"
  = Some "link"
  /\ PyDict.get Sample.post_without_link "link" = None
  /\ get_values (C := reference) (init [] Sample.mapping)
                Sample.post_without_link = Raise (KeyError "link")
  /\ ~ (exists values,
          get_values (C := reference) (init [] Sample.mapping)
                     Sample.post_without_link = Ok values).
Proof.
  repeat split.
  intros [values H]. vm_compute in H. discriminate.
Qed.

(** ** The date normaliser *)

Lemma join_split_blanks (s : string) :
  join "T" (split space s) = blanks_to_T s.
Proof.
  unfold blanks_to_T.
  induction s as [|c s IH]; [reflexivity|].
  cbn [split DjangoText.smap].
  destruct (Ascii.eqb c space).
  - cbn [join]. destruct (split space s) as [|p ps] eqn:E.
    + now apply split_nonempty in E.
    + rewrite <- IH. reflexivity.
  - destruct (split space s) as [|p ps] eqn:E.
    + now apply split_nonempty in E.
    + rewrite <- IH. destruct ps; reflexivity.
Qed.

Lemma digit_cases (c : ascii) :
  PyDatetime.digit c = true ->
  In c ["0"; "1"; "2"; "3"; "4"; "5"; "6"; "7"; "8"; "9"]%char.
Proof.
  destruct c as [b0 b1 b2 b3 b4 b5 b6 b7].
  destruct b0, b1, b2, b3, b4, b5, b6, b7; intros H;
    vm_compute in H; try discriminate;
    cbn [In]; repeat first [left; reflexivity | right].
Qed.

Ltac each_digit c H :=
  let L := fresh "L" in
  pose proof (digit_cases c H) as L; cbn [In] in L;
  decompose [or] L; clear L; try contradiction; subst c.

Lemma digit_not_space (c : ascii) :
  PyDatetime.digit c = true -> Ascii.eqb c space = false.
Proof.
  intros H. apply digit_cases in H. cbn [In] in H.
  repeat (destruct H as [H|H]; [subst; reflexivity|]). destruct H.
Qed.

Section FormatFields.

Import PyDatetime.

Context {A : Type}.
Variable k : string -> string -> option A.
Variables (a b : ascii) (rest : string) (r : A).
Hypothesis Ha : digit a = true.
Hypothesis Hb : digit b = true.
Hypothesis Hk : k (String a (String b EmptyString)) rest = Some r.

Local Abbreviation v := (int_of (String a (String b EmptyString))).

Ltac field_cases :=
  intros Hr; each_digit a Ha; each_digit b Hb;
  vm_compute in Hr; try discriminate;
  cbn; rewrite Hk; reflexivity.

Lemma match_m_ok :
  ((1 <=? v) && (v <=? 12))%N = true ->
  match_alt re_m (String a (String b rest)) k = Some r.
Proof. field_cases. Qed.

Lemma match_d_ok :
  ((1 <=? v) && (v <=? 31))%N = true ->
  match_alt re_d (String a (String b rest)) k = Some r.
Proof. field_cases. Qed.

Lemma match_H_ok :
  (v <=? 23)%N = true ->
  match_alt re_H (String a (String b rest)) k = Some r.
Proof. field_cases. Qed.

Lemma match_M_ok :
  (v <=? 59)%N = true ->
  match_alt re_M (String a (String b rest)) k = Some r.
Proof. field_cases. Qed.

Lemma match_S_ok :
  (v <=? 59)%N = true ->
  match_alt re_S (String a (String b rest)) k = Some r.
Proof. field_cases. Qed.

End FormatFields.

Lemma match_Y_ok {A : Type} (k : string -> string -> option A)
  (a b c d : ascii) (rest : string) (r : A) :
  PyDatetime.digit a = true -> PyDatetime.digit b = true ->
  PyDatetime.digit c = true -> PyDatetime.digit d = true ->
  k (String a (String b (String c (String d EmptyString)))) rest = Some r ->
  PyDatetime.match_alt PyDatetime.re_Y
    (String a (String b (String c (String d rest)))) k = Some r.
Proof.
  intros Ha Hb Hc Hd Hk. unfold PyDatetime.re_Y.
  cbn [PyDatetime.match_alt PyDatetime.match_seq].
  rewrite Ha, Hb, Hc, Hd, Hk. reflexivity.
Qed.

Lemma match_one_ok {A : Type} (c : PyDatetime.cls) (k : string -> option A)
  (a : ascii) (rest : string) (r : A) :
  c a = true -> k rest = Some r ->
  PyDatetime.match_one c (String a rest) k = Some r.
Proof.
  intros Hc Hk. unfold PyDatetime.match_one.
  cbn [PyDatetime.match_alt PyDatetime.match_seq].
  rewrite Hc, Hk. reflexivity.
Qed.

Lemma days_in_month_le (y m : N) : (PyDatetime.days_in_month y m <= 31)%N.
Proof.
  unfold PyDatetime.days_in_month.
  destruct m as [|[[[[|[]|]|[[]|[]|]|]|[[[]|[]|]|[[]|[]|]|]|]
                  |[[[]|[]|]|[[]|[]|]|]|]];
    try destruct (PyDatetime.is_leap y); lia.
Qed.

Lemma sforall_two (f : ascii -> bool) (a b : ascii) :
  DjangoText.sforall f (String a (String b EmptyString)) = true ->
  f a = true /\ f b = true.
Proof.
  cbn [DjangoText.sforall]. rewrite andb_true_r.
  intros H. now apply andb_prop in H.
Qed.

Lemma sforall_four (f : ascii -> bool) (a b c d : ascii) :
  DjangoText.sforall f
    (String a (String b (String c (String d EmptyString)))) = true ->
  f a = true /\ f b = true /\ f c = true /\ f d = true.
Proof.
  cbn [DjangoText.sforall]. rewrite andb_true_r.
  intros H. apply andb_prop in H. destruct H as [Ha H].
  apply andb_prop in H. destruct H as [Hb H].
  apply andb_prop in H. tauto.
Qed.

(** A well-formed date, written with [T] for the blank, is accepted by
    [strptime] and parsed to the moment it names. *)
Lemma strptime_well_formed (s : string) (d : PyDatetime.datetime) :
  well_formed_date s = Some d ->
  PyDatetime.strptime (blanks_to_T s) = Some d.
Proof.
  unfold well_formed_date.
  destruct s as [|a s]; [discriminate|].
  destruct s as [|a0 s]; [discriminate|].
  destruct s as [|a1 s]; [discriminate|].
  destruct s as [|a2 s]; [discriminate|].
  destruct s as [|a3 s]; [discriminate|].
  destruct s as [|a4 s]; [discriminate|].
  destruct s as [|a5 s]; [discriminate|].
  destruct s as [|a6 s]; [discriminate|].
  destruct s as [|a7 s]; [discriminate|].
  destruct s as [|a8 s]; [discriminate|].
  destruct s as [|a9 s]; [discriminate|].
  destruct s as [|a10 s]; [discriminate|].
  destruct s as [|a11 s]; [discriminate|].
  destruct s as [|a12 s]; [discriminate|].
  destruct s as [|a13 s]; [discriminate|].
  destruct s as [|a14 s]; [discriminate|].
  destruct s as [|a15 s]; [discriminate|].
  destruct s as [|a16 s]; [discriminate|].
  destruct s as [|a17 s]; [discriminate|].
  destruct s; [|discriminate].
  match goal with
  | |- (if ?c then _ else _) = _ -> _ => destruct c eqn:E; [|discriminate]
  end.
  repeat (apply andb_prop in E; destruct E as [E ?]).
  repeat match goal with
         | H : Ascii.eqb _ _ = true |- _ => apply Ascii.eqb_eq in H; subst
         | H : all_digits (String _ (String _ EmptyString)) = true |- _ =>
             apply sforall_two in H; destruct H
         end.
  match goal with
  | H : all_digits _ = true |- _ =>
      apply sforall_four in H; destruct H as [? [? [? ?]]]
  end.
  intros Hmake.
  unfold blanks_to_T. cbn [DjangoText.smap].
  change (Ascii.eqb "-" space) with false.
  change (Ascii.eqb ":" space) with false.
  change (Ascii.eqb " " space) with true.
  rewrite !digit_not_space by assumption.
  cbv iota.
  pose proof Hmake as Hrange. unfold PyDatetime.make in Hrange.
  match type of Hrange with
  | (if ?c then _ else _) = _ => destruct c eqn:Ec; [|discriminate]
  end.
  clear Hrange.
  repeat (apply andb_prop in Ec; destruct Ec as [Ec ?]).
  unfold PyDatetime.strptime.
  match goal with
  | |- context [PyDatetime.match_format ?t] =>
      assert (Hm : exists g,
                 PyDatetime.match_format t = Some g
                 /\ PyDatetime.g_rest g = EmptyString
                 /\ PyDatetime.make
                      (PyDatetime.int_of (PyDatetime.g_Y g))
                      (PyDatetime.int_of (PyDatetime.g_m g))
                      (PyDatetime.int_of (PyDatetime.g_d g))
                      (PyDatetime.int_of (PyDatetime.g_H g))
                      (PyDatetime.int_of (PyDatetime.g_M g))
                      (PyDatetime.int_of (PyDatetime.g_S g)) = Some d)
  end.
  { assert (Hday : (PyDatetime.int_of (String a7 (String a8 EmptyString))
                    <=? 31)%N = true).
    { apply N.leb_le.
      match goal with
      | H : (_ <=? PyDatetime.days_in_month ?y ?m)%N = true |- _ =>
          apply N.leb_le in H; pose proof (days_in_month_le y m); lia
      end. }
    eexists. split.
    - unfold PyDatetime.match_format.
      apply match_Y_ok; try assumption.
      apply match_one_ok; [reflexivity|].
      apply match_m_ok; try assumption;
        [|cbv zeta; apply andb_true_intro; split; assumption].
      apply match_one_ok; [reflexivity|].
      apply match_d_ok; try assumption;
        [|cbv zeta; apply andb_true_intro; split; assumption].
      apply match_one_ok; [reflexivity|].
      apply match_H_ok; try assumption.
      apply match_one_ok; [reflexivity|].
      apply match_M_ok; try assumption.
      apply match_one_ok; [reflexivity|].
      apply match_S_ok; try assumption.
      reflexivity.
    - split; [reflexivity | exact Hmake]. }
  destruct Hm as [g [Hm [Hrest Hd]]].
  rewrite Hm, Hrest. exact Hd.
Qed.

Lemma parse_date_other (C : Collaborators) (value : string) :
  value <> sentinel_date ->
  parse_date (Some value)
  = match PyDatetime.strptime (blanks_to_T value) with
    | Some d => Ok (make_aware d, true)
    | None => Raise ValueError
    end.
Proof.
  intros Hne. unfold parse_date. cbn [raw_eqb].
  apply String.eqb_neq in Hne. rewrite Hne.
  now rewrite join_split_blanks.
Qed.

(** C2, as the code has it.  The sentinel [0000-00-00 00:00:00] gives the
    fallback moment 1900-01-01 00:00:00, made aware, with validity false.
    Any other text is parsed after its blanks are replaced by [T]: when
    [strptime] accepts the result, which it does for every well-formed
    [YYYY-MM-DD HH:MM:SS] date, the parsed moment is returned, made aware,
    with validity true; when it does not, [parse_date] fails with the
    [ValueError] of [strptime]. *)
Theorem parse_date_cases :
  forall (C : Collaborators) (value : string),
    parse_date (Some sentinel_date)
    = Ok (make_aware {| PyDatetime.year := 1900; PyDatetime.month := 1;
                        PyDatetime.day := 1; PyDatetime.hour := 0;
                        PyDatetime.minute := 0; PyDatetime.second := 0 |},
          false)
    /\ (forall d, well_formed_date value = Some d ->
        parse_date (Some value) = Ok (make_aware d, true))
    /\ (value <> sentinel_date ->
        forall d, PyDatetime.strptime (blanks_to_T value) = Some d ->
        parse_date (Some value) = Ok (make_aware d, true))
    /\ (value <> sentinel_date ->
        PyDatetime.strptime (blanks_to_T value) = None ->
        parse_date (Some value) = Raise ValueError).
Proof.
  intros C value. split; [reflexivity|]. split; [|split].
  - intros d Hwf.
    assert (Hne : value <> sentinel_date).
    { intros ->. vm_compute in Hwf. discriminate. }
    rewrite (parse_date_other C value Hne).
    now rewrite (strptime_well_formed value d Hwf).
  - intros Hne d Hd. rewrite (parse_date_other C value Hne). now rewrite Hd.
  - intros Hne Hd. rewrite (parse_date_other C value Hne). now rewrite Hd.
Qed.

Lemma parse_date_cases_witness :
  parse_date (C := reference) (Some "2021-03-04 05:06:07")
  = Ok ({| PyDatetime.naive :=
             {| PyDatetime.year := 2021; PyDatetime.month := 3;
                PyDatetime.day := 4; PyDatetime.hour := 5;
                PyDatetime.minute := 6; PyDatetime.second := 7 |};
           PyDatetime.tzinfo := "UTC" |}, true)
  /\ parse_date (C := reference) (Some "2021-02-30 05:06:07")
     = Raise ValueError
  /\ parse_date (C := reference) (Some "next tuesday") = Raise ValueError.
Proof.
  split; [|split].
  - apply (proj1 (proj2 (parse_date_cases reference "2021-03-04 05:06:07"))).
    reflexivity.
  - apply (proj2 (proj2 (proj2
             (parse_date_cases reference "2021-02-30 05:06:07")))).
    + discriminate.
    + reflexivity.
  - apply (proj2 (proj2 (proj2 (parse_date_cases reference "next tuesday")))).
    + discriminate.
    + reflexivity.
Defined.

(** C2, as the spec states it, fails: a date written with [T] between day
    and hour, or with fields that are not padded, is neither the sentinel
    nor a well-formed [YYYY-MM-DD HH:MM:SS] text, and still [parse_date]
    returns a moment with validity true instead of failing. *)
Lemma parse_date_accepts_other_forms :
  ("2021-03-04T05:06:07" <> sentinel_date
   /\ well_formed_date "2021-03-04T05:06:07" = None
   /\ parse_date (C := reference) (Some "2021-03-04T05:06:07")
      = Ok ({| PyDatetime.naive :=
                 {| PyDatetime.year := 2021; PyDatetime.month := 3;
                    PyDatetime.day := 4; PyDatetime.hour := 5;
                    PyDatetime.minute := 6; PyDatetime.second := 7 |};
               PyDatetime.tzinfo := "UTC" |}, true))
  /\ ("2021-3-4 5:6:7" <> sentinel_date
      /\ well_formed_date "2021-3-4 5:6:7" = None
      /\ parse_date (C := reference) (Some "2021-3-4 5:6:7")
         = Ok ({| PyDatetime.naive :=
                    {| PyDatetime.year := 2021; PyDatetime.month := 3;
                       PyDatetime.day := 4; PyDatetime.hour := 5;
                       PyDatetime.minute := 6; PyDatetime.second := 7 |};
                  PyDatetime.tzinfo := "UTC" |}, true)).
Proof.
  repeat split; discriminate.
Qed.

(** ** Reconciliation *)

Lemma names_pk_true (key : string) :
  Store.names_pk key = true -> key = "pk" \/ key = "id".
Proof.
  unfold Store.names_pk. rewrite orb_true_iff, !String.eqb_eq. tauto.
Qed.

Lemma assign_fixed (obj : Store.page) (key : string) (v : pyval) :
  Store.content_type (Store.assign obj key v) = Store.content_type obj
  /\ Store.parent (Store.assign obj key v) = Store.parent obj.
Proof. unfold Store.assign. now destruct (Store.names_pk key). Qed.

Lemma assign_pk (obj : Store.page) (key : string) (v : pyval) :
  Store.names_pk key = false ->
  Store.pk (Store.assign obj key v) = Store.pk obj.
Proof. unfold Store.assign. now intros ->. Qed.

Lemma assign_get (obj : Store.page) (key k : string) (v : pyval) :
  Store.names_pk k = false ->
  PyDict.get (Store.attrs (Store.assign obj key v)) k
  = if String.eqb k key then Some v else PyDict.get (Store.attrs obj) k.
Proof.
  intros Hk. unfold Store.assign.
  destruct (Store.names_pk key) eqn:Ek; cbn [Store.attrs].
  - destruct (String.eqb k key) eqn:E; auto.
    apply String.eqb_eq in E. congruence.
  - destruct (String.eqb k key) eqn:E.
    + apply String.eqb_eq in E. subst k. apply get_set_eq.
    + apply String.eqb_neq in E. apply get_set_ne. congruence.
Qed.

(** Assignment never stores an attribute under a name of the primary
    key. *)
Lemma assign_get_pk (obj : Store.page) (key k : string) (v : pyval) :
  Store.names_pk k = true ->
  PyDict.get (Store.attrs (Store.assign obj key v)) k
  = PyDict.get (Store.attrs obj) k.
Proof.
  intros Hk. unfold Store.assign.
  destruct (Store.names_pk key) eqn:Ek; cbn [Store.attrs]; auto.
  apply get_set_ne. congruence.
Qed.

Lemma assign_all_fixed (values : PyDict.t pyval) (ks : list string) :
  forall obj,
    Store.content_type (Store.assign_all values ks obj)
    = Store.content_type obj
    /\ Store.parent (Store.assign_all values ks obj) = Store.parent obj.
Proof.
  unfold Store.assign_all.
  induction ks as [|k ks IH]; intros obj; cbn [fold_left]; auto.
  destruct (IH (match PyDict.get values k with
                | Some v => Store.assign obj k v
                | None => obj
                end)) as [H1 H2].
  rewrite H1, H2.
  destruct (PyDict.get values k); auto. apply assign_fixed.
Qed.

Lemma assign_all_pk (values : PyDict.t pyval) (ks : list string) :
  PyDict.get values "pk" = None -> PyDict.get values "id" = None ->
  forall obj, Store.pk (Store.assign_all values ks obj) = Store.pk obj.
Proof.
  intros Hpk Hid. unfold Store.assign_all.
  induction ks as [|k ks IH]; intros obj; cbn [fold_left]; auto.
  rewrite IH. destruct (PyDict.get values k) as [v|] eqn:Ev; auto.
  apply assign_pk. destruct (Store.names_pk k) eqn:Ek; auto.
  apply names_pk_true in Ek. destruct Ek; subst k; congruence.
Qed.

Lemma assign_all_get (values : PyDict.t pyval) (ks : list string) :
  forall (obj : Store.page) (key : string),
    Store.names_pk key = false ->
    PyDict.get (Store.attrs (Store.assign_all values ks obj)) key
    = match (if existsb (String.eqb key) ks
             then PyDict.get values key else None) with
      | Some v => Some v
      | None => PyDict.get (Store.attrs obj) key
      end.
Proof.
  unfold Store.assign_all.
  induction ks as [|k0 ks IH]; intros obj key Hkey; cbn [fold_left existsb].
  - reflexivity.
  - rewrite IH by exact Hkey. destruct (String.eqb key k0) eqn:E0.
    + apply String.eqb_eq in E0. subst k0. cbn [orb].
      destruct (PyDict.get values key) as [v|] eqn:Ev.
      * rewrite assign_get by exact Hkey. rewrite String.eqb_refl.
        now destruct (existsb (String.eqb key) ks).
      * now destruct (existsb (String.eqb key) ks).
    + cbn [orb].
      assert (Hsame :
               PyDict.get
                 (Store.attrs
                    (match PyDict.get values k0 with
                     | Some v => Store.assign obj k0 v
                     | None => obj
                     end)) key = PyDict.get (Store.attrs obj) key).
      { destruct (PyDict.get values k0); auto.
        rewrite assign_get by exact Hkey. now rewrite E0. }
      now rewrite Hsame.
Qed.

Lemma assign_all_get_pk (values : PyDict.t pyval) (ks : list string) :
  forall (obj : Store.page) (key : string),
    Store.names_pk key = true ->
    PyDict.get (Store.attrs (Store.assign_all values ks obj)) key
    = PyDict.get (Store.attrs obj) key.
Proof.
  unfold Store.assign_all.
  induction ks as [|k0 ks IH]; intros obj key Hkey; cbn [fold_left]; auto.
  rewrite IH by exact Hkey.
  destruct (PyDict.get values k0); auto. now apply assign_get_pk.
Qed.

(** The attributes after every key of [values] has been assigned. *)
Lemma assign_values_get (values : PyDict.t pyval) (obj : Store.page)
  (key : string) :
  Store.names_pk key = false ->
  PyDict.get
    (Store.attrs (Store.assign_all values (PyDict.keys values) obj)) key
  = match PyDict.get values key with
    | Some v => Some v
    | None => PyDict.get (Store.attrs obj) key
    end.
Proof.
  intros Hkey. rewrite assign_all_get by exact Hkey.
  destruct (existsb (String.eqb key) (PyDict.keys values)) eqn:E; auto.
  destruct (PyDict.get values key) as [v|] eqn:Ev; auto.
  assert (Hin : In key (PyDict.keys values)).
  { apply get_in in Ev. unfold PyDict.keys.
    apply in_map_iff. now exists (key, v). }
  apply existsb_eqb_in in Hin. congruence.
Qed.

(** A value given under one name of the primary key, and under no other,
    becomes the primary key. *)
Lemma assign_all_pk_one (values : PyDict.t pyval) (ks : list string)
  (key : string) (v : pyval) :
  Store.names_pk key = true -> PyDict.get values key = Some v ->
  (forall k, Store.names_pk k = true -> k <> key ->
             PyDict.get values k = None) ->
  forall obj,
    Store.pk (Store.assign_all values ks obj)
    = if existsb (String.eqb key) ks then v else Store.pk obj.
Proof.
  intros Hkey Hv Hothers. unfold Store.assign_all.
  induction ks as [|k0 ks IH]; intros obj; cbn [fold_left existsb]; auto.
  rewrite IH. destruct (String.eqb key k0) eqn:E0; cbn [orb].
  - apply String.eqb_eq in E0. subst k0. rewrite Hv.
    unfold Store.assign. rewrite Hkey. cbn [Store.pk].
    now destruct (existsb (String.eqb key) ks).
  - apply String.eqb_neq in E0.
    destruct (existsb (String.eqb key) ks); auto.
    destruct (PyDict.get values k0) as [w|] eqn:Ew; auto.
    apply assign_pk. destruct (Store.names_pk k0) eqn:Ek; auto.
    rewrite Hothers in Ew; [discriminate | exact Ek | congruence].
Qed.

Lemma assign_values_pk (values : PyDict.t pyval) (obj : Store.page)
  (key : string) (v : pyval) :
  Store.names_pk key = true -> PyDict.get values key = Some v ->
  (forall k, Store.names_pk k = true -> k <> key ->
             PyDict.get values k = None) ->
  Store.pk (Store.assign_all values (PyDict.keys values) obj) = v.
Proof.
  intros Hkey Hv Hothers.
  rewrite (assign_all_pk_one values _ key v Hkey Hv Hothers).
  assert (Hin : In key (PyDict.keys values)).
  { apply get_in in Hv. unfold PyDict.keys.
    apply in_map_iff. now exists (key, v). }
  apply existsb_eqb_in in Hin. now rewrite Hin.
Qed.

Lemma guard_raise (O : Store.Orm) (c : Store.call) (e : exn) :
  Store.guard c = Raise e -> exists name, e = DjangoError name.
Proof.
  unfold Store.guard. destruct (Store.refuses c) as [name|]; [|discriminate].
  intros [= <-]. now exists name.
Qed.

Lemma new_ok (O : Store.Orm) (model : Store.model_id)
  (values : PyDict.t pyval) (obj : Store.page) :
  Store.new model values = Ok obj ->
  obj = Store.assign_all values (PyDict.keys values)
          {| Store.pk := PyNone; Store.content_type := model;
             Store.parent := PyNone; Store.attrs := PyDict.empty |}.
Proof.
  unfold Store.new. destruct (Store.guard _); cbn [bind]; [|discriminate].
  now intros [= <-].
Qed.

Lemma setattr_ok (O : Store.Orm) (obj obj' : Store.page) (key : string)
  (v : pyval) :
  Store.setattr obj key v = Ok obj' -> obj' = Store.assign obj key v.
Proof.
  unfold Store.setattr. destruct (Store.guard _); cbn [bind]; [|discriminate].
  now intros [= <-].
Qed.

Lemma set_attrs_ok (O : Store.Orm) (values : PyDict.t pyval)
  (obj obj' : Store.page) :
  set_attrs obj values = Ok obj' ->
  obj' = Store.assign_all values (PyDict.keys values) obj.
Proof.
  unfold set_attrs, Store.assign_all.
  generalize (PyDict.keys values). intros ks. revert obj.
  induction ks as [|k ks IH]; intros obj; cbn [foldM fold_left].
  - now intros [= <-].
  - unfold PyDict.subscript.
    destruct (PyDict.get values k) as [v|]; cbn [bind]; [|discriminate].
    destruct (Store.setattr obj k v) as [obj1|e] eqn:E; cbn [bind];
      [|discriminate].
    apply setattr_ok in E. subst obj1. apply IH.
Qed.

Lemma save_ok (O : Store.Orm) (st st' : Store.t) (obj obj' : Store.page) :
  Store.save st obj = Ok (st', obj') -> (st', obj') = Store.write st obj.
Proof.
  unfold Store.save. destruct (Store.guard _); cbn [bind]; [|discriminate].
  intros [= H]. symmetry. exact H.
Qed.

Lemma unpublish_ok (O : Store.Orm) (st st' : Store.t)
  (obj obj' : Store.page) :
  Store.unpublish st obj = Ok (st', obj') ->
  (st', obj')
  = Store.write st {| Store.pk := Store.pk obj;
                      Store.content_type := Store.content_type obj;
                      Store.parent := Store.parent obj;
                      Store.attrs := PyDict.set (Store.attrs obj) "live"
                                                (PyBool false) |}.
Proof.
  unfold Store.unpublish. destruct (Store.guard _); cbn [bind];
    [|discriminate].
  intros [= H]. symmetry. exact H.
Qed.

Lemma add_child_ok (O : Store.Orm) (st st' : Store.t)
  (parent_obj obj obj' : Store.page) :
  Store.add_child st parent_obj obj = Ok (st', obj') ->
  (st', obj')
  = Store.write st {| Store.pk := Store.pk obj;
                      Store.content_type := Store.content_type obj;
                      Store.parent := Store.pk parent_obj;
                      Store.attrs := Store.attrs obj |}.
Proof.
  unfold Store.add_child. destruct (Store.guard _); cbn [bind];
    [|discriminate].
  intros [= H]. symmetry. exact H.
Qed.

(** What [write] hands back is the instance it was given, with a primary
    key when it had none, and that instance is in the table. *)
Lemma write_obj (st : Store.t) (obj : Store.page) :
  Store.content_type (snd (Store.write st obj)) = Store.content_type obj
  /\ Store.parent (snd (Store.write st obj)) = Store.parent obj
  /\ Store.attrs (snd (Store.write st obj)) = Store.attrs obj
  /\ (Store.pk obj <> PyNone ->
      Store.pk (snd (Store.write st obj)) = Store.pk obj)
  /\ In (snd (Store.write st obj)) (Store.pages (fst (Store.write st obj))).
Proof.
  unfold Store.write.
  assert (Hlast : forall (l : list Store.page) x, In x (l ++ [x])).
  { intros l x. apply in_or_app. right. now left. }
  assert (Hrep : forall key,
             existsb (fun p => Store.pyval_eqb (Store.pk p) key)
                     (Store.pages st) = true ->
             In obj (map (fun p => if Store.pyval_eqb (Store.pk p) key
                                   then obj else p) (Store.pages st))).
  { intros key H. apply existsb_exists in H. destruct H as [p [Hin Hp]].
    apply in_map_iff. exists p. now rewrite Hp. }
  destruct (Store.pk obj) eqn:Epk; cbn [fst snd Store.pages Store.attrs
    Store.content_type Store.parent Store.pk];
    try (destruct (existsb _ (Store.pages st)) eqn:Ex;
         cbn [fst snd Store.pages];
         repeat split; auto).
  repeat split; auto. congruence.
Qed.

(** An instance without primary key is appended under a new one. *)
Lemma write_new (st : Store.t) (obj : Store.page) :
  Store.pk obj = PyNone ->
  Store.write st obj
  = ({| Store.installed_models := Store.installed_models st;
        Store.pages :=
          Store.pages st
          ++ [{| Store.pk := PyInt (Store.fresh_pk st);
                 Store.content_type := Store.content_type obj;
                 Store.parent := Store.parent obj;
                 Store.attrs := Store.attrs obj |}] |},
     {| Store.pk := PyInt (Store.fresh_pk st);
        Store.content_type := Store.content_type obj;
        Store.parent := Store.parent obj;
        Store.attrs := Store.attrs obj |}).
Proof. unfold Store.write. now intros ->. Qed.

(** C7.  When [create_page] returns it has built the new page from all
    transformed values, has set its live flag to false for the status
    [draft] and to true for any other status, has put it below the parent
    and into the store and answers ["created"]; the page is a new row of
    the store unless the values name a primary key.  When [update_page]
    returns it has written every transformed value over the attribute of
    the same name of the existing page and kept the other attributes, has
    saved the page and answers ["updated"]; for the status [draft] the page
    is then unpublished, for any other status the live flag is not touched
    beyond what the transformed values say.  The primary key of the page
    is kept unless the values name it; a value that the transformed
    values give under [pk] or [id] becomes the primary key of the page, on
    both paths. *)
Theorem reconciliation_paths :
  forall (O : Store.Orm) (st : Store.t) (model : Store.model_id)
         (parent_obj existing : Store.page) (values : PyDict.t pyval)
         (status : raw),
    (forall st' obj outcome,
        create_page st model parent_obj values status
        = Ok (st', obj, outcome) ->
        outcome = "created"
        /\ (forall key, key <> "live" -> Store.names_pk key = false ->
            PyDict.get (Store.attrs obj) key = PyDict.get values key)
        /\ PyDict.get (Store.attrs obj) "live"
           = Some (PyBool (negb (is_draft status)))
        /\ Store.parent obj = Store.pk parent_obj
        /\ Store.content_type obj = model
        /\ In obj (Store.pages st')
        /\ (PyDict.get values "pk" = None -> PyDict.get values "id" = None ->
            Store.pages st' = Store.pages st ++ [obj])
        /\ (forall key v, PyDict.get values key = Some v ->
            Store.names_pk key = true ->
            (forall k, Store.names_pk k = true -> k <> key ->
                       PyDict.get values k = None) ->
            v <> PyNone -> Store.pk obj = v))
    /\ (forall st' obj outcome,
        update_page st existing values status = Ok (st', obj, outcome) ->
        outcome = "updated"
        /\ (PyDict.get values "pk" = None -> PyDict.get values "id" = None ->
            Store.pk existing <> PyNone -> Store.pk obj = Store.pk existing)
        /\ (forall key v, PyDict.get values key = Some v ->
            Store.names_pk key = false ->
            key <> "live" \/ is_draft status = false ->
            PyDict.get (Store.attrs obj) key = Some v)
        /\ (forall key, PyDict.get values key = None -> key <> "live" ->
            PyDict.get (Store.attrs obj) key
            = PyDict.get (Store.attrs existing) key)
        /\ In obj (Store.pages st')
        /\ (is_draft status = true ->
            PyDict.get (Store.attrs obj) "live" = Some (PyBool false))
        /\ (is_draft status = false -> PyDict.get values "live" = None ->
            PyDict.get (Store.attrs obj) "live"
            = PyDict.get (Store.attrs existing) "live")
        /\ (forall key v, PyDict.get values key = Some v ->
            Store.names_pk key = true ->
            (forall k, Store.names_pk k = true -> k <> key ->
                       PyDict.get values k = None) ->
            v <> PyNone -> Store.pk obj = v)).
Proof.
  intros O st model parent_obj existing values status. split.
  - intros st' obj outcome. unfold create_page.
    destruct (Store.new model values) as [obj0|e] eqn:E0; cbn [bind];
      [|discriminate].
    apply new_ok in E0.
    assert (E1 : forall obj1,
               (if is_draft status
                then Store.setattr obj0 "live" (PyBool false)
                else Store.setattr obj0 "live" (PyBool true)) = Ok obj1 ->
               obj1 = Store.assign obj0 "live"
                        (PyBool (negb (is_draft status)))).
    { intros obj1. destruct (is_draft status); apply setattr_ok. }
    destruct (if is_draft status then _ else _) as [obj1|e]; cbn [bind];
      [|discriminate].
    specialize (E1 obj1 eq_refl).
    destruct (Store.add_child st parent_obj obj1) as [[st2 obj2]|e] eqn:E2;
      cbn [bind]; [|discriminate].
    apply add_child_ok in E2. intros [= <- <- <-].
    set (placed := {| Store.pk := Store.pk obj1;
                      Store.content_type := Store.content_type obj1;
                      Store.parent := Store.pk parent_obj;
                      Store.attrs := Store.attrs obj1 |}) in E2.
    destruct (write_obj st placed) as [Hct [Hpar [Hattrs [Hpkw Hin]]]].
    rewrite <- E2 in Hct, Hpar, Hattrs, Hpkw, Hin. cbn [fst snd] in *.
    cbn [placed Store.content_type Store.parent Store.attrs Store.pk] in *.
    assert (Hlive : Store.names_pk "live" = false) by reflexivity.
    split; [reflexivity|].
    split; [|split; [|split; [|split; [|split; [|split]]]]].
    + intros key Hkey Hk. rewrite Hattrs, E1, assign_get by exact Hk.
      apply String.eqb_neq in Hkey. rewrite Hkey.
      rewrite E0, assign_values_get by exact Hk. cbn [Store.attrs].
      now destruct (PyDict.get values key).
    + rewrite Hattrs, E1, assign_get by exact Hlive. reflexivity.
    + exact Hpar.
    + rewrite Hct, E1. rewrite (proj1 (assign_fixed _ _ _)).
      rewrite E0. now rewrite (proj1 (assign_all_fixed _ _ _)).
    + exact Hin.
    + intros Hpk Hid.
      assert (Hnone : Store.pk placed = PyNone).
      { cbn [placed Store.pk]. rewrite E1, assign_pk by exact Hlive.
        rewrite E0. now rewrite assign_all_pk. }
      rewrite (write_new st placed Hnone) in E2.
      injection E2 as -> ->. reflexivity.
    + intros key v Hv Hk Hothers Hne.
      assert (Hmade : Store.pk obj1 = v).
      { rewrite E1, assign_pk by exact Hlive.
        rewrite E0. now apply (assign_values_pk values _ key). }
      rewrite Hpkw; congruence.
  - intros st' obj outcome. unfold update_page.
    destruct (set_attrs existing values) as [obj1|e] eqn:E1; cbn [bind];
      [|discriminate].
    apply set_attrs_ok in E1.
    destruct (Store.save st obj1) as [[st2 obj2]|e] eqn:E2; cbn [bind];
      [|discriminate].
    apply save_ok in E2.
    destruct (write_obj st obj1) as [_ [_ [Hattrs2 [Hpk2 Hin2]]]].
    rewrite <- E2 in Hattrs2, Hpk2, Hin2. cbn [fst snd] in *.
    assert (Hkept : PyDict.get values "pk" = None ->
                    PyDict.get values "id" = None ->
                    Store.pk existing <> PyNone ->
                    Store.pk obj2 = Store.pk existing).
    { intros Hpk Hid Hex. rewrite Hpk2; rewrite E1, assign_all_pk; auto. }
    assert (Hover : forall key v, PyDict.get values key = Some v ->
                      Store.names_pk key = false ->
                      PyDict.get (Store.attrs obj2) key = Some v).
    { intros key v Hv Hk. rewrite Hattrs2, E1, assign_values_get by exact Hk.
      now rewrite Hv. }
    assert (Hkeep : forall key, PyDict.get values key = None ->
                      PyDict.get (Store.attrs obj2) key
                      = PyDict.get (Store.attrs existing) key).
    { intros key Hv. rewrite Hattrs2, E1.
      destruct (Store.names_pk key) eqn:Hk.
      - now apply assign_all_get_pk.
      - rewrite assign_values_get by exact Hk. now rewrite Hv. }
    assert (Hset : forall key v, PyDict.get values key = Some v ->
                     Store.names_pk key = true ->
                     (forall k, Store.names_pk k = true -> k <> key ->
                                PyDict.get values k = None) ->
                     v <> PyNone -> Store.pk obj2 = v).
    { intros key v Hv Hk Hothers Hne.
      assert (Hmade : Store.pk obj1 = v).
      { rewrite E1. now apply (assign_values_pk values _ key). }
      rewrite Hpk2; congruence. }
    destruct (is_draft status) eqn:Ed.
    + destruct (Store.unpublish st2 obj2) as [[st3 obj3]|e] eqn:E3;
        cbn [bind]; [|discriminate].
      apply unpublish_ok in E3. intros [= <- <- <-].
      set (off := {| Store.pk := Store.pk obj2;
                     Store.content_type := Store.content_type obj2;
                     Store.parent := Store.parent obj2;
                     Store.attrs := PyDict.set (Store.attrs obj2) "live"
                                               (PyBool false) |}) in E3.
      destruct (write_obj st2 off) as [_ [_ [Hattrs3 [Hpk3 Hin3]]]].
      rewrite <- E3 in Hattrs3, Hpk3, Hin3. cbn [fst snd] in *.
      cbn [off Store.attrs Store.pk] in *.
      split; [reflexivity|].
      split; [|split; [|split; [|split; [|split; [|split]]]]].
      * intros Hpk Hid Hex. rewrite Hpk3; rewrite Hkept; auto.
      * intros key v Hv Hk [Hkey|Hdraft]; [|discriminate].
        rewrite Hattrs3, get_set_ne by congruence. now apply Hover.
      * intros key Hv Hkey.
        rewrite Hattrs3, get_set_ne by congruence. now apply Hkeep.
      * exact Hin3.
      * intros _. rewrite Hattrs3. apply get_set_eq.
      * discriminate.
      * intros key v Hv Hk Hothers Hne.
        pose proof (Hset key v Hv Hk Hothers Hne) as Hv2.
        rewrite Hpk3; congruence.
    + cbn [bind]. intros [= <- <- <-].
      split; [reflexivity|].
      split; [|split; [|split; [|split; [|split; [|split]]]]].
      * exact Hkept.
      * intros key v Hv Hk _. now apply Hover.
      * intros key Hv _. now apply Hkeep.
      * exact Hin2.
      * discriminate.
      * intros _ Hv. now apply Hkeep.
      * exact Hset.
Qed.

Lemma reconciliation_paths_witness :
  exists st1 created st2 updated st3 moved,
    create_page (O := Store.wagtail) Sample.store Sample.page_model
                Sample.home Sample.new_values (Some "draft")
    = Ok (st1, created, "created")
    /\ PyDict.get (Store.attrs created) "live" = Some (PyBool false)
    /\ Store.parent created = PyInt 2
    /\ update_page (O := Store.wagtail) Sample.imported_store
                   Sample.imported_page Sample.new_values (Some "draft")
       = Ok (st2, updated, "updated")
    /\ PyDict.get (Store.attrs updated) "title" = Some (PyStr "New title")
    /\ PyDict.get (Store.attrs updated) "owner" = Some (PyStr "editor")
    /\ PyDict.get (Store.attrs updated) "live" = Some (PyBool false)
    /\ Store.pk updated = PyInt 3
    /\ In updated (Store.pages st2)
    /\ update_page (O := Store.wagtail) Sample.imported_store
                   Sample.imported_page Cases.moving_values
                   (Some "publish")
       = Ok (st3, moved, "updated")
    /\ Store.pk moved = PyStr "999".
Proof.
  destruct (create_page (O := Store.wagtail) Sample.store Sample.page_model
              Sample.home Sample.new_values (Some "draft"))
    as [[[st1 created] o1]|e] eqn:E1; [|vm_compute in E1; discriminate].
  destruct (update_page (O := Store.wagtail) Sample.imported_store
              Sample.imported_page Sample.new_values (Some "draft"))
    as [[[st2 updated] o2]|e] eqn:E2; [|vm_compute in E2; discriminate].
  destruct (update_page (O := Store.wagtail) Sample.imported_store
              Sample.imported_page Cases.moving_values (Some "publish"))
    as [[[st3 moved] o3]|e] eqn:E3; [|vm_compute in E3; discriminate].
  pose proof (reconciliation_paths Store.wagtail Sample.imported_store
                Sample.page_model Sample.home Sample.imported_page
                Cases.moving_values (Some "publish")) as [_ Hmove].
  destruct (Hmove _ _ _ E3) as [Ho3 [_ [_ [_ [_ [_ [_ Hset]]]]]]].
  pose proof (reconciliation_paths Store.wagtail Sample.store
                Sample.page_model Sample.home Sample.imported_page
                Sample.new_values (Some "draft")) as [Hcreate _].
  pose proof (reconciliation_paths Store.wagtail Sample.imported_store
                Sample.page_model Sample.home Sample.imported_page
                Sample.new_values (Some "draft")) as [_ Hupdate].
  destruct (Hcreate _ _ _ E1) as [Ho1 [_ [Hlive [Hpar _]]]].
  destruct (Hupdate _ _ _ E2)
    as [Ho2 [Hpk [Hover [Hkeep [Hsaved [Hdraft _]]]]]].
  exists st1, created, st2, updated, st3, moved. subst o1 o2 o3.
  split; [reflexivity|]. split; [exact Hlive|]. split; [exact Hpar|].
  split; [reflexivity|].
  split; [|split; [|split; [|split; [|split; [|split]]]]].
  - apply Hover; [reflexivity | reflexivity | left; discriminate].
  - apply (Hkeep "owner"); [reflexivity | discriminate].
  - apply Hdraft. reflexivity.
  - apply Hpk; [reflexivity | reflexivity | discriminate].
  - exact Hsaved.
  - reflexivity.
  - apply (Hset "pk"); [reflexivity | reflexivity | | discriminate].
    intros k Hk Hne. apply names_pk_true in Hk.
    destruct Hk as [->| ->]; [congruence | reflexivity].
Defined.

(** ** The import session *)

Lemma map_field_get (item : raw_item) (key : string) :
  PyDict.get (map (fun kv => (fst kv, Field (snd kv))) item) key
  = option_map Field (PyDict.get item key).
Proof.
  induction item as [|[k v] item IH]; cbn [map PyDict.get fst snd]; auto.
  destruct (String.eqb k key); auto.
Qed.

Lemma set_log_keeps_fields (item : raw_item) (entry : PyDict.t pyval) :
  keeps_fields item (set_log item entry).
Proof.
  intros key Hkey. unfold set_log.
  rewrite get_set_ne by congruence. apply map_field_get.
Qed.

Lemma log_field_set_log (item : raw_item) (entry : PyDict.t pyval)
  (name : string) :
  log_field name (set_log item entry) = PyDict.get entry name.
Proof. unfold log_field, set_log. now rewrite get_set_eq. Qed.

Lemma set_log_says (item : raw_item) (result reason : string)
  (datecheck slugcheck : pyval) :
  log_says (set_log item (log_entry result reason datecheck slugcheck))
           result reason datecheck slugcheck.
Proof. unfold log_says. rewrite !log_field_set_log. cbn. auto. Qed.

Section Session.

Context {C : Collaborators} {O : Store.Orm}.
Variable model : Store.model_id.
Variable parent_obj : Store.page.
Variable kw : kwargs.

Lemma get_values_config (a b : importer) (item : raw_item) :
  config_of a = config_of b -> get_values a item = get_values b item.
Proof.
  unfold config_of. intros [= H1 H2 H3 H4].
  unfold get_values, stream_field, date_field, slug_field.
  rewrite H1, H2, H3, H4. reflexivity.
Qed.

Lemma audit_of_config (a b : importer) (item : raw_item)
  (logged : logged_item) :
  config_of a = config_of b ->
  audit_of a kw item logged -> audit_of b kw item logged.
Proof.
  intros Hc [entry [Hl He]]. exists entry. split; auto.
  destruct (eligible kw item); auto.
  now rewrite <- (get_values_config a b item Hc).
Qed.

(** What can be read from a logged item that [run] made of a record. *)
Lemma audit_of_read (self : importer) (item : raw_item)
  (logged : logged_item) :
  (audit_of self kw item logged
   /\ (eligible kw item = true ->
       log_field "result" logged = Some (PyStr "created")
       /\ log_field "reason" logged = Some (PyStr "new")
       \/ log_field "result" logged = Some (PyStr "updated")
          /\ log_field "reason" logged = Some (PyStr "existed"))) ->
  audited self kw item logged.
Proof.
  intros [[entry [-> He]] Hpair]. split; [apply set_log_keeps_fields|].
  destruct (eligible kw item).
  - destruct He as [outcome [reason [vals [dv [sc [Hv [-> Ho]]]]]]].
    exists vals, dv, sc. split; [exact Hv|].
    specialize (Hpair eq_refl). rewrite !log_field_set_log in Hpair.
    cbn in Hpair.
    destruct Hpair as [[[= ->] [= ->]]|[[= ->] [= ->]]];
      [left | right]; apply set_log_says.
  - subst entry. apply set_log_says.
Qed.

Lemma process_item_skip (self : importer) (st : Store.t) (item : raw_item) :
  eligible kw item = false ->
  process_item model parent_obj kw (self, st) item
  = Ok (bump (bump self 1 0 0 []) 0 0 1 [set_log item skipped_entry], st).
Proof. intros H. unfold process_item. now rewrite H. Qed.

Lemma process_item_eligible (self : importer) (st : Store.t)
  (item : raw_item) :
  eligible kw item = true ->
  process_item model parent_obj kw (self, st) item
  = match get_values self item with
    | Raise e => Raise e
    | Ok (vals, dv, sc) =>
        let status := item_get item (Some "wp:status") in
        match Store.filter_first st model "wp_post_id" (identity_of item)
        with
        | Some existing =>
            match update_page st existing vals status with
            | Ok (st', _, _) =>
                Ok (bump (bump self 1 0 0 []) 0 1 0
                         [set_log item (log_entry "updated" "existed"
                                                  (PyBool dv) sc)],
                    st')
            | Raise e => Raise e
            end
        | None =>
            match create_page st model parent_obj vals status with
            | Ok (st', _, _) =>
                Ok (bump (bump self 1 0 0 []) 0 1 0
                         [set_log item (log_entry "created" "new"
                                                  (PyBool dv) sc)],
                    st')
            | Raise e => Raise e
            end
        end
    end.
Proof.
  intros H. unfold process_item. rewrite H.
  rewrite (get_values_config (bump self 1 0 0 []) self item)
    by reflexivity.
  destruct (get_values self item) as [[[vals dv] sc]|e]; reflexivity.
Qed.

(** A step of the loop that returns, for an eligible record: the record
    was transformed, and then either found and updated or not found and
    created. *)
Lemma process_item_ok (self self' : importer) (st st' : Store.t)
  (item : raw_item) :
  eligible kw item = true ->
  process_item model parent_obj kw (self, st) item = Ok (self', st') ->
  exists vals dv sc,
    get_values self item = Ok (vals, dv, sc)
    /\ ((exists existing obj outcome,
            Store.filter_first st model "wp_post_id" (identity_of item)
            = Some existing
            /\ update_page st existing vals
                           (item_get item (Some "wp:status"))
               = Ok (st', obj, outcome)
            /\ self' = bump (bump self 1 0 0 []) 0 1 0
                            [set_log item (log_entry "updated" "existed"
                                                     (PyBool dv) sc)])
        \/ (exists obj outcome,
               Store.filter_first st model "wp_post_id" (identity_of item)
               = None
               /\ create_page st model parent_obj vals
                              (item_get item (Some "wp:status"))
                  = Ok (st', obj, outcome)
               /\ self' = bump (bump self 1 0 0 []) 0 1 0
                               [set_log item (log_entry "created" "new"
                                                        (PyBool dv) sc)])).
Proof.
  intros He H. rewrite (process_item_eligible self st item He) in H.
  destruct (get_values self item) as [[[vals dv] sc]|e]; [|discriminate].
  cbv zeta in H. exists vals, dv, sc. split; [reflexivity|].
  destruct (Store.filter_first _ _ _ _) as [existing|].
  - destruct (update_page _ _ _ _) as [[[st1 obj] outcome]|e] eqn:Eu;
      [|discriminate].
    injection H as <- <-. left. exists existing, obj, outcome. auto.
  - destruct (create_page _ _ _ _ _) as [[[st1 obj] outcome]|e] eqn:Ec;
      [|discriminate].
    injection H as <- <-. right. exists obj, outcome. auto.
Qed.

(** One step of the loop, as seen by the counters and the log. *)
Lemma process_item_audit (self self' : importer) (st st' : Store.t)
  (item : raw_item) :
  process_item model parent_obj kw (self, st) item = Ok (self', st') ->
  config_of self' = config_of self
  /\ log_processed self' = log_processed self + 1
  /\ log_imported self'
     = log_imported self + (if eligible kw item then 1 else 0)
  /\ log_skipped self'
     = log_skipped self + (if eligible kw item then 0 else 1)
  /\ exists logged,
      logged_items self' = logged_items self ++ [logged]
      /\ audit_of self kw item logged
      /\ audited self kw item logged.
Proof.
  destruct (eligible kw item) eqn:E.
  - intros H.
    destruct (process_item_ok self self' st st' item E H)
      as [vals [dv [sc [Ev Hcase]]]].
    assert (Hentry : forall outcome reason,
               outcome = "created" /\ reason = "new"
               \/ outcome = "updated" /\ reason = "existed" ->
               audit_of self kw item
                 (set_log item (log_entry outcome reason (PyBool dv) sc))
               /\ audited self kw item
                    (set_log item (log_entry outcome reason (PyBool dv) sc))).
    { intros outcome reason Ho.
      assert (Ha : audit_of self kw item
                     (set_log item
                        (log_entry outcome reason (PyBool dv) sc))).
      { eexists. split; [reflexivity|].
        rewrite E. exists outcome, reason, vals, dv, sc.
        repeat split; auto. tauto. }
      split; [exact Ha|]. apply audit_of_read. split; [exact Ha|].
      intros _. rewrite !log_field_set_log. cbn.
      destruct Ho as [[-> ->]|[-> ->]]; auto. }
    destruct Hcase as [[existing [obj [outcome [_ [_ ->]]]]]
                      |[obj [outcome [_ [_ ->]]]]];
      cbn [config_of bump log_processed log_imported log_skipped
             logged_items mapping_item_inverse mapping_valid_date
             mapping_valid_slug mapping_stream_fields];
      rewrite app_nil_r;
      (split; [reflexivity|]); (split; [lia|]); (split; [lia|]);
      (split; [lia|]); eexists; (split; [reflexivity|]);
      apply Hentry; auto.
  - rewrite (process_item_skip self st item E). intros [= <- <-].
    cbn [config_of bump log_processed log_imported log_skipped
           logged_items mapping_item_inverse mapping_valid_date
           mapping_valid_slug mapping_stream_fields].
    rewrite app_nil_r.
    split; [reflexivity|]. split; [lia|]. split; [lia|]. split; [lia|].
    eexists. split; [reflexivity|].
    assert (Ha : audit_of self kw item (set_log item skipped_entry)).
    { eexists. split; [reflexivity|]. now rewrite E. }
    split; [exact Ha|]. apply audit_of_read. split; [exact Ha|].
    congruence.
Qed.

Lemma audited_config (a b : importer) (item : raw_item)
  (logged : logged_item) :
  config_of a = config_of b ->
  audited a kw item logged -> audited b kw item logged.
Proof.
  intros Hc [Hk He]. split; auto.
  destruct (eligible kw item); auto.
  now rewrite <- (get_values_config a b item Hc).
Qed.

Lemma loop_audit (doc : list raw_item) :
  forall self st self' st',
    foldM (process_item model parent_obj kw) doc (self, st)
    = Ok (self', st') ->
    config_of self' = config_of self
    /\ log_processed self' = log_processed self + length doc
    /\ log_imported self'
       = log_imported self + length (filter (eligible kw) doc)
    /\ log_skipped self' + length (filter (eligible kw) doc)
       = log_skipped self + length doc
    /\ exists logs,
        logged_items self' = logged_items self ++ logs
        /\ Forall2 (audit_of self kw) doc logs
        /\ Forall2 (audited self kw) doc logs.
Proof.
  induction doc as [|item doc IH]; intros self st self' st'; cbn [foldM].
  - intros [= <- <-]. cbn [length filter]. repeat split; try lia.
    exists []. rewrite app_nil_r. repeat split; auto.
  - destruct (process_item model parent_obj kw (self, st) item)
      as [[self1 st1]|e] eqn:E1; cbn [bind]; [|discriminate].
    intros H. apply IH in H.
    destruct H as [Hc [Hp [Hi [Hs [logs [Hl [HF HG]]]]]]].
    apply process_item_audit in E1.
    destruct E1 as [Hc1 [Hp1 [Hi1 [Hs1 [logged [Hl1 [Ha1 Hb1]]]]]]].
    cbn [length filter].
    destruct (eligible kw item) eqn:E; cbn [length];
      (repeat split; [congruence | lia | lia | lia |]);
      exists (logged :: logs);
      (split; [rewrite Hl, Hl1, <- app_assoc; reflexivity|]);
      (split;
       [constructor; [exact Ha1|];
        (eapply Forall2_impl; [|exact HF]);
        intros x y Hxy; eapply audit_of_config; eauto
       |constructor; [exact Hb1|];
        (eapply Forall2_impl; [|exact HG]);
        intros x y Hxy; eapply audited_config; eauto]).
Qed.


End Session.

Lemma run_ok_inv (C : Collaborators) (O : Store.Orm) (self : importer)
  (kw : kwargs) (st : Store.t) (r : nat * nat * nat * list logged_item)
  (self' : importer) (st' : Store.t) :
  run self kw st = Ok (r, self', st') ->
  exists model parent_obj,
    Store.get_model st (app_for_pages kw) (model_for_pages kw) = Some model
    /\ Store.get_page st (parent_id kw) = Some parent_obj
    /\ foldM (process_item model parent_obj kw) (xml_file self)
             (with_target self model parent_obj, st) = Ok (self', st')
    /\ r = run_result self'.
Proof.
  unfold run.
  destruct (Store.get_model _ _ _) as [model|] eqn:Em; [|discriminate].
  destruct (Store.get_page _ _) as [parent_obj|] eqn:Ep; [|discriminate].
  destruct (foldM _ _ _) as [[self1 st1]|e] eqn:El; cbn [bind];
    [|discriminate].
  intros [= <- <- <-]. exists model, parent_obj. auto.
Qed.



(** ** The store under reconciliation *)

Lemma datetime_eqb_eq (a b : PyDatetime.datetime) :
  Store.datetime_eqb a b = true <-> a = b.
Proof.
  unfold Store.datetime_eqb. destruct a, b. cbn.
  rewrite !andb_true_iff, !N.eqb_eq. split.
  - intros [[[[[-> ->] ->] ->] ->] ->]. reflexivity.
  - intros [= -> -> -> -> -> ->]. tauto.
Qed.

Lemma pyval_eqb_eq (a b : pyval) : Store.pyval_eqb a b = true <-> a = b.
Proof.
  destruct a as [|x|x|x|x], b as [|y|y|y|y]; cbn;
    try (split; [discriminate | intros [=]]); try tauto.
  - rewrite Bool.eqb_true_iff. split; [now intros -> | now intros [= ->]].
  - rewrite Nat.eqb_eq. split; [now intros -> | now intros [= ->]].
  - rewrite String.eqb_eq. split; [now intros -> | now intros [= ->]].
  - rewrite andb_true_iff, datetime_eqb_eq, String.eqb_eq.
    destruct x, y. cbn. split.
    + now intros [-> ->].
    + intros [= -> ->]. tauto.
Qed.

Lemma pyval_eqb_refl (a : pyval) : Store.pyval_eqb a a = true.
Proof. now apply pyval_eqb_eq. Qed.

Lemma model_eqb_refl (m : Store.model_id) : Store.model_eqb m m = true.
Proof. unfold Store.model_eqb. now rewrite !String.eqb_refl. Qed.

Lemma filter_first_some (st : Store.t) (model : Store.model_id)
  (v : pyval) (p : Store.page) :
  Store.filter_first st model "wp_post_id" v = Some p ->
  In p (Store.pages st)
  /\ Store.model_eqb (Store.content_type p) model = true
  /\ Store.has_attr "wp_post_id" v p = true.
Proof.
  unfold Store.filter_first. intros H. apply find_some in H.
  destruct H as [Hin H]. apply andb_prop in H. tauto.
Qed.

Lemma known_filter_first (st : Store.t) (model : Store.model_id) (v : pyval) :
  known model st v ->
  exists p, Store.filter_first st model "wp_post_id" v = Some p.
Proof.
  intros [p [Hin [Hm Ha]]]. unfold Store.filter_first.
  destruct (find _ (Store.pages st)) as [q|] eqn:E; [now exists q|].
  pose proof (find_none _ _ E p Hin) as Hp. cbv beta in Hp.
  rewrite Hm, Ha in Hp. discriminate.
Qed.

Lemma nodup_pk_inj (l : list Store.page) (p q : Store.page) :
  NoDup (map Store.pk l) -> In p l -> In q l -> Store.pk p = Store.pk q ->
  p = q.
Proof.
  induction l as [|x l IH]; cbn [map In]; [tauto|].
  intros Hd Hp Hq Hpk. inversion Hd as [|? ? Hnot Hd']; subst.
  destruct Hp as [->|Hp], Hq as [->|Hq]; auto.
  - exfalso. apply Hnot. rewrite Hpk. now apply in_map.
  - exfalso. apply Hnot. rewrite <- Hpk. now apply in_map.
Qed.

Lemma store_wf_pk (st : Store.t) (p : Store.page) :
  store_wf st -> In p (Store.pages st) -> Store.pk p <> PyNone.
Proof.
  intros [_ Hnone] Hin Hpk. apply Hnone. rewrite <- Hpk. now apply in_map.
Qed.

(** Writing an instance that has the primary key of a row rewrites that
    row. *)
Lemma write_replace (st : Store.t) (old obj : Store.page) :
  In old (Store.pages st) -> Store.pk obj = Store.pk old ->
  Store.pk old <> PyNone ->
  Store.write st obj
  = ({| Store.installed_models := Store.installed_models st;
        Store.pages :=
          map (fun p => if Store.pyval_eqb (Store.pk p) (Store.pk obj)
                        then obj else p) (Store.pages st) |}, obj).
Proof.
  intros Hin Hpk Hne.
  assert (Hex : existsb (fun p => Store.pyval_eqb (Store.pk p) (Store.pk obj))
                        (Store.pages st) = true).
  { apply existsb_exists. exists old. split; auto.
    apply pyval_eqb_eq. congruence. }
  rewrite <- Hpk in Hne. unfold Store.write. revert Hex Hne.
  destruct (Store.pk obj); intros Hex Hne; [congruence|..];
    rewrite Hex; reflexivity.
Qed.

Lemma replace_pks (l : list Store.page) (obj : Store.page) :
  map Store.pk
      (map (fun p => if Store.pyval_eqb (Store.pk p) (Store.pk obj)
                     then obj else p) l)
  = map Store.pk l.
Proof.
  rewrite map_map. apply map_ext. intros p.
  destruct (Store.pyval_eqb (Store.pk p) (Store.pk obj)) eqn:E; auto.
  apply pyval_eqb_eq in E. congruence.
Qed.

Lemma fresh_pk_new (st : Store.t) :
  ~ In (PyInt (Store.fresh_pk st)) (map Store.pk (Store.pages st)).
Proof.
  intros Hin. apply in_map_iff in Hin. destruct Hin as [p [Hp Hin]].
  assert (H : Forall (fun k => k <= list_max
                                     (map (fun p => Store.int_of_pk
                                                      (Store.pk p))
                                          (Store.pages st)))
                     (map (fun p => Store.int_of_pk (Store.pk p))
                          (Store.pages st))).
  { now apply list_max_le. }
  rewrite Forall_forall in H.
  specialize (H (Store.int_of_pk (Store.pk p))).
  rewrite Hp in H. cbn [Store.int_of_pk] in H. unfold Store.fresh_pk in H.
  assert (Hle : S (list_max (map (fun p => Store.int_of_pk (Store.pk p))
                                 (Store.pages st)))
                <= list_max (map (fun p => Store.int_of_pk (Store.pk p))
                                 (Store.pages st))).
  { apply H. apply in_map_iff. exists p. rewrite Hp. auto. }
  lia.
Qed.

(** ** The identity of a transformed record *)

Lemma map_item_inverse_keys_nodup (entries : PyDict.t string) :
  NoDup (PyDict.keys (map_item_inverse entries)).
Proof.
  unfold map_item_inverse.
  assert (H : forall inverse, NoDup (PyDict.keys inverse) ->
                NoDup (PyDict.keys (fold_left invert_entry entries inverse))).
  { induction entries as [|[k v] entries IH]; intros inverse Hd;
      cbn [fold_left]; auto.
    apply IH. rewrite invert_entry_fold.
    generalize (split comma v). intros aliases. revert inverse Hd.
    induction aliases as [|a aliases IHa]; intros inverse Hd;
      cbn [fold_left]; auto.
    apply IHa. now apply set_keys_nodup. }
  apply H. constructor.
Qed.

Section Identity.

Context {C : Collaborators}.
Variable self : importer.
Variable item : raw_item.

Lemma copy_loop_other (entries : PyDict.t string) :
  forall pv pv' k,
    foldM (copy_field item) entries pv = Ok pv' ->
    ~ In k (PyDict.keys entries) ->
    PyDict.get pv' k = PyDict.get pv k.
Proof.
  induction entries as [|[f m] entries IH]; intros pv pv' k; cbn [foldM].
  - now intros [= <-].
  - unfold copy_field at 1. unfold PyDict.subscript.
    destruct (PyDict.get item m) as [v|]; cbn [bind]; [|discriminate].
    intros H Hk. cbn in Hk.
    rewrite (IH _ _ _ H) by tauto.
    apply get_set_ne. tauto.
Qed.

Lemma copy_loop_get (entries : PyDict.t string) :
  forall pv pv' f m,
    foldM (copy_field item) entries pv = Ok pv' ->
    NoDup (PyDict.keys entries) ->
    In (f, m) entries ->
    exists v, PyDict.get item m = Some v
              /\ PyDict.get pv' f = Some (of_raw v).
Proof.
  induction entries as [|[f0 m0] entries IH]; intros pv pv' f m;
    cbn [foldM]; [intros _ _ []|].
  unfold copy_field at 1. unfold PyDict.subscript.
  destruct (PyDict.get item m0) as [v0|] eqn:E0; cbn [bind]; [|discriminate].
  intros H Hd [Heq|Hin].
  - injection Heq as <- <-. exists v0. split; auto.
    inversion Hd as [|? ? Hnot Hd']; subst.
    rewrite (copy_loop_other _ _ _ _ H Hnot). apply get_set_eq.
  - inversion Hd as [|? ? Hnot Hd']; subst. eapply IH; eauto.
Qed.

Lemma stream_loop_get (fields : list string) :
  forall pv k,
    ~ In k fields -> k <> "wp_processed_content" -> k <> "wp_block_json" ->
    PyDict.get (fold_left (stream_field self item) fields pv) k
    = PyDict.get pv k.
Proof.
  induction fields as [|html fields IH]; intros pv k Hk H1 H2;
    cbn [fold_left]; auto.
  cbn [In] in Hk. rewrite IH by tauto.
  unfold stream_field.
  destruct (parse_stream_fields _) as [[sfv value] built].
  rewrite !get_set_ne by (try congruence; tauto). reflexivity.
Qed.

Lemma date_loop_get (fields : list string) :
  forall pv dvl pv' dvl' k,
    foldM (date_field self item) fields (pv, dvl) = Ok (pv', dvl') ->
    ~ In k fields -> PyDict.get pv' k = PyDict.get pv k.
Proof.
  induction fields as [|df fields IH]; intros pv dvl pv' dvl' k; cbn [foldM].
  - now intros [= <- <-].
  - unfold date_field at 1.
    destruct (parse_date _) as [[d b]|e]; cbn [bind]; [|discriminate].
    intros H Hk. cbn [In] in Hk.
    rewrite (IH _ _ _ _ _ H) by tauto.
    apply get_set_ne. tauto.
Qed.

Lemma slug_loop_get (fields : list string) :
  forall acc k,
    ~ In k fields ->
    PyDict.get (fst (fold_left (slug_field self item) fields acc)) k
    = PyDict.get (fst acc) k.
Proof.
  induction fields as [|sf fields IH]; intros [pv sc] k Hk;
    cbn [fold_left]; auto.
  cbn [In] in Hk. rewrite IH by tauto.
  cbn [slug_field fst]. apply get_set_ne. tauto.
Qed.

(** With a mapping that carries the identity, the transformed record
    holds the record's [wp:post_id] in [wp_post_id]. *)
Lemma get_values_identity (doc : list raw_item)
  (m : WordpressMapping.mapping) (vals : PyDict.t pyval) (dv : bool)
  (sc : pyval) :
  identity_mapped m ->
  config_of self = config_of (init doc m) ->
  get_values self item = Ok (vals, dv, sc) ->
  PyDict.get vals "wp_post_id" = Some (identity_of item).
Proof.
  intros [Hinv [Hstream [Hdate Hslug]]] Hc H.
  unfold config_of in Hc. cbn [init mapping_item_inverse mapping_valid_date
                                mapping_valid_slug mapping_stream_fields] in Hc.
  injection Hc as Hc1 Hc2 Hc3 Hc4.
  apply get_values_ok in H.
  destruct H as [pv1 [pv3 [dvl [Hcopy [Hd [_ Hs]]]]]].
  rewrite Hc1 in Hcopy. rewrite Hc2, Hc4 in Hd. rewrite Hc3 in Hs.
  pose proof (slug_loop_get (split comma (WordpressMapping.validate_slug m))
                (pv3, PyBool false) "wp_post_id" Hslug) as Hk.
  rewrite Hs in Hk. cbn [fst] in Hk. rewrite Hk.
  rewrite (date_loop_get _ _ _ _ _ _ Hd Hdate).
  rewrite stream_loop_get by (auto; discriminate).
  destruct (copy_loop_get _ _ _ "wp_post_id" "wp:post_id" Hcopy
              (map_item_inverse_keys_nodup _) (get_in _ _ _ Hinv))
    as [v [Hv Hpv]].
  rewrite Hpv. unfold identity_of, item_get. now rewrite Hv.
Qed.

(** A key that the mapping does not target is not a key of the
    transformed record. *)
Lemma get_values_untargeted (doc : list raw_item)
  (m : WordpressMapping.mapping) (vals : PyDict.t pyval) (dv : bool)
  (sc : pyval) (key : string) :
  untargeted m key ->
  key <> "wp_processed_content" -> key <> "wp_block_json" ->
  config_of self = config_of (init doc m) ->
  get_values self item = Ok (vals, dv, sc) ->
  PyDict.get vals key = None.
Proof.
  intros [Hinv [Hstream [Hdate Hslug]]] Hk1 Hk2 Hc H.
  unfold config_of in Hc. cbn [init mapping_item_inverse mapping_valid_date
                                mapping_valid_slug mapping_stream_fields] in Hc.
  injection Hc as Hc1 Hc2 Hc3 Hc4.
  apply get_values_ok in H.
  destruct H as [pv1 [pv3 [dvl [Hcopy [Hd [_ Hs]]]]]].
  rewrite Hc1 in Hcopy. rewrite Hc2, Hc4 in Hd. rewrite Hc3 in Hs.
  pose proof (slug_loop_get (split comma (WordpressMapping.validate_slug m))
                (pv3, PyBool false) key Hslug) as Hk.
  rewrite Hs in Hk. cbn [fst] in Hk. rewrite Hk.
  rewrite (date_loop_get _ _ _ _ _ _ Hd Hdate).
  rewrite stream_loop_get by auto.
  rewrite (copy_loop_other _ _ _ _ Hcopy).
  - reflexivity.
  - now apply get_none_keys.
Qed.

End Identity.

(** ** Running the import again *)

Lemma has_attr_unique (p : Store.page) (v w : pyval) :
  Store.has_attr "wp_post_id" v p = true ->
  Store.has_attr "wp_post_id" w p = true -> v = w.
Proof.
  unfold Store.has_attr.
  destruct (PyDict.get (Store.attrs p) "wp_post_id") as [x|]; [|discriminate].
  intros Hv Hw. apply pyval_eqb_eq in Hv, Hw. congruence.
Qed.

Lemma has_attr_get (p : Store.page) (v : pyval) :
  PyDict.get (Store.attrs p) "wp_post_id" = Some v ->
  Store.has_attr "wp_post_id" v p = true.
Proof.
  unfold Store.has_attr. intros ->. now apply pyval_eqb_eq.
Qed.

(** What [create_page] and [update_page] have done when they return. *)
Lemma create_page_inv (O : Store.Orm) (st st' : Store.t)
  (model : Store.model_id) (parent_obj obj : Store.page)
  (values : PyDict.t pyval) (status : raw) (outcome : string) :
  create_page st model parent_obj values status = Ok (st', obj, outcome) ->
  exists made,
    made = Store.assign
             (Store.assign_all values (PyDict.keys values)
                {| Store.pk := PyNone; Store.content_type := model;
                   Store.parent := PyNone; Store.attrs := PyDict.empty |})
             "live" (PyBool (negb (is_draft status)))
    /\ (st', obj)
       = Store.write st {| Store.pk := Store.pk made;
                           Store.content_type := Store.content_type made;
                           Store.parent := Store.pk parent_obj;
                           Store.attrs := Store.attrs made |}.
Proof.
  unfold create_page.
  destruct (Store.new model values) as [obj0|e] eqn:E0; cbn [bind];
    [|discriminate].
  apply new_ok in E0.
  assert (E1 : forall obj1,
             (if is_draft status
              then Store.setattr obj0 "live" (PyBool false)
              else Store.setattr obj0 "live" (PyBool true)) = Ok obj1 ->
             obj1 = Store.assign obj0 "live"
                      (PyBool (negb (is_draft status)))).
  { intros obj1. destruct (is_draft status); apply setattr_ok. }
  destruct (if is_draft status then _ else _) as [obj1|e]; cbn [bind];
    [|discriminate].
  specialize (E1 obj1 eq_refl).
  destruct (Store.add_child st parent_obj obj1) as [[st2 obj2]|e] eqn:E2;
    cbn [bind]; [|discriminate].
  apply add_child_ok in E2. intros [= <- <- _].
  exists obj1. split; [congruence | exact E2].
Qed.

Lemma update_page_inv (O : Store.Orm) (st st' : Store.t)
  (existing obj : Store.page) (values : PyDict.t pyval) (status : raw)
  (outcome : string) :
  update_page st existing values status = Ok (st', obj, outcome) ->
  exists st1 saved,
    (st1, saved)
    = Store.write st (Store.assign_all values (PyDict.keys values) existing)
    /\ (st', obj)
       = if is_draft status
         then Store.write st1
                {| Store.pk := Store.pk saved;
                   Store.content_type := Store.content_type saved;
                   Store.parent := Store.parent saved;
                   Store.attrs := PyDict.set (Store.attrs saved) "live"
                                             (PyBool false) |}
         else (st1, saved).
Proof.
  unfold update_page.
  destruct (set_attrs existing values) as [obj1|e] eqn:E1; cbn [bind];
    [|discriminate].
  apply set_attrs_ok in E1.
  destruct (Store.save st obj1) as [[st2 obj2]|e] eqn:E2; cbn [bind];
    [|discriminate].
  apply save_ok in E2. subst obj1.
  destruct (is_draft status).
  - destruct (Store.unpublish st2 obj2) as [[st3 obj3]|e] eqn:E3;
      cbn [bind]; [|discriminate].
    apply unpublish_ok in E3. intros [= <- <- _].
    exists st2, obj2. auto.
  - cbn [bind]. intros [= <- <- _]. exists st2, obj2. auto.
Qed.

Section StoreSteps.

Variable model : Store.model_id.

(** Rewriting the row of a page keeps the primary keys of the store and
    every identity the store knows, when the rewritten page keeps its
    model and its identity. *)
Lemma write_row (st : Store.t) (old obj : Store.page) :
  store_wf st -> In old (Store.pages st) ->
  Store.pk obj = Store.pk old ->
  Store.content_type obj = Store.content_type old ->
  snd (Store.write st obj) = obj
  /\ store_wf (fst (Store.write st obj))
  /\ ((forall v, Store.has_attr "wp_post_id" v old = true ->
                 Store.has_attr "wp_post_id" v obj = true) ->
      forall v, known model st v -> known model (fst (Store.write st obj)) v)
  /\ map Store.pk (Store.pages (fst (Store.write st obj)))
     = map Store.pk (Store.pages st)
  /\ Store.installed_models (fst (Store.write st obj))
     = Store.installed_models st
  /\ In obj (Store.pages (fst (Store.write st obj))).
Proof.
  intros Hwf Hin Hpk Hct.
  rewrite (write_replace st old obj Hin Hpk (store_wf_pk st old Hwf Hin)).
  cbn [fst snd Store.pages Store.installed_models].
  assert (Hobj : In obj
                   (map (fun p => if Store.pyval_eqb (Store.pk p)
                                                     (Store.pk obj)
                                  then obj else p) (Store.pages st))).
  { apply in_map_iff. exists old. split; auto.
    now rewrite Hpk, pyval_eqb_refl. }
  split; [reflexivity|]. split; [|split; [|split; [|split]]]; auto.
  - unfold store_wf. cbn [Store.pages]. now rewrite replace_pks.
  - intros Hattr v [p [Hp [Hm Ha]]].
    destruct (Store.pyval_eqb (Store.pk p) (Store.pk obj)) eqn:E.
    + apply pyval_eqb_eq in E.
      assert (p = old) as ->.
      { apply (nodup_pk_inj (Store.pages st)); auto.
        - apply Hwf.
        - congruence. }
      exists obj. cbn [Store.pages]. split; [exact Hobj|].
      rewrite Hct. auto.
    + exists p. cbn [Store.pages]. split; [|auto].
      apply in_map_iff. exists p. now rewrite E.
  - apply replace_pks.
Qed.

Lemma update_store (O : Store.Orm) (st st' : Store.t)
  (existing obj : Store.page) (vals : PyDict.t pyval) (status : raw)
  (outcome : string) :
  store_wf st -> In existing (Store.pages st) ->
  PyDict.get vals "pk" = None -> PyDict.get vals "id" = None ->
  update_page st existing vals status = Ok (st', obj, outcome) ->
  store_wf st'
  /\ map Store.pk (Store.pages st') = map Store.pk (Store.pages st)
  /\ Store.installed_models st' = Store.installed_models st
  /\ (forall id,
        Store.has_attr "wp_post_id" id existing = true ->
        PyDict.get vals "wp_post_id" = Some id ->
        forall v, known model st v -> known model st' v).
Proof.
  intros Hwf Hin Hpk Hidk H.
  apply update_page_inv in H. destruct H as [st1 [saved [H1 H2]]].
  set (obj1 := Store.assign_all vals (PyDict.keys vals) existing) in H1.
  destruct (write_row st existing obj1 Hwf Hin)
    as [Hs1 [Hwf1 [Hk1 [Hpk1 [Him1 Hin1]]]]].
  { unfold obj1. now apply assign_all_pk. }
  { unfold obj1. apply assign_all_fixed. }
  rewrite <- H1 in Hs1, Hwf1, Hk1, Hpk1, Him1, Hin1.
  cbn [fst snd] in Hs1, Hwf1, Hk1, Hpk1, Him1, Hin1. subst saved.
  assert (Hknown1 : forall id,
             Store.has_attr "wp_post_id" id existing = true ->
             PyDict.get vals "wp_post_id" = Some id ->
             forall v, known model st v -> known model st1 v).
  { intros id Hid Hvals. apply Hk1. intros v Hv.
    rewrite (has_attr_unique existing v id Hv Hid).
    apply has_attr_get. unfold obj1.
    rewrite assign_values_get by reflexivity. now rewrite Hvals. }
  destruct (is_draft status).
  - set (off := {| Store.pk := Store.pk obj1;
                   Store.content_type := Store.content_type obj1;
                   Store.parent := Store.parent obj1;
                   Store.attrs := PyDict.set (Store.attrs obj1) "live"
                                             (PyBool false) |}) in H2.
    destruct (write_row st1 obj1 off Hwf1 Hin1)
      as [_ [Hwf2 [Hk2 [Hpk2 [Him2 _]]]]]; try reflexivity.
    rewrite <- H2 in Hwf2, Hk2, Hpk2, Him2.
    cbn [fst] in Hwf2, Hk2, Hpk2, Him2.
    split; [exact Hwf2|]. split; [congruence|]. split; [congruence|].
    intros id Hid Hvals v Hv. apply Hk2.
    + intros w. unfold Store.has_attr, off. cbn [Store.attrs].
      rewrite get_set_ne by discriminate. auto.
    + now apply (Hknown1 id).
  - injection H2 as -> ->. auto.
Qed.

Lemma create_store (O : Store.Orm) (st st' : Store.t)
  (parent_obj obj : Store.page) (vals : PyDict.t pyval) (status : raw)
  (outcome : string) :
  store_wf st ->
  PyDict.get vals "pk" = None -> PyDict.get vals "id" = None ->
  create_page st model parent_obj vals status = Ok (st', obj, outcome) ->
  store_wf st'
  /\ map Store.pk (Store.pages st')
     = map Store.pk (Store.pages st) ++ [PyInt (Store.fresh_pk st)]
  /\ Store.installed_models st' = Store.installed_models st
  /\ (forall v, known model st v -> known model st' v)
  /\ (forall id, PyDict.get vals "wp_post_id" = Some id ->
                 known model st' id).
Proof.
  intros [Hdup Hnone] Hpk Hidk H.
  apply create_page_inv in H. destruct H as [made [Hmade H]].
  assert (Hlive : Store.names_pk "live" = false) by reflexivity.
  assert (Hmpk : Store.pk made = PyNone).
  { rewrite Hmade, assign_pk by exact Hlive. now rewrite assign_all_pk. }
  assert (Hmct : Store.content_type made = model).
  { rewrite Hmade, (proj1 (assign_fixed _ _ _)).
    now rewrite (proj1 (assign_all_fixed _ _ _)). }
  rewrite write_new in H by exact Hmpk.
  cbn [Store.content_type Store.parent Store.attrs] in H.
  injection H as -> ->.
  cbn [Store.pages Store.installed_models].
  assert (Hpks : map Store.pk
                     (Store.pages st
                      ++ [{| Store.pk := PyInt (Store.fresh_pk st);
                             Store.content_type := Store.content_type made;
                             Store.parent := Store.pk parent_obj;
                             Store.attrs := Store.attrs made |}])
                 = map Store.pk (Store.pages st)
                   ++ [PyInt (Store.fresh_pk st)]).
  { rewrite map_app. reflexivity. }
  split; [|split; [|split; [|split]]].
  - unfold store_wf. cbn [Store.pages]. rewrite Hpks. split.
    + apply NoDup_app; auto.
      * constructor; [tauto | constructor].
      * intros x Hx [<-|[]]. now apply fresh_pk_new in Hx.
    + intros Hin. apply in_app_or in Hin.
      destruct Hin as [Hin|[Hin|[]]]; [auto | discriminate].
  - exact Hpks.
  - reflexivity.
  - intros v [p [Hin Hp]]. exists p. cbn [Store.pages].
    split; auto. apply in_or_app. now left.
  - intros id Hvals. eexists. cbn [Store.pages]. split.
    + apply in_or_app. right. left. reflexivity.
    + cbn [Store.content_type]. rewrite Hmct.
      split; [apply model_eqb_refl|]. apply has_attr_get.
      cbn [Store.attrs].
      rewrite Hmade, assign_get by reflexivity. cbn [String.eqb Ascii.eqb].
      rewrite assign_values_get by reflexivity. now rewrite Hvals.
Qed.

End StoreSteps.

Section SecondRun.

Context {C : Collaborators} {O : Store.Orm}.
Variable model : Store.model_id.
Variable kw : kwargs.
Variable doc0 : list raw_item.
Variable m : WordpressMapping.mapping.
Hypothesis Hid : identity_mapped m.
Hypothesis Hkeep : keeps_primary_key m.

(** What a step of the loop that returns does to the store, and which
    branch it took. *)
Lemma step_store (parent_obj : Store.page) (self self' : importer)
  (st st' : Store.t) (item : raw_item) :
  config_of self = config_of (init doc0 m) ->
  store_wf st ->
  process_item model parent_obj kw (self, st) item = Ok (self', st') ->
  store_wf st'
  /\ (forall v, known model st v -> known model st' v)
  /\ (eligible kw item = true -> known model st' (identity_of item))
  /\ Store.installed_models st' = Store.installed_models st
  /\ exists logged,
      logged_items self' = logged_items self ++ [logged]
      /\ ((eligible kw item = false
           /\ st' = st
           /\ log_says logged "skipped" "no title or status match"
                       (PyStr "") (PyStr ""))
          \/ (eligible kw item = true
              /\ known model st (identity_of item)
              /\ map Store.pk (Store.pages st')
                 = map Store.pk (Store.pages st)
              /\ log_field "result" logged = Some (PyStr "updated")
              /\ log_field "reason" logged = Some (PyStr "existed"))
          \/ (eligible kw item = true
              /\ ~ known model st (identity_of item)
              /\ map Store.pk (Store.pages st')
                 = map Store.pk (Store.pages st)
                   ++ [PyInt (Store.fresh_pk st)]
              /\ log_field "result" logged = Some (PyStr "created")
              /\ log_field "reason" logged = Some (PyStr "new"))).
Proof.
  intros Hc Hwf E1.
  destruct (eligible kw item) eqn:E.
  - destruct (process_item_ok model parent_obj kw self self' st st' item
                E E1) as [vals [dv [sc [Ev Hcase]]]].
    pose proof (get_values_identity self item doc0 m vals dv sc
                  Hid Hc Ev) as Hvals.
    pose proof (get_values_untargeted self item doc0 m vals dv sc "pk"
                  (proj1 Hkeep) ltac:(discriminate) ltac:(discriminate)
                  Hc Ev) as Hpk.
    pose proof (get_values_untargeted self item doc0 m vals dv sc "id"
                  (proj2 Hkeep) ltac:(discriminate) ltac:(discriminate)
                  Hc Ev) as Hidk.
    destruct Hcase as [[existing [obj [outcome [Ef [Eu ->]]]]]
                      |[obj [outcome [Ef [Ec ->]]]]].
    + apply filter_first_some in Ef. destruct Ef as [Hin [Hm Ha]].
      destruct (update_store model O st st' existing obj vals
                  (item_get item (Some "wp:status")) outcome
                  Hwf Hin Hpk Hidk Eu)
        as [Hwf1 [Hpk1 [Him1 Hk1]]].
      specialize (Hk1 (identity_of item) Ha Hvals).
      assert (Hknown : known model st (identity_of item)).
      { now exists existing. }
      split; [exact Hwf1|]. split; [exact Hk1|].
      split; [intros _; now apply Hk1|]. split; [exact Him1|].
      eexists. split; [cbn [bump logged_items]; now rewrite app_nil_r|].
      right. left. rewrite !log_field_set_log. cbn. auto.
    + destruct (create_store model O st st' parent_obj obj vals
                  (item_get item (Some "wp:status")) outcome
                  Hwf Hpk Hidk Ec)
        as [Hwf1 [Hpk1 [Him1 [Hk1 Hnew]]]].
      specialize (Hnew (identity_of item) Hvals).
      assert (Hunknown : ~ known model st (identity_of item)).
      { intros Hk. apply known_filter_first in Hk.
        destruct Hk as [p Hp]. congruence. }
      split; [exact Hwf1|]. split; [exact Hk1|].
      split; [intros _; exact Hnew|]. split; [exact Him1|].
      eexists. split; [cbn [bump logged_items]; now rewrite app_nil_r|].
      right. right. rewrite !log_field_set_log. cbn. auto.
  - rewrite (process_item_skip model parent_obj kw self st item E) in E1.
    injection E1 as <- <-.
    split; [exact Hwf|]. split; [auto|]. split; [discriminate|].
    split; [reflexivity|].
    eexists. split; [cbn [bump logged_items]; now rewrite app_nil_r|].
    left. split; [reflexivity|]. split; [reflexivity|].
    apply set_log_says.
Qed.

(** What a loop over a document does to the store. *)
Lemma first_loop (parent_obj : Store.page) (doc : list raw_item) :
  forall self st self' st',
    config_of self = config_of (init doc0 m) ->
    store_wf st ->
    foldM (process_item model parent_obj kw) doc (self, st)
    = Ok (self', st') ->
    store_wf st'
    /\ (forall v, known model st v -> known model st' v)
    /\ (forall item, In item doc -> eligible kw item = true ->
        known model st' (identity_of item))
    /\ incl (map Store.pk (Store.pages st)) (map Store.pk (Store.pages st'))
    /\ Store.installed_models st' = Store.installed_models st.
Proof.
  induction doc as [|item doc IH]; intros self st self' st' Hc Hwf;
    cbn [foldM].
  - intros [= <- <-]. repeat split; auto using incl_refl; try apply Hwf.
    intros ? [].
  - destruct (process_item model parent_obj kw (self, st) item)
      as [[self1 st1]|e] eqn:E1; cbn [bind]; [|discriminate].
    intros Hloop.
    pose proof (process_item_audit _ _ _ _ _ _ _ _ E1) as [Hc1 _].
    destruct (step_store parent_obj self self1 st st1 item Hc Hwf E1)
      as [Hwf1 [Hk1 [Hnew1 [Him1 [logged [_ Hcase]]]]]].
    assert (Hpk1 : incl (map Store.pk (Store.pages st))
                        (map Store.pk (Store.pages st1))).
    { destruct Hcase as [[_ [-> _]]|[[_ [_ [-> _]]]|[_ [_ [-> _]]]]];
        auto using incl_refl, incl_appl. }
    destruct (IH self1 st1 self' st' (eq_trans Hc1 Hc) Hwf1 Hloop)
      as [Hwf' [Hk' [Hall' [Hpk' Him']]]].
    split; [exact Hwf'|]. split; [|split; [|split]].
    + intros v Hv. auto.
    + intros item' [<-|Hin] He; auto.
    + eapply incl_tran; eauto.
    + congruence.
Qed.

(** A loop over records whose identities the store already knows updates
    every eligible record and adds no page. *)
Lemma second_loop (parent_obj : Store.page) (doc : list raw_item) :
  forall self st self' st',
    config_of self = config_of (init doc0 m) ->
    store_wf st ->
    (forall item, In item doc -> eligible kw item = true ->
       known model st (identity_of item)) ->
    foldM (process_item model parent_obj kw) doc (self, st)
    = Ok (self', st') ->
    map Store.pk (Store.pages st') = map Store.pk (Store.pages st)
    /\ exists logs,
        logged_items self' = logged_items self ++ logs
        /\ Forall2
             (fun item logged =>
                if eligible kw item
                then log_field "result" logged = Some (PyStr "updated")
                     /\ log_field "reason" logged = Some (PyStr "existed")
                else log_field "result" logged = Some (PyStr "skipped"))
             doc logs.
Proof.
  induction doc as [|item doc IH]; intros self st self' st' Hc Hwf Hall;
    cbn [foldM].
  - intros [= <- <-]. split; [reflexivity|].
    exists []. rewrite app_nil_r. auto.
  - destruct (process_item model parent_obj kw (self, st) item)
      as [[self1 st1]|e] eqn:E1; cbn [bind]; [|discriminate].
    intros Hloop.
    pose proof (process_item_audit _ _ _ _ _ _ _ _ E1) as [Hc1 _].
    destruct (step_store parent_obj self self1 st st1 item Hc Hwf E1)
      as [Hwf1 [Hk1 [_ [_ [logged [Hlog1 Hcase]]]]]].
    destruct (IH self1 st1 self' st' (eq_trans Hc1 Hc) Hwf1) as
      [Hpk' [logs [Hlog HF]]]; [|exact Hloop|].
    { intros item' Hin' He'. apply Hk1. apply Hall; auto. now right. }
    assert (Hstep : map Store.pk (Store.pages st1)
                    = map Store.pk (Store.pages st)
                    /\ if eligible kw item
                       then log_field "result" logged
                            = Some (PyStr "updated")
                            /\ log_field "reason" logged
                               = Some (PyStr "existed")
                       else log_field "result" logged
                            = Some (PyStr "skipped")).
    { destruct Hcase as [[He [-> Hs]]|[[He [_ [Hpk [Hr Hn]]]]
                                      |[He [Hnot _]]]].
      - rewrite He. split; [reflexivity | apply Hs].
      - rewrite He. auto.
      - exfalso. apply Hnot. apply Hall; auto. now left. }
    destruct Hstep as [Hpk1 Hsays].
    split; [congruence|].
    exists (logged :: logs). split.
    + rewrite Hlog, Hlog1, <- app_assoc. reflexivity.
    + constructor; auto.
Qed.

End SecondRun.

Lemma Forall2_compose {A B D : Type} (R1 : A -> B -> Prop)
  (R2 : A -> D -> Prop) (R : B -> D -> Prop) (l : list A) :
  (forall x y z, R1 x y -> R2 x z -> R y z) ->
  forall (lb : list B) (ld : list D),
    Forall2 R1 l lb -> Forall2 R2 l ld -> Forall2 R lb ld.
Proof.
  intros HR. induction l as [|x l IH]; intros lb ld H1 H2;
    inversion H1; inversion H2; subst; constructor; eauto.
Qed.

Lemma Forall2_right {A B : Type} (R : A -> B -> Prop) (P : B -> Prop)
  (l : list A) (lb : list B) :
  (forall x y, R x y -> P y) -> Forall2 R l lb -> Forall P lb.
Proof. intros HR. induction 1; constructor; eauto. Qed.

(** C1.  On a store whose pages have unique primary keys, with a mapping
    that carries the identity into [wp_post_id] and leaves the primary key
    of a page alone: when a run over a document returns and a second run
    over the same document against the store the first run left returns
    too, then the second run found every eligible record of the document
    in the store by its identity, its log reads ["updated"], with reason
    ["existed"], for every eligible record, hence for every record that
    the first run created or updated, it reads ["created"] for none, and
    the store has as many pages after the second run as before it. *)
Theorem second_run_updates :
  forall (C : Collaborators) (O : Store.Orm) (doc : list raw_item)
         (m : WordpressMapping.mapping) (kw : kwargs) (st0 st1 st2 : Store.t)
         (r1 r2 : nat * nat * nat) (log1 log2 : list logged_item)
         (self1 self2 : importer),
    store_wf st0 ->
    identity_mapped m ->
    keeps_primary_key m ->
    run (init doc m) kw st0 = Ok (r1, log1, self1, st1) ->
    run (init doc m) kw st1 = Ok (r2, log2, self2, st2) ->
    (exists model,
        Store.get_model st1 (app_for_pages kw) (model_for_pages kw)
        = Some model
        /\ forall item, In item doc -> eligible kw item = true ->
             Store.filter_first st1 model "wp_post_id" (identity_of item)
             <> None)
    /\ length (Store.pages st2) = length (Store.pages st1)
    /\ Forall2
         (fun item second =>
            eligible kw item = true ->
            log_field "result" second = Some (PyStr "updated")
            /\ log_field "reason" second = Some (PyStr "existed"))
         doc log2
    /\ Forall2
         (fun first second =>
            log_field "result" first = Some (PyStr "created")
            \/ log_field "result" first = Some (PyStr "updated") ->
            log_field "result" second = Some (PyStr "updated"))
         log1 log2
    /\ Forall (fun second =>
                 log_field "result" second <> Some (PyStr "created")) log2.
Proof.
  intros C O doc m kw st0 st1 st2 r1 r2 log1 log2 self1 self2 Hwf Hid Hkeep
         Hrun1 Hrun2.
  apply run_ok_inv in Hrun1.
  destruct Hrun1 as [model [parent_obj [Hm [Hp [Hloop Hr]]]]].
  cbn [xml_file init] in Hloop.
  pose proof (loop_audit model parent_obj kw doc _ _ _ _ Hloop)
    as [_ [_ [_ [_ [logs [Hlog [HF1 _]]]]]]].
  cbn [with_target init logged_items app] in Hlog.
  injection Hr as _ Hl1. rewrite Hlog in Hl1. subst logs.
  destruct (first_loop model kw doc m Hid Hkeep parent_obj doc
              (with_target (init doc m) model parent_obj) st0 self1 st1
              eq_refl Hwf Hloop) as [Hwf1 [_ [Hknown [_ Him]]]].
  assert (Hm1 : Store.get_model st1 (app_for_pages kw) (model_for_pages kw)
                = Some model).
  { unfold Store.get_model in *. now rewrite Him. }
  apply run_ok_inv in Hrun2.
  destruct Hrun2 as [model2 [parent2 [Hm2 [_ [Hloop2 Hr2]]]]].
  assert (model2 = model) as -> by congruence.
  cbn [xml_file init] in Hloop2.
  destruct (second_loop model kw doc m Hid Hkeep parent2 doc
              (with_target (init doc m) model parent2) st1 self2 st2
              eq_refl Hwf1 Hknown Hloop2) as [Hpk2 [logs2 [Hlog2 HF2]]].
  cbn [with_target init logged_items app] in Hlog2.
  injection Hr2 as _ Hl2. rewrite Hlog2 in Hl2. subst logs2.
  split; [|split; [|split; [|split]]].
  - exists model. split; [exact Hm1|].
    intros item Hin He. destruct (known_filter_first _ _ _ (Hknown item Hin He))
      as [p Hp']. congruence.
  - rewrite <- (length_map Store.pk (Store.pages st2)).
    rewrite <- (length_map Store.pk (Store.pages st1)). now rewrite Hpk2.
  - eapply Forall2_impl; [|exact HF2].
    intros item second Hs He. cbv beta in Hs. now rewrite He in Hs.
  - eapply Forall2_compose; [|exact HF1|exact HF2].
    intros item first second [e1 [-> Ha]] Hs. cbv beta in Hs.
    rewrite !log_field_set_log.
    destruct (eligible kw item); [tauto|].
    subst e1. cbn. intros [H|H]; discriminate.
  - eapply Forall2_right; [|exact HF2].
    intros item second Hs. cbv beta in Hs.
    destruct (eligible kw item); [destruct Hs as [-> _]|rewrite Hs];
      discriminate.
Qed.

Lemma sample_store_wf : store_wf Sample.store.
Proof.
  unfold store_wf. cbn. split.
  - repeat constructor; cbn; intuition discriminate.
  - intuition discriminate.
Qed.

Lemma sample_identity_mapped : identity_mapped Sample.mapping.
Proof.
  unfold identity_mapped. split; [reflexivity|].
  cbn. intuition discriminate.
Qed.

Lemma sample_keeps_primary_key : keeps_primary_key Sample.mapping.
Proof.
  unfold keeps_primary_key, untargeted.
  split; (split; [reflexivity|]); cbn; intuition discriminate.
Qed.

Lemma second_run_updates_witness :
  exists r1 log1 self1 st1 r2 log2 self2 st2,
    run (C := reference) (O := Store.wagtail)
        (init Sample.document Sample.mapping) Sample.options Sample.store
    = Ok (r1, log1, self1, st1)
    /\ run (C := reference) (O := Store.wagtail)
           (init Sample.document Sample.mapping) Sample.options st1
       = Ok (r2, log2, self2, st2)
    /\ length (Store.pages st2) = length (Store.pages st1)
    /\ Forall2
         (fun item second =>
            eligible Sample.options item = true ->
            log_field "result" second = Some (PyStr "updated")
            /\ log_field "reason" second = Some (PyStr "existed"))
         Sample.document log2
    /\ Forall (fun second =>
                 log_field "result" second <> Some (PyStr "created")) log2.
Proof.
  destruct (run (C := reference) (O := Store.wagtail)
                (init Sample.document Sample.mapping) Sample.options
                Sample.store)
    as [[[[r1 log1] self1] st1]|e] eqn:E1; [|vm_compute in E1; discriminate].
  destruct (run (C := reference) (O := Store.wagtail)
                (init Sample.document Sample.mapping) Sample.options st1)
    as [[[[r2 log2] self2] st2]|e] eqn:E2.
  - destruct (second_run_updates reference Store.wagtail Sample.document
                Sample.mapping Sample.options Sample.store st1 st2 r1 r2
                log1 log2 self1 self2 sample_store_wf sample_identity_mapped
                sample_keeps_primary_key E1 E2)
      as [_ [Hlen [Hupd [_ Hnone]]]].
    exists r1, log1, self1, st1, r2, log2, self2, st2. auto.
  - vm_compute in E1. injection E1 as _ _ _ <-.
    vm_compute in E2. discriminate.
Defined.

(** * Further properties *)

(** ** Mapping inversion, continued *)

Lemma invert_sound (entries : PyDict.t string) :
  forall (inverse : PyDict.t string) (alias key : string),
    PyDict.get (fold_left invert_entry entries inverse) alias = Some key ->
    (exists value, In (key, value) entries /\ In alias (split comma value))
    \/ PyDict.get inverse alias = Some key.
Proof.
  induction entries as [|[k v] entries IH]; intros inverse alias key;
    cbn [fold_left]; auto.
  intros H. apply IH in H. destruct H as [[value [Hin Ha]]|H].
  - left. exists value. split; auto. now right.
  - rewrite invert_entry_get in H.
    destruct (existsb (String.eqb alias) (split comma v)) eqn:E; auto.
    injection H as <-. apply existsb_eqb_in in E.
    left. exists v. split; auto. now left.
Qed.

Lemma invert_none (entries : PyDict.t string) :
  forall (inverse : PyDict.t string) (alias : string),
    PyDict.get (fold_left invert_entry entries inverse) alias = None ->
    PyDict.get inverse alias = None
    /\ forall key value, In (key, value) entries ->
                         ~ In alias (split comma value).
Proof.
  induction entries as [|[k v] entries IH]; intros inverse alias;
    cbn [fold_left].
  - intros H. split; [exact H | intros ? ? []].
  - intros H. apply IH in H. destruct H as [H Hrest].
    rewrite invert_entry_get in H.
    destruct (existsb (String.eqb alias) (split comma v)) eqn:E;
      [discriminate|].
    split; auto.
    intros key value [Heq|Hin]; [|now apply (Hrest key value)].
    injection Heq as <- <-. intros Ha.
    apply existsb_eqb_in in Ha. congruence.
Qed.

(** X1.  The inverted lookup answers only what the field map says: a key
    it returns for an alias is the key of an entry whose comma-separated
    list holds that alias, and it has no answer for an alias exactly when
    no entry lists that alias. *)
Theorem map_item_inverse_sound :
  forall (item_mapping : PyDict.t string) (alias : string),
    (forall key,
        PyDict.get (map_item_inverse item_mapping) alias = Some key ->
        exists value,
          In (key, value) item_mapping /\ In alias (split comma value))
    /\ (PyDict.get (map_item_inverse item_mapping) alias = None
        <-> forall key value, In (key, value) item_mapping ->
                              ~ In alias (split comma value)).
Proof.
  intros item_mapping alias. split.
  - intros key H. unfold map_item_inverse in H.
    apply invert_sound in H. destruct H as [H|H]; [exact H | discriminate].
  - split.
    + intros H. unfold map_item_inverse in H.
      now apply invert_none in H.
    + intros Hno. unfold map_item_inverse.
      now rewrite invert_unlisted.
Qed.

Lemma map_item_inverse_sound_witness :
  (exists value,
      In ("wp:post_modified_gmt", value) (WordpressMapping.item Sample.mapping)
      /\ In "last_published_at" (split comma value))
  /\ PyDict.get (map_item_inverse (WordpressMapping.item Sample.mapping))
                "wp:post_name" = None.
Proof.
  split.
  - apply (proj1 (map_item_inverse_sound
                    (WordpressMapping.item Sample.mapping)
                    "last_published_at")).
    reflexivity.
  - apply (proj2 (proj2 (map_item_inverse_sound
                           (WordpressMapping.item Sample.mapping)
                           "wp:post_name"))).
    intros key value Hin. cbn in Hin.
    decompose [or] Hin; try contradiction;
      match goal with
      | H : (_, _) = (_, _) |- _ => injection H as <- <-
      end; cbn; intuition discriminate.
Defined.

(** ** The date normaliser, continued *)

Lemma blanks_to_T_no_blank (s : string) : no_blank (blanks_to_T s) = true.
Proof.
  unfold no_blank, blanks_to_T.
  induction s as [|c s IH]; cbn [DjangoText.smap DjangoText.sforall]; auto.
  rewrite IH, andb_true_r.
  destruct (Ascii.eqb c space) eqn:E; [reflexivity | now rewrite E].
Qed.

Lemma blanks_to_T_fixed (s : string) :
  no_blank s = true -> blanks_to_T s = s.
Proof.
  unfold no_blank, blanks_to_T.
  induction s as [|c s IH]; cbn [DjangoText.smap DjangoText.sforall]; auto.
  intros H. apply andb_prop in H. destruct H as [Hc Hs].
  apply negb_true_iff in Hc. rewrite Hc. now rewrite IH.
Qed.

(** X2.  [parse_date] does not tell a blank from a [T]: a text other than
    the sentinel and the same text with its blanks replaced by [T] give the
    same result, moment or error.  The sentinel is the one text for which
    this fails: written with [T] it is not recognised and is an error. *)
Theorem parse_date_blank_or_T :
  forall (C : Collaborators) (text : string),
    (text <> sentinel_date ->
     parse_date (Some (blanks_to_T text)) = parse_date (Some text))
    /\ parse_date (Some (blanks_to_T sentinel_date)) = Raise ValueError.
Proof.
  intros C text. split; [|reflexivity].
  intros Hne.
  assert (HT : blanks_to_T text <> sentinel_date).
  { intros Heq. pose proof (blanks_to_T_no_blank text) as Hnb.
    rewrite Heq in Hnb. vm_compute in Hnb. discriminate. }
  rewrite (parse_date_other C _ HT), (parse_date_other C _ Hne).
  now rewrite (blanks_to_T_fixed _ (blanks_to_T_no_blank text)).
Qed.

Lemma parse_date_blank_or_T_witness :
  parse_date (C := reference) (Some "2021-03-04T05:06:07")
  = parse_date (C := reference) (Some "2021-03-04 05:06:07").
Proof.
  apply (proj1 (parse_date_blank_or_T reference "2021-03-04 05:06:07")).
  discriminate.
Defined.

(** ** Record transformation, continued *)

Lemma parse_date_raise (C : Collaborators) (v : raw) (e : exn) :
  parse_date v = Raise e ->
  (v = None /\ e = AttributeError)
  \/ (exists text,
        v = Some text /\ text <> sentinel_date
        /\ PyDatetime.strptime (blanks_to_T text) = None /\ e = ValueError).
Proof.
  destruct v as [text|].
  - destruct (String.eqb text sentinel_date) eqn:E.
    + apply String.eqb_eq in E. subst text. discriminate.
    + apply String.eqb_neq in E. rewrite (parse_date_other C text E).
      destruct (PyDatetime.strptime (blanks_to_T text)) eqn:Es;
        [discriminate|].
      intros [= <-]. right. now exists text.
  - cbn. intros [= <-]. now left.
Qed.

Section Transformation.

Context {C : Collaborators}.
Variable self : importer.
Variable item : raw_item.

Lemma copy_loop_returns (entries : PyDict.t string) :
  forall pv,
    (forall f m, In (f, m) entries -> PyDict.get item m <> None) ->
    exists pv', foldM (copy_field item) entries pv = Ok pv'.
Proof.
  induction entries as [|[f m] entries IH]; intros pv Hall; cbn [foldM].
  - now exists pv.
  - unfold copy_field at 1. unfold PyDict.subscript.
    destruct (PyDict.get item m) as [v|] eqn:E; cbn [bind].
    + apply IH. intros f' m' Hin. apply (Hall f' m'). now right.
    + exfalso. apply (Hall f m); auto. now left.
Qed.

Lemma copy_loop_raise (entries : PyDict.t string) :
  forall pv e,
    foldM (copy_field item) entries pv = Raise e ->
    exists f k, e = KeyError k /\ In (f, k) entries
                /\ PyDict.get item k = None.
Proof.
  induction entries as [|[f m] entries IH]; intros pv e; cbn [foldM];
    [discriminate|].
  unfold copy_field at 1. unfold PyDict.subscript.
  destruct (PyDict.get item m) as [v|] eqn:E; cbn [bind].
  - intros H. apply IH in H. destruct H as [f' [k [He [Hin Hk]]]].
    exists f', k. repeat split; auto. now right.
  - intros [= <-]. exists f, m. repeat split; auto. now left.
Qed.

Lemma date_loop_returns (fields : list string) :
  forall acc,
    (forall df, In df fields ->
       exists d b, parse_date (source_of self item df) = Ok (d, b)) ->
    exists acc', foldM (date_field self item) fields acc = Ok acc'.
Proof.
  induction fields as [|df fields IH]; intros [pv dvl] Hall; cbn [foldM].
  - now eexists.
  - unfold date_field at 1. fold (source_of self item df).
    destruct (Hall df (or_introl eq_refl)) as [d [b Hd]].
    rewrite Hd. cbn [bind]. apply IH.
    intros df' Hin. apply Hall. now right.
Qed.

Lemma date_loop_raise (fields : list string) :
  forall acc e,
    foldM (date_field self item) fields acc = Raise e ->
    exists df, In df fields /\ parse_date (source_of self item df) = Raise e.
Proof.
  induction fields as [|df fields IH]; intros [pv dvl] e; cbn [foldM];
    [discriminate|].
  unfold date_field at 1. fold (source_of self item df).
  destruct (parse_date (source_of self item df)) as [[d b]|e'] eqn:E;
    cbn [bind].
  - intros H. apply IH in H. destruct H as [df' [Hin H]].
    exists df'. split; auto. now right.
  - intros [= <-]. exists df. split; auto. now left.
Qed.

Lemma get_values_raise (e : exn) :
  get_values self item = Raise e ->
  foldM (copy_field item) (mapping_item_inverse self) PyDict.empty = Raise e
  \/ exists df,
      In df (split comma (mapping_valid_date self))
      /\ parse_date (source_of self item df) = Raise e.
Proof.
  unfold get_values.
  destruct (foldM (copy_field item) (mapping_item_inverse self) PyDict.empty)
    as [pv1|e1] eqn:Ec; cbn [bind].
  - destruct (foldM (date_field self item) _ _) as [[pv3 dvl]|e2] eqn:Ed;
      cbn [bind].
    + destruct (fold_left (slug_field self item) _ _). discriminate.
    + intros [= <-]. right. eapply date_loop_raise. exact Ed.
  - intros [= <-]. now left.
Qed.

Lemma date_loop_value (fields : list string) :
  forall pv dvl pv' dvl' df,
    foldM (date_field self item) fields (pv, dvl) = Ok (pv', dvl') ->
    In df fields ->
    exists d b,
      parse_date (source_of self item df) = Ok (d, b)
      /\ PyDict.get pv' df = Some (PyDateTime d).
Proof.
  induction fields as [|df0 fields IH]; intros pv dvl pv' dvl' df;
    cbn [foldM]; [intros _ []|].
  unfold date_field at 1. fold (source_of self item df0).
  destruct (parse_date (source_of self item df0)) as [[d0 b0]|e] eqn:E;
    cbn [bind]; [|discriminate].
  intros H Hin. cbn [fst snd] in H.
  destruct (in_dec string_dec df fields) as [Hrest|Hrest].
  - eapply IH; eauto.
  - destruct Hin as [->|Hin]; [|contradiction].
    exists d0, b0. split; auto.
    rewrite (date_loop_get self item _ _ _ _ _ _ H Hrest).
    apply get_set_eq.
Qed.

Lemma slug_loop_value (fields : list string) :
  forall acc sf,
    In sf fields ->
    PyDict.get (fst (fold_left (slug_field self item) fields acc)) sf
    = Some (PyStr (fst (parse_slug (source_of self item sf)
                                   (item_get item (Some "title"))))).
Proof.
  induction fields as [|sf0 fields IH]; intros [pv sc] sf; cbn [fold_left];
    [intros []|].
  intros Hin.
  destruct (in_dec string_dec sf fields) as [Hrest|Hrest].
  - now apply IH.
  - destruct Hin as [->|Hin]; [|contradiction].
    rewrite (slug_loop_get self item fields _ sf Hrest).
    cbn [slug_field fst]. apply get_set_eq.
Qed.

Lemma stream_loop_value (fields : list string) :
  forall pv html,
    In html fields ->
    html <> "wp_processed_content" -> html <> "wp_block_json" ->
    PyDict.get (fold_left (stream_field self item) fields pv) html
    = Some (PyStr (fst (fst (parse_stream_fields
                               (source_of self item html))))).
Proof.
  induction fields as [|h0 fields IH]; intros pv html; cbn [fold_left];
    [intros []|].
  intros Hin H1 H2.
  destruct (in_dec string_dec html fields) as [Hrest|Hrest].
  - now apply IH.
  - destruct Hin as [->|Hin]; [|contradiction].
    rewrite (stream_loop_get self item fields _ html Hrest H1 H2).
    unfold stream_field. fold (source_of self item html).
    destruct (parse_stream_fields (source_of self item html))
      as [[sfv value] built].
    rewrite !get_set_ne by congruence. cbn [fst]. apply get_set_eq.
Qed.

Lemma stream_loop_last (earlier : list string) (last_field : string)
  (pv : PyDict.t pyval) :
  let r := parse_stream_fields (source_of self item last_field) in
  let pv' :=
    fold_left (stream_field self item) (earlier ++ [last_field]) pv in
  PyDict.get pv' "wp_processed_content" = Some (PyStr (snd (fst r)))
  /\ PyDict.get pv' "wp_block_json"
     = Some (PyStr (json_dumps_indent4 (snd r))).
Proof.
  cbv zeta. rewrite fold_left_app. cbn [fold_left].
  unfold stream_field at 1 3. fold (source_of self item last_field).
  destruct (parse_stream_fields (source_of self item last_field))
    as [[sfv value] built].
  cbn [fst snd]. split.
  - rewrite get_set_ne by discriminate. apply get_set_eq.
  - apply get_set_eq.
Qed.

(** From the end of the stream loop to the result: the date loop and the
    slug loop leave a key that is none of their fields as it is. *)
Lemma after_streams (pv : PyDict.t pyval) (dv : bool) (sc : pyval)
  (key : string) :
  get_values self item = Ok (pv, dv, sc) ->
  ~ In key (split comma (mapping_valid_date self)) ->
  ~ In key (split comma (mapping_valid_slug self)) ->
  exists pv1,
    foldM (copy_field item) (mapping_item_inverse self) PyDict.empty = Ok pv1
    /\ PyDict.get pv key
       = PyDict.get
           (fold_left (stream_field self item)
                      (split comma (mapping_stream_fields self)) pv1) key.
Proof.
  intros H Hdate Hslug. apply get_values_ok in H.
  destruct H as [pv1 [pv3 [dvl [Hc [Hd [_ Hs]]]]]].
  exists pv1. split; auto.
  pose proof (slug_loop_get self item _ (pv3, PyBool false) key Hslug) as Hk.
  rewrite Hs in Hk. cbn [fst] in Hk. rewrite Hk.
  exact (date_loop_get self item _ _ _ _ _ _ Hd Hdate).
Qed.

End Transformation.

(** X3.  [get_values] returns exactly when every source field that the
    inverted mapping names is present in the record and [parse_date]
    accepts the source of every configured date field.  Nothing else can
    make it fail: not the slug, not the content. *)
Theorem get_values_returns_iff :
  forall (C : Collaborators) (self : importer) (item : raw_item),
    (exists values, get_values self item = Ok values)
    <-> ((forall field mapped,
             In (field, mapped) (mapping_item_inverse self) ->
             PyDict.get item mapped <> None)
         /\ (forall df,
                In df (split comma (mapping_valid_date self)) ->
                exists d valid,
                  parse_date (source_of self item df) = Ok (d, valid))).
Proof.
  intros C self item. split.
  - intros [[[pv dv] sc] H]. apply get_values_ok in H.
    destruct H as [pv1 [pv3 [dvl [Hc [Hd _]]]]]. split.
    + intros field mapped Hin.
      exact (proj1 (proj2 (copy_loop_keys item _ _ _ Hc) field mapped Hin)).
    + intros df Hin.
      destruct (date_loop_value self item _ _ _ _ _ df Hd Hin)
        as [d [b [Hp _]]].
      now exists d, b.
  - intros [Hpresent Hdates].
    destruct (copy_loop_returns item (mapping_item_inverse self)
                PyDict.empty Hpresent) as [pv1 Hc].
    destruct (date_loop_returns self item
                (split comma (mapping_valid_date self))
                (fold_left (stream_field self item)
                           (split comma (mapping_stream_fields self)) pv1,
                 []) Hdates) as [[pv3 dvl] Hd].
    unfold get_values. rewrite Hc. cbn [bind]. rewrite Hd. cbn [bind].
    destruct (fold_left (slug_field self item) _ _) as [pv sc].
    now eexists.
Qed.

Lemma get_values_returns_iff_witness :
  (exists values,
      get_values (C := reference) (init [] Sample.mapping) Sample.draft
      = Ok values)
  /\ PyDict.get Sample.draft "wp:post_name" <> None.
Proof.
  pose proof (get_values_returns_iff reference (init [] Sample.mapping)
                Sample.draft) as [Hto Hfrom].
  assert (Hok : exists values,
             get_values (C := reference) (init [] Sample.mapping)
                        Sample.draft = Ok values).
  { apply Hfrom. split.
    - intros field mapped Hin. vm_compute in Hin.
      decompose [or] Hin; try contradiction;
        match goal with
        | H : (_, _) = (_, _) |- _ => injection H as <- <-
        end; discriminate.
    - intros df Hin. vm_compute in Hin.
      decompose [or] Hin; try contradiction; subst df;
        eexists _, _; vm_compute; reflexivity. }
  split; [exact Hok|].
  apply (proj1 (Hto Hok) "slug" "wp:post_name"). vm_compute. tauto.
Defined.

(** X4.  When [get_values] fails, the error is one of three: the
    [KeyError] of a source field that the inverted mapping names and the
    record lacks; the [AttributeError] of a date field whose source is
    [None]; or the [ValueError] of a date field whose text is not the
    sentinel and is refused by [strptime]. *)
Theorem get_values_errors :
  forall (C : Collaborators) (self : importer) (item : raw_item) (e : exn),
    get_values self item = Raise e ->
    (exists field key,
        e = KeyError key
        /\ In (field, key) (mapping_item_inverse self)
        /\ PyDict.get item key = None)
    \/ (exists df,
          In df (split comma (mapping_valid_date self))
          /\ source_of self item df = None /\ e = AttributeError)
    \/ (exists df text,
          In df (split comma (mapping_valid_date self))
          /\ source_of self item df = Some text
          /\ text <> sentinel_date
          /\ PyDatetime.strptime (blanks_to_T text) = None
          /\ e = ValueError).
Proof.
  intros C self item e H. apply get_values_raise in H.
  destruct H as [H|[df [Hin H]]].
  - left. now apply copy_loop_raise in H.
  - right. apply parse_date_raise in H.
    destruct H as [[Hv He]|[text [Hv [Hne [Hs He]]]]].
    + left. now exists df.
    + right. now exists df, text.
Qed.

Lemma get_values_errors_witness :
  exists df,
    In df (split comma
             (mapping_valid_date (init [] Cases.unmapped_date_mapping)))
    /\ source_of (init [] Cases.unmapped_date_mapping) Sample.post df = None.
Proof.
  destruct (get_values_errors reference (init [] Cases.unmapped_date_mapping)
              Sample.post AttributeError)
    as [[field [key [He _]]]|[[df [Hin [Hs _]]]|[df [text [_ [_ [_ [_ He]]]]]]]].
  - vm_compute. reflexivity.
  - discriminate.
  - now exists df.
  - discriminate.
Defined.

(** X5.  In a transformed record every configured date field that is not
    also a slug field holds the aware moment that [parse_date] made of its
    source, whatever the copy and content loops had put there. *)
Theorem date_fields_hold_moments :
  forall (C : Collaborators) (self : importer) (item : raw_item)
         (pv : PyDict.t pyval) (dv : bool) (sc : pyval) (df : string),
    get_values self item = Ok (pv, dv, sc) ->
    In df (split comma (mapping_valid_date self)) ->
    ~ In df (split comma (mapping_valid_slug self)) ->
    exists d valid,
      parse_date (source_of self item df) = Ok (d, valid)
      /\ PyDict.get pv df = Some (PyDateTime d).
Proof.
  intros C self item pv dv sc df H Hin Hslug.
  apply get_values_ok in H.
  destruct H as [pv1 [pv3 [dvl [_ [Hd [_ Hs]]]]]].
  destruct (date_loop_value self item _ _ _ _ _ df Hd Hin)
    as [d [b [Hp Hget]]].
  exists d, b. split; auto.
  pose proof (slug_loop_get self item _ (pv3, PyBool false) df Hslug) as Hk.
  rewrite Hs in Hk. cbn [fst] in Hk. now rewrite Hk.
Qed.

Lemma date_fields_hold_moments_witness :
  exists pv dv sc,
    get_values (C := reference) (init [] Sample.mapping) Sample.post
    = Ok (pv, dv, sc)
    /\ PyDict.get pv "last_published_at"
       = Some (PyDateTime
                 {| PyDatetime.naive :=
                      {| PyDatetime.year := 1900; PyDatetime.month := 1;
                         PyDatetime.day := 1; PyDatetime.hour := 0;
                         PyDatetime.minute := 0; PyDatetime.second := 0 |};
                    PyDatetime.tzinfo := "UTC" |}).
Proof.
  eexists _, _, _. split; [vm_compute; reflexivity|].
  edestruct (date_fields_hold_moments reference (init [] Sample.mapping)
               Sample.post) as [d [valid [Hp Hget]]].
  - vm_compute. reflexivity.
  - vm_compute. right. left. reflexivity.
  - vm_compute. intuition discriminate.
  - rewrite Hget. vm_compute in Hp. injection Hp as <- _. reflexivity.
Defined.

(** X6.  In a transformed record every configured slug field holds the slug
    that [parse_slug] made of its source and the record's title: the slug
    loop runs last and nothing overwrites it. *)
Theorem slug_fields_hold_slugs :
  forall (C : Collaborators) (self : importer) (item : raw_item)
         (pv : PyDict.t pyval) (dv : bool) (sc : pyval) (sf : string),
    get_values self item = Ok (pv, dv, sc) ->
    In sf (split comma (mapping_valid_slug self)) ->
    PyDict.get pv sf
    = Some (PyStr (fst (parse_slug (source_of self item sf)
                                   (item_get item (Some "title"))))).
Proof.
  intros C self item pv dv sc sf H Hin.
  apply get_values_ok in H.
  destruct H as [pv1 [pv3 [dvl [_ [_ [_ Hs]]]]]].
  pose proof (slug_loop_value self item _ (pv3, PyBool false) sf Hin) as Hk.
  now rewrite Hs in Hk.
Qed.

Lemma slug_fields_hold_slugs_witness :
  exists pv dv sc,
    get_values (C := reference) (init [] Sample.mapping) Sample.draft
    = Ok (pv, dv, sc)
    /\ PyDict.get pv "slug" = Some (PyStr "work-in-progress").
Proof.
  eexists _, _, _. split; [vm_compute; reflexivity|].
  etransitivity.
  - eapply (slug_fields_hold_slugs reference (init [] Sample.mapping)
              Sample.draft).
    + vm_compute. reflexivity.
    + vm_compute. left. reflexivity.
  - reflexivity.
Defined.

(** X7.  For an importer built by [__init__]: a target field of the
    inverted mapping that no normaliser is configured for, and that is not
    one of the two content keys, holds in the transformed record the raw
    value of its source field, text or [None], unchanged. *)
Theorem plain_fields_are_copied :
  forall (C : Collaborators) (doc : list raw_item)
         (m : WordpressMapping.mapping) (item : raw_item)
         (pv : PyDict.t pyval) (dv : bool) (sc : pyval)
         (field mapped : string),
    get_values (init doc m) item = Ok (pv, dv, sc) ->
    PyDict.get (map_item_inverse (WordpressMapping.item m)) field
    = Some mapped ->
    ~ In field (split comma (WordpressMapping.stream_fields m)) ->
    ~ In field (split comma (WordpressMapping.validate_date m)) ->
    ~ In field (split comma (WordpressMapping.validate_slug m)) ->
    field <> "wp_processed_content" -> field <> "wp_block_json" ->
    exists v,
      PyDict.get item mapped = Some v
      /\ PyDict.get pv field = Some (of_raw v).
Proof.
  intros C doc m item pv dv sc field mapped H Hinv Hstream Hdate Hslug H1 H2.
  destruct (after_streams (init doc m) item pv dv sc field H Hdate Hslug)
    as [pv1 [Hc Hget]].
  cbn [init mapping_item_inverse mapping_stream_fields] in Hc, Hget.
  rewrite (stream_loop_get (init doc m) item _ _ field Hstream H1 H2) in Hget.
  destruct (copy_loop_get item _ _ _ field mapped Hc
              (map_item_inverse_keys_nodup _) (get_in _ _ _ Hinv))
    as [v [Hv Hpv]].
  exists v. split; auto. congruence.
Qed.

Lemma plain_fields_are_copied_witness :
  exists pv dv sc,
    get_values (C := reference) (init [] Sample.mapping) Sample.post
    = Ok (pv, dv, sc)
    /\ exists v,
        PyDict.get Sample.post "link" = Some v
        /\ PyDict.get pv "wp_link" = Some (of_raw v).
Proof.
  eexists _, _, _. split; [vm_compute; reflexivity|].
  eapply (plain_fields_are_copied reference [] Sample.mapping Sample.post);
    try (vm_compute; reflexivity);
    try discriminate;
    vm_compute; intuition discriminate.
Defined.

(** X8.  The keys [wp_processed_content] and [wp_block_json] of a
    transformed record come from the last configured stream field alone:
    they hold its sanitised text and its blocks serialised with an indent
    of four, unless a date or slug field of the same name overwrites
    them. *)
Theorem content_keys_of_last_stream_field :
  forall (C : Collaborators) (self : importer) (item : raw_item)
         (pv : PyDict.t pyval) (dv : bool) (sc : pyval)
         (earlier : list string) (last_field : string),
    get_values self item = Ok (pv, dv, sc) ->
    split comma (mapping_stream_fields self) = earlier ++ [last_field] ->
    let r := parse_stream_fields (source_of self item last_field) in
    (~ In "wp_processed_content" (split comma (mapping_valid_date self)) ->
     ~ In "wp_processed_content" (split comma (mapping_valid_slug self)) ->
     PyDict.get pv "wp_processed_content" = Some (PyStr (snd (fst r))))
    /\ (~ In "wp_block_json" (split comma (mapping_valid_date self)) ->
        ~ In "wp_block_json" (split comma (mapping_valid_slug self)) ->
        PyDict.get pv "wp_block_json"
        = Some (PyStr (json_dumps_indent4 (snd r)))).
Proof.
  intros C self item pv dv sc earlier last_field H Hsplit r.
  pose proof (stream_loop_last self item earlier last_field) as Hlast.
  cbv zeta in Hlast. fold r in Hlast.
  split; intros Hdate Hslug.
  - destruct (after_streams self item pv dv sc _ H Hdate Hslug)
      as [pv1 [_ Hget]].
    rewrite Hget, Hsplit. apply Hlast.
  - destruct (after_streams self item pv dv sc _ H Hdate Hslug)
      as [pv1 [_ Hget]].
    rewrite Hget, Hsplit. apply Hlast.
Qed.

Lemma content_keys_of_last_stream_field_witness :
  exists pv dv sc,
    get_values (C := reference) (init [] Cases.two_stream_mapping) Sample.post
    = Ok (pv, dv, sc)
    /\ PyDict.get pv "wp_processed_content"
       = Some (PyStr "None|linebreaks_wp|fix_styles|bleach_clean").
Proof.
  destruct (get_values (C := reference) (init [] Cases.two_stream_mapping)
                       Sample.post) as [[[pv dv] sc]|e] eqn:E;
    [|vm_compute in E; discriminate].
  exists pv, dv, sc. split; [reflexivity|].
  destruct (content_keys_of_last_stream_field reference
              (init [] Cases.two_stream_mapping) Sample.post pv dv sc
              ["body"] "excerpt" E eq_refl) as [Hcontent _].
  rewrite Hcontent.
  - reflexivity.
  - vm_compute. intuition discriminate.
  - vm_compute. intuition discriminate.
Defined.

(** X9.  Every configured stream field other than the two content keys,
    and not overwritten by a date or slug field of the same name, holds
    the serialised blocks of the content pipeline run on [str] of its
    source; for a stream field without a source that is the pipeline run
    on the text [None]. *)
Theorem stream_fields_hold_blocks :
  forall (C : Collaborators) (self : importer) (item : raw_item)
         (pv : PyDict.t pyval) (dv : bool) (sc : pyval) (html : string),
    get_values self item = Ok (pv, dv, sc) ->
    In html (split comma (mapping_stream_fields self)) ->
    html <> "wp_processed_content" -> html <> "wp_block_json" ->
    ~ In html (split comma (mapping_valid_date self)) ->
    ~ In html (split comma (mapping_valid_slug self)) ->
    PyDict.get pv html
    = Some (PyStr (json_dumps
                     (block_builder_build
                        (bleach_clean
                           (fix_styles
                              (linebreaks_wp
                                 (py_str (source_of self item html))))))))
    /\ (source_of self item html = None ->
        PyDict.get pv html
        = Some (PyStr (json_dumps
                         (block_builder_build
                            (bleach_clean
                               (fix_styles (linebreaks_wp "None"))))))).
Proof.
  intros C self item pv dv sc html H Hin H1 H2 Hdate Hslug.
  destruct (after_streams self item pv dv sc html H Hdate Hslug)
    as [pv1 [_ Hget]].
  rewrite (stream_loop_value self item _ _ html Hin H1 H2) in Hget.
  split; [exact Hget|].
  intros Hnone. rewrite Hget, Hnone. reflexivity.
Qed.

Lemma stream_fields_hold_blocks_witness :
  exists pv dv sc,
    get_values (C := reference) (init [] Cases.two_stream_mapping) Sample.post
    = Ok (pv, dv, sc)
    /\ PyDict.get pv "excerpt"
       = Some (PyStr "[None|linebreaks_wp|fix_styles|bleach_clean]")
    /\ PyDict.get pv "body"
       = Some (PyStr "[<p>Hi</p>|linebreaks_wp|fix_styles|bleach_clean]").
Proof.
  destruct (get_values (C := reference) (init [] Cases.two_stream_mapping)
                       Sample.post) as [[[pv dv] sc]|e] eqn:E;
    [|vm_compute in E; discriminate].
  exists pv, dv, sc. split; [reflexivity|]. split.
  - pose proof (stream_fields_hold_blocks reference
                  (init [] Cases.two_stream_mapping) Sample.post pv dv sc
                  "excerpt" E
                  ltac:(vm_compute; tauto)
                  ltac:(discriminate) ltac:(discriminate)
                  ltac:(vm_compute; intuition discriminate)
                  ltac:(vm_compute; intuition discriminate))
      as [_ Hnone].
    rewrite Hnone; reflexivity.
  - pose proof (stream_fields_hold_blocks reference
                  (init [] Cases.two_stream_mapping) Sample.post pv dv sc
                  "body" E
                  ltac:(vm_compute; tauto)
                  ltac:(discriminate) ltac:(discriminate)
                  ltac:(vm_compute; intuition discriminate)
                  ltac:(vm_compute; intuition discriminate))
      as [Hbody _].
    rewrite Hbody. reflexivity.
Defined.

(** X10.  The slug outcome of a transformed record is always one of the
    three texts of [parse_slug]: the list of slug fields is never empty, so
    the initial [False] of [get_values] is never what it returns. *)
Theorem slug_outcome_is_text :
  forall (C : Collaborators) (self : importer) (item : raw_item)
         (pv : PyDict.t pyval) (dv : bool) (sc : pyval),
    get_values self item = Ok (pv, dv, sc) ->
    sc = PyStr "blank slug" \/ sc = PyStr "OK"
    \/ sc = PyStr "illegal chars found".
Proof.
  intros C self item pv dv sc H. apply get_values_ok in H.
  destruct H as [pv1 [pv3 [dvl [_ [_ [_ Hs]]]]]].
  destruct (exists_last (split_nonempty comma (mapping_valid_slug self)))
    as [earlier [last_field Hsplit]].
  rewrite Hsplit in Hs.
  pose proof (slug_loop_last self item earlier last_field (pv3, PyBool false))
    as Hlast.
  rewrite Hs in Hlast. cbn [snd] in Hlast. subst sc.
  unfold parse_slug.
  destruct (truthy (source_of self item last_field)); cbn [negb andb snd].
  - destruct (negb _); auto.
  - auto.
Qed.

Lemma slug_outcome_is_text_witness :
  exists pv dv,
    get_values (C := reference) (init [] Sample.mapping) Sample.draft
    = Ok (pv, dv, PyStr "blank slug").
Proof.
  destruct (get_values (C := reference) (init [] Sample.mapping) Sample.draft)
    as [[[pv dv] sc]|e] eqn:E.
  - destruct (slug_outcome_is_text reference (init [] Sample.mapping)
                Sample.draft pv dv sc E) as [Hs|[Hs|Hs]];
      subst sc; vm_compute in E; injection E as <- <-;
      try discriminate; eexists _, _; reflexivity.
  - vm_compute in E. discriminate.
Defined.

(** ** The import session, continued *)

Lemma foldM_app {A S : Type} (f : S -> A -> result S) (a b : list A) (s : S) :
  foldM f (a ++ b) s = bind (foldM f a s) (foldM f b).
Proof.
  revert s. induction a as [|x a IH]; intros s; cbn [app foldM bind]; auto.
  destruct (f s x) as [s'|e]; cbn [bind]; auto.
Qed.

Lemma get_values_no_exit (C : Collaborators) (self : importer)
  (item : raw_item) :
  get_values self item <> Raise SystemExit.
Proof.
  intros H. apply get_values_raise in H. destruct H as [H|[df [_ H]]].
  - apply copy_loop_raise in H. destruct H as [f [k [He _]]]. discriminate.
  - apply parse_date_raise in H.
    destruct H as [[_ He]|[text [_ [_ [_ He]]]]]; discriminate.
Qed.

Lemma guard_no_exit (O : Store.Orm) (c : Store.call) :
  Store.guard c <> Raise SystemExit.
Proof.
  intros H. apply guard_raise in H. destruct H as [name H]. discriminate.
Qed.

Lemma bind_guard_no_exit (O : Store.Orm) (A : Type) (c : Store.call)
  (a : A) :
  bind (Store.guard c) (fun _ => Ok a) <> Raise SystemExit.
Proof.
  destruct (Store.guard c) as [u|e] eqn:E; cbn [bind]; [discriminate|].
  intros [= ->]. now apply guard_no_exit in E.
Qed.

Lemma update_page_no_exit (O : Store.Orm) (st : Store.t)
  (existing : Store.page) (values : PyDict.t pyval) (status : raw) :
  update_page st existing values status <> Raise SystemExit.
Proof.
  unfold update_page.
  assert (Hset : set_attrs existing values <> Raise SystemExit).
  { unfold set_attrs. generalize (PyDict.keys values). intros ks.
    generalize existing.
    induction ks as [|k ks IH]; intros obj; cbn [foldM]; [discriminate|].
    unfold PyDict.subscript.
    destruct (PyDict.get values k) as [v|]; cbn [bind]; [|discriminate].
    destruct (Store.setattr obj k v) as [obj1|e] eqn:E; cbn [bind];
      [apply IH|].
    intros [= ->]. now apply bind_guard_no_exit in E. }
  destruct (set_attrs existing values) as [obj1|e]; cbn [bind];
    [|congruence].
  destruct (Store.save st obj1) as [[st2 obj2]|e] eqn:E2; cbn [bind].
  - destruct (is_draft status); cbn [bind]; [|discriminate].
    destruct (Store.unpublish st2 obj2) as [[st3 obj3]|e] eqn:E3;
      cbn [bind]; [discriminate|].
    intros [= ->]. now apply bind_guard_no_exit in E3.
  - intros [= ->]. now apply bind_guard_no_exit in E2.
Qed.

Lemma create_page_no_exit (O : Store.Orm) (st : Store.t)
  (model : Store.model_id) (parent_obj : Store.page)
  (values : PyDict.t pyval) (status : raw) :
  create_page st model parent_obj values status <> Raise SystemExit.
Proof.
  unfold create_page.
  destruct (Store.new model values) as [obj0|e] eqn:E0; cbn [bind].
  - assert (E1 : (if is_draft status
                  then Store.setattr obj0 "live" (PyBool false)
                  else Store.setattr obj0 "live" (PyBool true))
                 <> Raise SystemExit).
    { destruct (is_draft status); apply bind_guard_no_exit. }
    destruct (if is_draft status then _ else _) as [obj1|e]; cbn [bind];
      [|congruence].
    destruct (Store.add_child st parent_obj obj1) as [[st2 obj2]|e] eqn:E2;
      cbn [bind]; [discriminate|].
    intros [= ->]. now apply bind_guard_no_exit in E2.
  - intros [= ->]. now apply bind_guard_no_exit in E0.
Qed.

Section SessionMore.

Context {C : Collaborators} {O : Store.Orm}.
Variable model : Store.model_id.
Variable parent_obj : Store.page.
Variable kw : kwargs.

Lemma process_item_no_exit (self : importer) (st : Store.t)
  (item : raw_item) :
  process_item model parent_obj kw (self, st) item <> Raise SystemExit.
Proof.
  destruct (eligible kw item) eqn:E.
  - rewrite (process_item_eligible model parent_obj kw self st item E).
    pose proof (get_values_no_exit C self item) as Hv.
    destruct (get_values self item) as [[[vals dv] sc]|e]; [|congruence].
    cbv zeta. destruct (Store.filter_first _ _ _ _) as [existing|].
    + pose proof (update_page_no_exit O st existing vals
                    (item_get item (Some "wp:status"))) as Hu.
      destruct (update_page _ _ _ _) as [[[st1 obj] outcome]|e];
        [discriminate | congruence].
    + pose proof (create_page_no_exit O st model parent_obj vals
                    (item_get item (Some "wp:status"))) as Hc.
      destruct (create_page _ _ _ _ _) as [[[st1 obj] outcome]|e];
        [discriminate | congruence].
  - rewrite (process_item_skip model parent_obj kw self st item E).
    discriminate.
Qed.

Lemma loop_no_exit (doc : list raw_item) :
  forall self st,
    foldM (process_item model parent_obj kw) doc (self, st)
    <> Raise SystemExit.
Proof.
  induction doc as [|item doc IH]; intros self st; cbn [foldM];
    [discriminate|].
  destruct (process_item model parent_obj kw (self, st) item)
    as [[self1 st1]|e] eqn:E; cbn [bind].
  - apply IH.
  - intros [= ->]. now apply process_item_no_exit in E.
Qed.

Lemma process_item_xml (self self' : importer) (st st' : Store.t)
  (item : raw_item) :
  process_item model parent_obj kw (self, st) item = Ok (self', st') ->
  xml_file self' = xml_file self.
Proof.
  destruct (eligible kw item) eqn:E.
  - intros H.
    destruct (process_item_ok model parent_obj kw self self' st st' item
                E H) as [vals [dv [sc [_ Hcase]]]].
    destruct Hcase as [[existing [obj [outcome [_ [_ ->]]]]]
                      |[obj [outcome [_ [_ ->]]]]]; reflexivity.
  - rewrite (process_item_skip model parent_obj kw self st item E).
    intros [= <- _]. reflexivity.
Qed.

Lemma loop_xml (doc : list raw_item) :
  forall self st self' st',
    foldM (process_item model parent_obj kw) doc (self, st)
    = Ok (self', st') ->
    xml_file self' = xml_file self.
Proof.
  induction doc as [|item doc IH]; intros self st self' st'; cbn [foldM].
  - now intros [= <- _].
  - destruct (process_item model parent_obj kw (self, st) item)
      as [[self1 st1]|e] eqn:E; cbn [bind]; [|discriminate].
    intros H. apply IH in H. apply process_item_xml in E. congruence.
Qed.

(** What the loop does to the store depends on the importer through its
    configuration only. *)
Lemma loop_config (doc : list raw_item) :
  forall a b st a' st',
    config_of a = config_of b ->
    foldM (process_item model parent_obj kw) doc (a, st) = Ok (a', st') ->
    exists b',
      foldM (process_item model parent_obj kw) doc (b, st) = Ok (b', st')
      /\ config_of b' = config_of b.
Proof.
  induction doc as [|item doc IH]; intros a b st a' st' Hc; cbn [foldM].
  - intros [= <- <-]. now exists b.
  - destruct (process_item model parent_obj kw (a, st) item)
      as [[a1 st1]|e] eqn:E1; cbn [bind]; [|discriminate].
    intros H.
    assert (Hb : exists b1,
               process_item model parent_obj kw (b, st) item = Ok (b1, st1)
               /\ config_of a1 = config_of b1).
    { pose proof (process_item_audit _ _ _ _ _ _ _ _ E1) as [Hc1 _].
      destruct (eligible kw item) eqn:E.
      - rewrite (process_item_eligible model parent_obj kw a st item E) in E1.
        rewrite (process_item_eligible model parent_obj kw b st item E).
        rewrite <- (get_values_config a b item Hc).
        destruct (get_values a item) as [[[vals dv] sc]|e]; [|discriminate].
        cbv zeta in *.
        destruct (Store.filter_first _ _ _ _);
          [destruct (update_page _ _ _ _) as [[[st2 obj] outcome]|e]
          |destruct (create_page _ _ _ _ _) as [[[st2 obj] outcome]|e]];
          try discriminate;
          injection E1 as <- <-; eexists; (split; [reflexivity|]);
          exact Hc.
      - rewrite (process_item_skip model parent_obj kw a st item E) in E1.
        rewrite (process_item_skip model parent_obj kw b st item E).
        injection E1 as <- <-. eexists. split; [reflexivity|]. exact Hc. }
    destruct Hb as [b1 [Hb1 Hc1]]. rewrite Hb1. cbn [bind].
    destruct (IH a1 b1 st1 a' st' Hc1 H) as [b' [Hl Hcb]].
    exists b'. split; [exact Hl|].
    pose proof (process_item_audit _ _ _ _ _ _ _ _ Hb1) as [Hcb1 _].
    congruence.
Qed.

(** The loop stops at an eligible record that fails to transform. *)
Lemma loop_aborts (before after : list raw_item) (item : raw_item) (e : exn) :
  forall self st self1 st1,
    foldM (process_item model parent_obj kw) before (self, st)
    = Ok (self1, st1) ->
    eligible kw item = true ->
    get_values self item = Raise e ->
    foldM (process_item model parent_obj kw) (before ++ item :: after)
          (self, st) = Raise e.
Proof.
  intros self st self1 st1 Hloop He Hraise. rewrite foldM_app.
  rewrite Hloop. cbn [bind foldM].
  pose proof (loop_audit model parent_obj kw before _ _ _ _ Hloop)
    as [Hc _].
  rewrite (process_item_eligible model parent_obj kw self1 st1 item He).
  rewrite (get_values_config self1 self item Hc), Hraise. reflexivity.
Qed.

End SessionMore.

Section Pages.

Context {C : Collaborators} {O : Store.Orm}.
Variable model : Store.model_id.
Variable parent_obj : Store.page.
Variable kw : kwargs.
Variable doc0 : list raw_item.
Variable m : WordpressMapping.mapping.
Hypothesis Hkeep : keeps_primary_key m.

(** What a loop does to the number of pages. *)
Lemma loop_pages (doc : list raw_item) :
  forall self st self' st',
    config_of self = config_of (init doc0 m) ->
    store_wf st ->
    foldM (process_item model parent_obj kw) doc (self, st)
    = Ok (self', st') ->
    store_wf st'
    /\ incl (map Store.pk (Store.pages st)) (map Store.pk (Store.pages st'))
    /\ exists logs,
        logged_items self' = logged_items self ++ logs
        /\ length (Store.pages st')
           = length (Store.pages st) + length (filter is_created logs).
Proof.
  induction doc as [|item doc IH]; intros self st self' st' Hc Hwf;
    cbn [foldM].
  - intros [= <- <-]. split; auto. split; [apply incl_refl|].
    exists []. rewrite app_nil_r. cbn. split; auto.
  - destruct (process_item model parent_obj kw (self, st) item)
      as [[self1 st1]|e] eqn:E; cbn [bind]; [|discriminate].
    intros H.
    pose proof (process_item_audit _ _ _ _ _ _ _ _ E) as [Hc1 _].
    assert (Hstep :
             store_wf st1
             /\ incl (map Store.pk (Store.pages st))
                     (map Store.pk (Store.pages st1))
             /\ exists logged,
                 logged_items self1 = logged_items self ++ [logged]
                 /\ length (Store.pages st1)
                    = length (Store.pages st)
                      + (if is_created logged then 1 else 0)).
    { destruct (eligible kw item) eqn:He.
      - destruct (process_item_ok model parent_obj kw self self1 st st1
                    item He E) as [vals [dv [sc [Ev Hcase]]]].
        pose proof (get_values_untargeted self item doc0 m vals dv sc "pk"
                      (proj1 Hkeep) ltac:(discriminate) ltac:(discriminate)
                      Hc Ev) as Hpk.
        pose proof (get_values_untargeted self item doc0 m vals dv sc "id"
                      (proj2 Hkeep) ltac:(discriminate) ltac:(discriminate)
                      Hc Ev) as Hidk.
        destruct Hcase as [[existing [obj [outcome [Ef [Eu ->]]]]]
                          |[obj [outcome [Ef [Ec ->]]]]].
        + apply filter_first_some in Ef. destruct Ef as [Hin _].
          destruct (update_store model O st st1 existing obj vals
                      (item_get item (Some "wp:status")) outcome
                      Hwf Hin Hpk Hidk Eu) as [Hwf1 [Hpk1 _]].
          split; [exact Hwf1|].
          split; [rewrite Hpk1; apply incl_refl|].
          eexists. split; [cbn [bump logged_items];
                           now rewrite app_nil_r|].
          rewrite <- (length_map Store.pk), Hpk1, length_map.
          unfold is_created. rewrite log_field_set_log. cbn. lia.
        + destruct (create_store model O st st1 parent_obj obj vals
                      (item_get item (Some "wp:status")) outcome
                      Hwf Hpk Hidk Ec) as [Hwf1 [Hpk1 _]].
          split; [exact Hwf1|].
          split; [rewrite Hpk1; apply incl_appl, incl_refl|].
          eexists. split; [cbn [bump logged_items];
                           now rewrite app_nil_r|].
          rewrite <- (length_map Store.pk), Hpk1, length_app, length_map.
          unfold is_created. rewrite log_field_set_log. cbn. lia.
      - rewrite (process_item_skip model parent_obj kw self st item He) in E.
        injection E as <- <-.
        split; auto. split; [apply incl_refl|].
        eexists. split; [cbn [bump logged_items]; now rewrite app_nil_r|].
        unfold is_created, skipped_entry. rewrite log_field_set_log. cbn.
        lia. }
    destruct Hstep as [Hwf1 [Hincl1 [logged [Hlog1 Hlen1]]]].
    destruct (IH self1 st1 self' st' (eq_trans Hc1 Hc) Hwf1 H)
      as [Hwf' [Hincl [logs [Hlog Hlen]]]].
    split; [auto|]. split; [eapply incl_tran; eauto|].
    exists (logged :: logs). split.
    + rewrite Hlog, Hlog1, <- app_assoc. reflexivity.
    + cbn [filter]. destruct (is_created logged); cbn [length]; lia.
Qed.

End Pages.

(** X12.  A run ends with [exit()] exactly when the page model or the
    parent page cannot be found; no record can cause it: a record that
    fails raises a [KeyError], an [AttributeError], a [ValueError] or an
    exception of Django. *)
Theorem run_exits_iff :
  forall (C : Collaborators) (O : Store.Orm) (self : importer) (kw : kwargs)
         (st : Store.t),
    run self kw st = Raise SystemExit
    <-> (Store.get_model st (app_for_pages kw) (model_for_pages kw) = None
         \/ Store.get_page st (parent_id kw) = None).
Proof.
  intros C O self kw st. unfold run.
  destruct (Store.get_model st (app_for_pages kw) (model_for_pages kw))
    as [model|]; [|tauto].
  destruct (Store.get_page st (parent_id kw)) as [parent_obj|]; [|tauto].
  split.
  - destruct (foldM _ _ _) as [[self1 st1]|e] eqn:E; cbn [bind];
      [discriminate|].
    intros [= ->]. now apply loop_no_exit in E.
  - intros [H|H]; discriminate.
Qed.

Lemma run_exits_iff_witness :
  run (C := reference) (O := Store.wagtail)
      (init Sample.document Sample.mapping)
      Cases.unknown_model_options Sample.store = Raise SystemExit.
Proof.
  apply (proj2 (run_exits_iff reference Store.wagtail
                  (init Sample.document Sample.mapping)
                  Cases.unknown_model_options Sample.store)).
  left. reflexivity.
Defined.

(** X13.  An eligible record that fails to transform ends the run with
    its error: when the run over the records before it returns, the run
    over the whole document raises the error of that record, the records
    after it are not read and nothing is returned, whatever the records
    before it did to the store. *)
Theorem run_aborts_at_first_failure :
  forall (C : Collaborators) (O : Store.Orm) (before after : list raw_item)
         (item : raw_item) (m : WordpressMapping.mapping) (kw : kwargs)
         (st st1 : Store.t) (e : exn) (r : nat * nat * nat)
         (log : list logged_item) (self1 : importer),
    run (init before m) kw st = Ok (r, log, self1, st1) ->
    eligible kw item = true ->
    get_values (init (before ++ item :: after) m) item = Raise e ->
    run (init (before ++ item :: after) m) kw st = Raise e.
Proof.
  intros C O before after item m kw st st1 e r log self1 Hrun He Hraise.
  apply run_ok_inv in Hrun.
  destruct Hrun as [model [parent_obj [Hm [Hp [Hloop _]]]]].
  cbn [xml_file init] in Hloop.
  destruct (loop_config model parent_obj kw before
              (with_target (init before m) model parent_obj)
              (with_target (init (before ++ item :: after) m)
                           model parent_obj)
              st self1 st1 eq_refl Hloop) as [b' [Hb _]].
  unfold run. rewrite Hm, Hp. cbn [xml_file init].
  rewrite (loop_aborts model parent_obj kw before after item e _ _ _ _ Hb);
    auto.
Qed.

Lemma run_aborts_at_first_failure_witness :
  run (C := reference) (O := Store.wagtail)
      (init Cases.broken_document Sample.mapping)
      Sample.options Sample.store = Raise (KeyError "link").
Proof.
  destruct (run (C := reference) (O := Store.wagtail)
                (init [Sample.post; Sample.attachment] Sample.mapping)
                Sample.options Sample.store)
    as [[[[r log] self1] st1]|e] eqn:E; [|vm_compute in E; discriminate].
  apply (run_aborts_at_first_failure reference Store.wagtail
           [Sample.post; Sample.attachment] [Sample.draft]
           Sample.post_without_link Sample.mapping Sample.options
           Sample.store st1 (KeyError "link") r log self1 E).
  - reflexivity.
  - vm_compute. reflexivity.
Defined.

(** X14.  [run] does not reset the importer: a second run on the importer
    object that a first run over [N] records, [E] of them eligible, has
    used reads the same document and returns the counters [2N], [2E] and
    [2(N - E)], and a log that is the first log followed by [N] more
    entries. *)
Theorem rerun_accumulates :
  forall (C : Collaborators) (O : Store.Orm) (doc : list raw_item)
         (m : WordpressMapping.mapping) (kw : kwargs) (st st1 st2 : Store.t)
         (r1 r2 : nat * nat * nat) (log1 log2 : list logged_item)
         (self1 self2 : importer),
    run (init doc m) kw st = Ok (r1, log1, self1, st1) ->
    run self1 kw st1 = Ok (r2, log2, self2, st2) ->
    r2 = (2 * length (filter (eligible kw) doc),
          2 * (length doc - length (filter (eligible kw) doc)),
          2 * length doc)
    /\ exists logs, log2 = log1 ++ logs /\ length logs = length doc.
Proof.
  intros C O doc m kw st st1 st2 r1 r2 log1 log2 self1 self2 H1 H2.
  apply run_ok_inv in H1.
  destruct H1 as [model1 [parent1 [_ [_ [Hloop1 Hr1]]]]].
  cbn [xml_file init] in Hloop1.
  pose proof (loop_audit _ _ _ _ _ _ _ _ Hloop1)
    as [_ [Hp1 [Hi1 [Hs1 [logs1 [Hl1 _]]]]]].
  pose proof (loop_xml _ _ _ _ _ _ _ _ Hloop1) as Hxml.
  cbn [with_target init log_processed log_imported log_skipped
         logged_items xml_file app] in Hp1, Hi1, Hs1, Hl1, Hxml.
  injection Hr1 as _ Hlog1.
  apply run_ok_inv in H2.
  destruct H2 as [model2 [parent2 [_ [_ [Hloop2 Hr2]]]]].
  rewrite Hxml in Hloop2.
  pose proof (loop_audit _ _ _ _ _ _ _ _ Hloop2)
    as [_ [Hp2 [Hi2 [Hs2 [logs2 [Hl2 [HF2 _]]]]]]].
  cbn [with_target log_processed log_imported log_skipped logged_items]
    in Hp2, Hi2, Hs2, Hl2.
  injection Hr2 as -> ->. split.
  - f_equal; [f_equal|]; lia.
  - exists logs2. split; [congruence|].
    symmetry. eapply Forall2_length. exact HF2.
Qed.

Lemma rerun_accumulates_witness :
  exists log1 self1 st1 log2 self2 st2,
    run (C := reference) (O := Store.wagtail)
        (init Sample.document Sample.mapping)
        Sample.options Sample.store = Ok ((3, 1, 4), log1, self1, st1)
    /\ run (C := reference) (O := Store.wagtail) self1 Sample.options st1
       = Ok ((6, 2, 8), log2, self2, st2).
Proof.
  destruct (run (C := reference) (O := Store.wagtail)
                (init Sample.document Sample.mapping)
                Sample.options Sample.store)
    as [[[[r1 log1] self1] st1]|e] eqn:E1;
    [|vm_compute in E1; discriminate].
  destruct (run (C := reference) (O := Store.wagtail) self1 Sample.options
                st1)
    as [[[[r2 log2] self2] st2]|e] eqn:E2.
  - destruct (rerun_accumulates reference Store.wagtail Sample.document
                Sample.mapping Sample.options Sample.store st1 st2 r1 r2
                log1 log2 self1 self2 E1 E2) as [Hr2 _].
    exists log1, self1, st1, log2, self2, st2.
    assert (Hr1 : r1 = (3, 1, 4)).
    { vm_compute in E1. now injection E1 as <- _ _ _. }
    split; [now rewrite Hr1 | now rewrite E2, Hr2].
  - vm_compute in E1. injection E1 as _ _ <- <-.
    vm_compute in E2. discriminate.
Defined.

(** X15.  A document without an eligible record is imported without
    reading the store or transforming anything: whenever the model and the
    parent resolve the run returns, every record is skipped and the store
    is left as it was, even if no record could be transformed and
    whatever Django would refuse. *)
Theorem run_without_eligible_records :
  forall (C : Collaborators) (O : Store.Orm) (doc : list raw_item)
         (m : WordpressMapping.mapping) (kw : kwargs) (st : Store.t),
    Store.get_model st (app_for_pages kw) (model_for_pages kw) <> None ->
    Store.get_page st (parent_id kw) <> None ->
    (forall item, In item doc -> eligible kw item = false) ->
    exists self',
      run (init doc m) kw st
      = Ok ((0, length doc, length doc),
            map (fun item => set_log item skipped_entry) doc, self', st).
Proof.
  intros C O doc m kw st Hm Hp Hnone. unfold run.
  destruct (Store.get_model _ _ _) as [model|]; [|congruence].
  destruct (Store.get_page _ _) as [parent_obj|]; [|congruence].
  cbn [xml_file init].
  assert (Hloop : forall self,
             exists self',
               foldM (process_item model parent_obj kw) doc (self, st)
               = Ok (self', st)
               /\ log_imported self' = log_imported self
               /\ log_skipped self' = log_skipped self + length doc
               /\ log_processed self' = log_processed self + length doc
               /\ logged_items self'
                  = logged_items self
                    ++ map (fun item => set_log item skipped_entry) doc).
  { induction doc as [|item doc IH]; intros self; cbn [foldM].
    - exists self. cbn. rewrite app_nil_r. repeat split; lia.
    - rewrite (process_item_skip model parent_obj kw self st item)
        by (apply Hnone; now left).
      cbn [bind].
      destruct (IH (fun x Hx => Hnone x (or_intror Hx))
                   (bump (bump self 1 0 0 []) 0 0 1
                         [set_log item skipped_entry]))
        as [self' [Hl [Hi [Hs [Hpr Hlog]]]]].
      exists self'. split; [exact Hl|].
      cbn [bump log_imported log_skipped log_processed logged_items]
        in Hi, Hs, Hpr, Hlog.
      cbn [length map]. repeat split; try lia.
      rewrite Hlog, app_nil_r, <- app_assoc. reflexivity. }
  destruct (Hloop (with_target (init doc m) model parent_obj))
    as [self' [Hl [Hi [Hs [Hpr Hlog]]]]].
  exists self'. rewrite Hl. cbn [bind]. unfold run_result.
  cbn [with_target init log_imported log_skipped log_processed
         logged_items app] in Hi, Hs, Hpr, Hlog.
  now rewrite Hi, Hs, Hpr, Hlog.
Qed.

Lemma run_without_eligible_records_witness :
  exists log self',
    run (C := reference) (O := Store.wagtail)
        (init Cases.attachments Sample.mapping)
        Sample.options Sample.store = Ok ((0, 2, 2), log, self', Sample.store)
    /\ get_values (C := reference) (init Cases.attachments Sample.mapping)
                  Sample.attachment = Raise (KeyError "wp:post_name").
Proof.
  destruct (run_without_eligible_records reference Store.wagtail
              Cases.attachments Sample.mapping Sample.options Sample.store)
    as [self' Hrun].
  - vm_compute. discriminate.
  - vm_compute. discriminate.
  - intros item Hin. cbn [Cases.attachments In] in Hin.
    decompose [or] Hin; try contradiction; subst item; reflexivity.
  - eexists _, self'. split; [exact Hrun | reflexivity].
Defined.

(** X16.  On a store whose pages have unique primary keys and with a
    mapping that leaves the primary key of a page alone, a run that
    returns has added to the store exactly as many pages as its log
    reports created; it has removed none, every primary key of the store
    before the run is still there, and primary keys stay unique. *)
Theorem run_page_count :
  forall (C : Collaborators) (O : Store.Orm) (doc : list raw_item)
         (m : WordpressMapping.mapping) (kw : kwargs) (st st' : Store.t)
         (r : nat * nat * nat) (log : list logged_item) (self' : importer),
    store_wf st ->
    keeps_primary_key m ->
    run (init doc m) kw st = Ok (r, log, self', st') ->
    length (Store.pages st')
    = length (Store.pages st) + length (filter is_created log)
    /\ incl (map Store.pk (Store.pages st)) (map Store.pk (Store.pages st'))
    /\ store_wf st'.
Proof.
  intros C O doc m kw st st' r log self' Hwf Hkeep H. apply run_ok_inv in H.
  destruct H as [model [parent_obj [_ [_ [Hloop Hr]]]]].
  cbn [xml_file init] in Hloop.
  destruct (loop_pages model parent_obj kw doc m Hkeep doc
              (with_target (init doc m) model parent_obj) st self' st'
              eq_refl Hwf Hloop) as [Hwf' [Hincl [logs [Hlog Hlen]]]].
  cbn [with_target init logged_items app] in Hlog.
  injection Hr as _ ->. rewrite Hlog. auto.
Qed.

Lemma run_page_count_witness :
  exists r log self' st',
    run (C := reference) (O := Store.wagtail)
        (init Sample.document Sample.mapping)
        Sample.options Sample.store = Ok (r, log, self', st')
    /\ length (filter is_created log) = 2
    /\ length (Store.pages st') = 4.
Proof.
  destruct (run (C := reference) (O := Store.wagtail)
                (init Sample.document Sample.mapping)
                Sample.options Sample.store)
    as [[[[r log] self'] st']|e] eqn:E; [|vm_compute in E; discriminate].
  destruct (run_page_count reference Store.wagtail Sample.document
              Sample.mapping Sample.options Sample.store st' r log self'
              sample_store_wf sample_keeps_primary_key E) as [Hlen _].
  exists r, log, self', st'. split; [reflexivity|].
  assert (Hc : length (filter is_created log) = 2).
  { vm_compute in E. injection E as _ <- _ _. reflexivity. }
  split; [exact Hc|]. rewrite Hlen, Hc. reflexivity.
Defined.

(** X17.  Within one run a record is created at most once per identity.
    On a store whose pages have unique primary keys and with a mapping
    that carries the identity and leaves the primary key of a page alone,
    when two eligible records of a document have the same [wp:post_id]
    and the run returns, the log entry of the later one reports
    ["updated"]. *)
Theorem repeated_identity_is_updated :
  forall (C : Collaborators) (O : Store.Orm)
         (before middle after : list raw_item)
         (x y : raw_item) (m : WordpressMapping.mapping) (kw : kwargs)
         (st st' : Store.t) (r : nat * nat * nat) (log : list logged_item)
         (self' : importer),
    store_wf st ->
    identity_mapped m ->
    keeps_primary_key m ->
    run (init (before ++ x :: middle ++ y :: after) m) kw st
    = Ok (r, log, self', st') ->
    eligible kw x = true -> eligible kw y = true ->
    identity_of x = identity_of y ->
    exists logged,
      nth_error log (length before + S (length middle)) = Some logged
      /\ log_field "result" logged = Some (PyStr "updated").
Proof.
  intros C O before middle after x y m kw st st' r log self' Hwf Hid Hkeep
         Hrun Hx Hy Hsame.
  apply run_ok_inv in Hrun.
  destruct Hrun as [model [parent_obj [_ [_ [Hloop Hr]]]]].
  cbn [xml_file init] in Hloop.
  set (doc := before ++ x :: middle ++ y :: after) in *.
  set (self0 := with_target (init doc m) model parent_obj) in *.
  assert (Hdoc : doc = (before ++ x :: middle) ++ y :: after).
  { unfold doc. now rewrite <- app_assoc. }
  rewrite Hdoc, foldM_app in Hloop.
  destruct (foldM (process_item model parent_obj kw) (before ++ x :: middle)
                  (self0, st)) as [[self3 st3]|e] eqn:Hpre;
    cbn [bind] in Hloop; [|discriminate].
  cbn [foldM] in Hloop.
  destruct (process_item model parent_obj kw (self3, st3) y)
    as [[self4 st4]|e] eqn:Hstep; cbn [bind] in Hloop; [|discriminate].
  destruct (first_loop model kw doc m Hid Hkeep parent_obj
              (before ++ x :: middle) self0 st self3 st3 eq_refl Hwf Hpre)
    as [_ [_ [Hknown _]]].
  pose proof (loop_audit model parent_obj kw _ _ _ _ _ Hpre)
    as [Hc3 [_ [_ [_ [logs3 [Hlog3 [HF3 _]]]]]]].
  cbn [self0 with_target init logged_items app] in Hlog3.
  assert (Hk : known model st3 (identity_of y)).
  { rewrite <- Hsame. apply Hknown; auto.
    apply in_or_app. right. now left. }
  destruct (known_filter_first _ _ _ Hk) as [existing Hf].
  destruct (process_item_ok model parent_obj kw self3 self4 st3 st4 y
              Hy Hstep) as [vals [dv [sc [_ Hcase]]]].
  destruct Hcase as [[existing' [obj [outcome [_ [_ Hself4]]]]]
                    |[obj [outcome [Hnone _]]]]; [|congruence].
  assert (Hlog4 : logged_items self4
                  = logs3 ++ [set_log y (log_entry "updated" "existed"
                                                   (PyBool dv) sc)]).
  { rewrite Hself4. cbn [bump logged_items].
    now rewrite app_nil_r, Hlog3. }
  pose proof (loop_audit model parent_obj kw _ _ _ _ _ Hloop)
    as [_ [_ [_ [_ [logs5 [Hlog5 _]]]]]].
  injection Hr as _ ->.
  rewrite Hlog5, Hlog4, <- app_assoc. cbn [app].
  eexists. split.
  - rewrite nth_error_app2.
    + replace (length before + S (length middle) - length logs3) with 0.
      * reflexivity.
      * rewrite <- (Forall2_length HF3), length_app. cbn [length]. lia.
    + rewrite <- (Forall2_length HF3), length_app. cbn [length]. lia.
  - now rewrite log_field_set_log.
Qed.

Lemma repeated_identity_is_updated_witness :
  exists r log self' st' logged,
    run (C := reference) (O := Store.wagtail)
        (init Cases.repeated_document Sample.mapping)
        Sample.options Sample.store = Ok (r, log, self', st')
    /\ nth_error log 4 = Some logged
    /\ log_field "result" logged = Some (PyStr "updated").
Proof.
  destruct (run (C := reference) (O := Store.wagtail)
                (init Cases.repeated_document Sample.mapping)
                Sample.options Sample.store)
    as [[[[r log] self'] st']|e] eqn:E; [|vm_compute in E; discriminate].
  destruct (repeated_identity_is_updated reference Store.wagtail
              [Sample.attachment] [Sample.draft; Sample.attachment] []
              Sample.post Sample.post Sample.mapping Sample.options
              Sample.store st' r log self' sample_store_wf
              sample_identity_mapped sample_keeps_primary_key E
              eq_refl eq_refl eq_refl)
    as [logged [Hnth Hres]].
  exists r, log, self', st', logged. auto.
Defined.

(** The reference store refuses the second of two posts with one slug:
    the run ends with Wagtail's [ValidationError]. *)
Example run_refused_write :
  run (C := reference) (O := Store.wagtail)
      (init Cases.clashing_document Sample.mapping) Sample.options
      Sample.store
  = Raise (DjangoError "ValidationError").
Proof. vm_compute. reflexivity. Qed.

(** ** [analyze_html] *)

Lemma foldM_map {A B S : Type} (f : S -> B -> result S) (g : A -> B)
  (l : list A) (s : S) :
  foldM f (map g l) s = foldM (fun s x => f s (g x)) l s.
Proof.
  revert s. induction l as [|x l IH]; intros s; cbn [map foldM]; auto.
  destruct (f s (g x)); cbn [bind]; auto.
Qed.

(** X18.  [analyze_html] hands the analyzer the line-break conversion of
    the source of every stream field of every eligible record, record by
    record in document order and field by field in the order of the
    setting, and nothing else: a record that [run] would skip is not
    analysed.  It stops at the first failure of the conversion or of the
    analyzer. *)
Theorem analyze_html_visits :
  forall (C : Collaborators) (analyzer : Type)
         (analyze : analyzer -> string -> result analyzer)
         (linebreaks_wp_none : result string)
         (self : importer) (html_analyzer : analyzer) (kw : kwargs),
    analyze_html analyzer analyze linebreaks_wp_none self html_analyzer
                 (page_types kw) (page_statuses kw)
    = foldM
        (fun a value =>
           text <- linebreaks_wp_value linebreaks_wp_none value ;;
           analyze a text)
        (flat_map
           (fun item =>
              map (source_of self item)
                  (split comma (mapping_stream_fields self)))
           (filter (eligible kw) (xml_file self)))
        html_analyzer.
Proof.
  intros C analyzer analyze linebreaks_wp_none self html_analyzer kw.
  unfold analyze_html. cbv zeta.
  generalize (xml_file self). intros doc. revert html_analyzer.
  induction doc as [|item doc IH]; intros a; cbn [foldM filter flat_map];
    [reflexivity|].
  unfold analyze_item at 1. fold (eligible kw item).
  destruct (eligible kw item); cbn [bind flat_map].
  - rewrite foldM_app, foldM_map. cbv zeta.
    unfold analyze_field, source_of.
    destruct (foldM _ (split comma (mapping_stream_fields self)) a);
      cbn [bind]; auto.
  - apply IH.
Qed.

(** ** The slug normaliser, continued *)

(** X19.  The outcome of [parse_slug] tells what happened.  ["OK"] means
    that the slug is the raw value, which was not empty; ["blank slug"]
    means that the raw value was empty or absent and the slug was made of
    the title; ["illegal chars found"] means that the raw value was not
    empty and that the slug is its slugified form and differs from it. *)
Theorem parse_slug_outcome_read_back :
  forall (C : Collaborators) (value title : raw) (slug : string),
    (parse_slug value title = (slug, "OK") ->
     value = Some slug /\ slug <> EmptyString)
    /\ (parse_slug value title = (slug, "blank slug") ->
        (value = None \/ value = Some EmptyString)
        /\ slug = slugify (py_str title))
    /\ (parse_slug value title = (slug, "illegal chars found") ->
        exists v, value = Some v /\ v <> EmptyString
                  /\ slug = slugify v /\ slug <> v).
Proof.
  intros C value title slug. unfold parse_slug.
  destruct value as [v|]; cbn [truthy negb py_str andb].
  - destruct (String.eqb v EmptyString) eqn:Ev; cbn [negb andb].
    + apply String.eqb_eq in Ev. subst v.
      split; [discriminate|]. split; [|discriminate].
      intros [= <-]. auto.
    + apply String.eqb_neq in Ev.
      destruct (String.eqb (slugify v) v) eqn:Es; cbn [negb].
      * apply String.eqb_eq in Es.
        split; [|split; discriminate].
        intros [= <-]. split; congruence.
      * apply String.eqb_neq in Es.
        split; [discriminate|]. split; [discriminate|].
        intros [= <-]. now exists v.
  - split; [discriminate|]. split; [|discriminate].
    intros [= <-]. auto.
Qed.

Lemma parse_slug_outcome_read_back_witness :
  exists v,
    Some "Bad Slug!" = Some v /\ v <> EmptyString
    /\ "bad-slug" = slugify (Collaborators := reference) v
    /\ "bad-slug" <> v.
Proof.
  apply (proj2 (proj2 (parse_slug_outcome_read_back reference
                         (Some "Bad Slug!") (Some "A title") "bad-slug"))).
  reflexivity.
Defined.

(** The texts that an analyzer which keeps what it is handed has seen after
    the sample document: the content of the three eligible records. *)
Example analyze_html_sample :
  analyze_html (C := reference) (list string) Cases.collect
               (Raise AttributeError)
               (init Sample.document Sample.mapping) []
               ["post"; "page"] ["publish"; "draft"]
  = Ok ["<p>Hi</p>|linebreaks_wp"; "draft text|linebreaks_wp";
        "<p>Hi</p>|linebreaks_wp"].
Proof. reflexivity. Qed.
